(** * Calendar-constrained date/time selection engine of the RHF date-time picker

    A shallow embedding of [utils/Date.utils.ts], [utils/Number.utils.ts],
    [utils/constants.ts] and of the selection logic of
    [form/fields/RHFDateTimePicker.tsx] and [form/fields/RHFDatePicker.tsx],
    followed by the properties of the specification that are stated about
    them and by further properties of the same code.

    Platform model.  A JavaScript [Date] is its time value: an integer number
    of milliseconds since the epoch.  Local time is taken to be UTC (the
    instants are timezone-naive, no daylight saving), the calendar is the
    proleptic Gregorian one, and the two legacy corners of the [Date]
    constructor (two-digit years 0..99 being read as 1900..1999, and the
    clipping of time values beyond 8.64e15 ms) are outside the model except
    where a definition says otherwise: the module [AnyYear] writes the two
    range checks that take a year number with the first of them.  Numbers
    that the component handles
    (steps, minutes, hours, day numbers) are integers, so [Math.floor (a / b)]
    is [a / b] on [Z] and [Math.ceil (a / b)] is [- ((- a) / b)].

    Component model.  The component is a state machine over [State], which
    holds its [useState] cells and the field of the form store; the props
    are fixed for a session.  An [Event] is a click or an open/close request,
    with the reading of the clock; it reaches its handler only when its
    element is rendered and enabled.  [step] runs the handler to completion,
    then the store update of [field.onChange], then the seeding effect when
    [open] or the memoised [selected] changed; it returns the new state and
    the value handed to [field.onChange], if any. *)

From Stdlib Require Import ZArith List Bool Lia String Ascii.
From Stdlib Require Import DecimalString DecimalPos DecimalZ.
Import ListNotations.
Open Scope Z_scope.

(* ================================================================== *)
(** * The platform: time values and calendar fields                    *)
(* ================================================================== *)

Module JS.

Definition Date := Z.

Definition msPerSecond : Z := 1000.
Definition msPerMinute : Z := 60000.
Definition msPerHour : Z := 3600000.
Definition msPerDay : Z := 86400000.

(** Largest magnitude of a time value (TimeClip). *)
Definition maxTime : Z := 8640000000000000.

Definition Day (t : Z) : Z := t / msPerDay.
Definition TimeWithinDay (t : Z) : Z := t mod msPerDay.

Definition isLeap (y : Z) : bool :=
  ((y mod 4 =? 0) && negb (y mod 100 =? 0)) || (y mod 400 =? 0).

(** Length of month [m] (1..12) of year [y]. *)
Definition DaysInMonth (y m : Z) : Z :=
  if m =? 2 then (if isLeap y then 29 else 28)
  else if (m =? 4) || (m =? 6) || (m =? 9) || (m =? 11) then 30
  else 31.

(** Day number (days since 1970-01-01) of the civil date [y]-[m]-[d], with
    [m] in 1..12.  Years are counted from March, in eras of 400 years. *)
Definition days_from_civil (y m d : Z) : Z :=
  let y' := if m <=? 2 then y - 1 else y in
  let era := y' / 400 in
  let yoe := y' - era * 400 in
  let mp := if m <=? 2 then m + 9 else m - 3 in
  let doy := (153 * mp + 2) / 5 + d - 1 in
  let doe := yoe * 365 + yoe / 4 - yoe / 100 + doy in
  era * 146097 + doe - 719468.

(** Civil date (year, month 1..12, day) of a day number. *)
Definition civil_from_days (z : Z) : Z * Z * Z :=
  let z' := z + 719468 in
  let era := z' / 146097 in
  let doe := z' - era * 146097 in
  let yoe := (doe - doe / 1460 + doe / 36524 - doe / 146096) / 365 in
  let doy := doe - (365 * yoe + yoe / 4 - yoe / 100) in
  let mp := (5 * doy + 2) / 153 in
  let d := doy - (153 * mp + 2) / 5 + 1 in
  let m := if mp <? 10 then mp + 3 else mp - 9 in
  let y := yoe + era * 400 in
  (if m <=? 2 then y + 1 else y, m, d).

(** [MakeDay], [MakeTime], [MakeDate] of the language definition; the month
    argument is zero-based and may lie outside 0..11, the date may lie
    outside the month. *)
Definition MakeDay (year month date : Z) : Z :=
  let ym := year + month / 12 in
  let mn := month mod 12 in
  days_from_civil ym (mn + 1) 1 + date - 1.

Definition MakeTime (hour min sec ms : Z) : Z :=
  hour * msPerHour + min * msPerMinute + sec * msPerSecond + ms.

Definition MakeDate (day time : Z) : Z := day * msPerDay + time.

(** [new Date(y, m, d, h, mi)] and [new Date(y, m, d)]. *)
Definition newDate5 (y m d h mi : Z) : Date :=
  MakeDate (MakeDay y m d) (MakeTime h mi 0 0).

Definition newDate3 (y m d : Z) : Date := newDate5 y m d 0 0.

Definition getTime (t : Date) : Z := t.
Definition getFullYear (t : Date) : Z := fst (fst (civil_from_days (Day t))).
Definition getMonth (t : Date) : Z := snd (fst (civil_from_days (Day t))) - 1.
Definition getDate (t : Date) : Z := snd (civil_from_days (Day t)).
Definition getHours (t : Date) : Z := (t / msPerHour) mod 24.
Definition getMinutes (t : Date) : Z := (t / msPerMinute) mod 60.
Definition getSeconds (t : Date) : Z := (t / msPerSecond) mod 60.
Definition getMilliseconds (t : Date) : Z := t mod msPerSecond.

(** Weekday, 0 = Sunday; the epoch was a Thursday. *)
Definition getDay (t : Date) : Z := (Day t + 4) mod 7.

(** ** Text form of an instant: [toISOString] and [Date.parse] *)

Definition digitChar (n : Z) : ascii := ascii_of_nat (48 + Z.to_nat n).

Definition digitVal (c : ascii) : option Z :=
  let n := Z.of_nat (nat_of_ascii c) in
  if (48 <=? n) && (n <=? 57) then Some (n - 48) else None.

(** [k] decimal digits of [n], most significant first. *)
Fixpoint padDigits (k : nat) (n : Z) : list ascii :=
  match k with
  | O => []
  | S k' => padDigits k' (n / 10) ++ [digitChar (n mod 10)]
  end.

Definition yearText (y : Z) : list ascii :=
  if (0 <=? y) && (y <=? 9999) then padDigits 4 y
  else (if y <? 0 then "-"%char else "+"%char) :: padDigits 6 (Z.abs y).

(** [d.toISOString()]: YYYY-MM-DDTHH:mm:ss.sssZ, six-digit signed years
    outside 0..9999. *)
Definition toISOString (t : Date) : string :=
  string_of_list_ascii
    (yearText (getFullYear t) ++ "-"%char :: padDigits 2 (getMonth t + 1)
     ++ "-"%char :: padDigits 2 (getDate t)
     ++ "T"%char :: padDigits 2 (getHours t)
     ++ ":"%char :: padDigits 2 (getMinutes t)
     ++ ":"%char :: padDigits 2 (getSeconds t)
     ++ "."%char :: padDigits 3 (getMilliseconds t)
     ++ ["Z"%char]).

Notation "'let?' p := e 'in' k" :=
  (match e with Some p => k | None => None end)
  (at level 10, p pattern, e at level 100, k at level 200, only parsing).

(** Reads exactly [k] decimal digits. *)
Fixpoint readDigits (k : nat) (acc : Z) (s : list ascii) : option (Z * list ascii) :=
  match k with
  | O => Some (acc, s)
  | S k' =>
      match s with
      | [] => None
      | c :: rest =>
          match digitVal c with
          | Some v => readDigits k' (acc * 10 + v) rest
          | None => None
          end
      end
  end.

Definition expectChar (c : ascii) (s : list ascii) : option (list ascii) :=
  match s with
  | c' :: rest => if Ascii.eqb c c' then Some rest else None
  | [] => None
  end.

Definition readYear (s : list ascii) : option (Z * list ascii) :=
  match s with
  | c :: rest =>
      if Ascii.eqb c "+"%char then readDigits 6 0 rest
      else if Ascii.eqb c "-"%char then
        match readDigits 6 0 rest with
        | Some (y, rest') => if y =? 0 then None else Some (- y, rest')
        | None => None
        end
      else readDigits 4 0 s
  | [] => None
  end.

(** The complete form of the date-time string format with the UTC
    designator; [None] when the text is not of that form or a field is out
    of its range. *)
Definition parseIsoComplete (s : list ascii) : option Z :=
  let? (y, s) := readYear s in
  let? s := expectChar "-"%char s in
  let? (mo, s) := readDigits 2 0 s in
  let? s := expectChar "-"%char s in
  let? (d, s) := readDigits 2 0 s in
  let? s := expectChar "T"%char s in
  let? (h, s) := readDigits 2 0 s in
  let? s := expectChar ":"%char s in
  let? (mi, s) := readDigits 2 0 s in
  let? s := expectChar ":"%char s in
  let? (sec, s) := readDigits 2 0 s in
  let? s := expectChar "."%char s in
  let? (ms, s) := readDigits 3 0 s in
  let? s := expectChar "Z"%char s in
  match s with
  | [] =>
      if (1 <=? mo) && (mo <=? 12) && (1 <=? d) && (d <=? DaysInMonth y mo)
         && (h <=? 23) && (mi <=? 59) && (sec <=? 59)
      then
        let t := MakeDate (MakeDay y (mo - 1) d) (MakeTime h mi sec ms) in
        if Z.abs t <=? maxTime then Some t else None
      else None
  | _ :: _ => None
  end.

(** ** Numbers and dates as text *)

(** [String(n)] of an integer [n] (below 1e21 in magnitude, where the
    platform writes a number in plain decimal form): its decimal digits,
    after a minus sign when it is negative. *)
Definition numberToString (n : Z) : string := NilZero.string_of_int (Z.to_int n).

(** The text of a number read off a [Date] object: an integer, or NaN when
    the date is invalid. *)
Definition numText (n : option Z) : string :=
  match n with
  | Some z => numberToString z
  | None => "NaN"%string
  end.

(** [s.padStart(n, c)] for a pad string of the one character [c]. *)
Definition padStart (n : nat) (c : ascii) (s : string) : string :=
  (string_of_list_ascii (List.repeat c (n - String.length s)%nat) ++ s)%string.

(** A [Date] object: a time value, or an invalid date. *)
Definition DateObj : Type := option Date.

End JS.

(* ================================================================== *)
(** * utils/Number.utils.ts                                            *)
(* ================================================================== *)

Module NumberUtils.

(** [clamp(n, min, max) = Math.min(Math.max(n, min), max)] *)
Definition clamp (n min max : Z) : Z := Z.min (Z.max n min) max.

(** [range(n)]: the array 0, 1, ..., n-1. *)
Definition range (n : Z) : list Z := List.map Z.of_nat (List.seq 0 (Z.to_nat n)).


(** [pad2(n)]: [n < 10 ? `0${n}` : String(n)] *)
Definition pad2 (n : Z) : string :=
  if n <? 10 then ("0" ++ JS.numberToString n)%string else JS.numberToString n.

End NumberUtils.

(* ================================================================== *)
(** * utils/Date.utils.ts                                              *)
(* ================================================================== *)

Module DateUtils.
Import JS.

(** [type DateRange = { min?: Date; max?: Date }] *)
Record DateRange : Type := mkRange { min : option Date; max : option Date }.

Definition stripTime (d : Date) : Date :=
  newDate3 (getFullYear d) (getMonth d) (getDate d).

Definition isDateInRange (date : Date) (range : option DateRange) (inclusive : bool) : bool :=
  match range with
  | None => true
  | Some r =>
      let t := getTime (stripTime date) in
      let below :=
        match min r with
        | Some mn =>
            let minT := getTime (stripTime mn) in
            if inclusive then t <? minT else t <=? minT
        | None => false
        end in
      if below then false
      else
        let above :=
          match max r with
          | Some mx =>
              let maxT := getTime (stripTime mx) in
              if inclusive then t >? maxT else t >=? maxT
          | None => false
          end in
        if above then false else true
  end.

Definition isMonthInRange (year month0 : Z) (range : option DateRange) : bool :=
  match range with
  | None => true
  | Some r =>
      match min r, max r with
      | None, None => true
      | _, _ =>
          let first := stripTime (newDate3 year month0 1) in
          let last := stripTime (newDate3 year (month0 + 1) 0) in
          let left :=
            match min r with
            | Some mn => Z.max (getTime first) (getTime (stripTime mn))
            | None => getTime first
            end in
          let right :=
            match max r with
            | Some mx => Z.min (getTime last) (getTime (stripTime mx))
            | None => getTime last
            end in
          left <=? right
      end
  end.

Definition isYearInRange (year : Z) (range : option DateRange) : bool :=
  match range with
  | None => true
  | Some r =>
      match min r, max r with
      | None, None => true
      | _, _ =>
          let first := stripTime (newDate3 year 0 1) in
          let last := stripTime (newDate3 (year + 1) 0 0) in
          let left :=
            match min r with
            | Some mn => Z.max (getTime first) (getTime (stripTime mn))
            | None => getTime first
            end in
          let right :=
            match max r with
            | Some mx => Z.min (getTime last) (getTime (stripTime mx))
            | None => getTime last
            end in
          left <=? right
      end
  end.

(** [getYearRange(range, spread)]; [now] is the reading of the clock. *)
Definition getYearRange (now : Date) (range : option DateRange) (spread : Z) : Z * Z :=
  let mn := match range with Some r => min r | None => None end in
  let mx := match range with Some r => max r | None => None end in
  match mn, mx with
  | Some a, Some b => (getFullYear a, getFullYear b)
  | Some a, None => let y := getFullYear a in (y, y + spread)
  | None, Some b => let y := getFullYear b in (y - spread, y)
  | None, None => let y := getFullYear now in (y - spread, y + spread)
  end.

Definition isDayDisabled (date : Date) (range : option DateRange)
    (disabledDates : option (Date -> bool)) : bool :=
  let excluded := match disabledDates with Some p => p date | None => false end in
  if excluded then true else negb (isDateInRange date range true).

Definition startOfMonth (d : Date) : Date := newDate3 (getFullYear d) (getMonth d) 1.
Definition endOfMonth (d : Date) : Date := newDate3 (getFullYear d) (getMonth d + 1) 0.
Definition addMonths (d : Date) (delta : Z) : Date :=
  newDate3 (getFullYear d) (getMonth d + delta) 1.


(** ** Conversions to text

    These take a [Date] object that may be invalid: every getter of an
    invalid date is NaN, and [new Date(NaN, NaN, NaN)] is invalid. *)

Definition get24HourTime (date : DateObj) : string :=
  let hours := padStart 2 "0" (numText (option_map getHours date)) in
  let minutes := padStart 2 "0" (numText (option_map getMinutes date)) in
  let seconds := padStart 2 "0" (numText (option_map getSeconds date)) in
  let milliseconds := padStart 3 "0" (numText (option_map getMilliseconds date)) in
  (hours ++ ":" ++ minutes ++ ":" ++ seconds ++ "." ++ milliseconds)%string.

(** One position of a pattern: [\d], or a character standing for itself. *)
Inductive PatternAtom : Type := PDigit | PChar (c : ascii).

(** [/^p/.test(s)] for a pattern [p] that is a row of such positions. *)
Fixpoint testPrefix (p : list PatternAtom) (s : list ascii) : bool :=
  match p with
  | [] => true
  | a :: p' =>
      match s with
      | [] => false
      | c :: s' =>
          match a with
          | PDigit => match digitVal c with Some _ => true | None => false end
          | PChar x => Ascii.eqb x c
          end && testPrefix p' s'
      end
  end.

(** [/^\d{4}-\d{2}-\d{2}T/] *)
Definition isoDatePattern : list PatternAtom :=
  [PDigit; PDigit; PDigit; PDigit; PChar "-"; PDigit; PDigit; PChar "-";
   PDigit; PDigit; PChar "T"].

(** [isIsoDateString] on a value that is a string; on a value of another
    type it is [false]. *)
Definition isIsoDateText (value : string) : bool :=
  testPrefix isoDatePattern (list_ascii_of_string value).

(** [formatTime]: HH:mm *)
Definition formatTime (d : DateObj) : string :=
  let hh := padStart 2 "0" (numText (option_map getHours d)) in
  let mm := padStart 2 "0" (numText (option_map getMinutes d)) in
  (hh ++ ":" ++ mm)%string.

(** [formatFull]: DD.MM.YYYY HH:mm *)
Definition formatFull (d : DateObj) : string :=
  let dd := padStart 2 "0" (numText (option_map getDate d)) in
  let mm := padStart 2 "0" (numText (option_map (fun t => getMonth t + 1) d)) in
  let yyyy := numText (option_map getFullYear d) in
  (dd ++ "." ++ mm ++ "." ++ yyyy ++ " " ++ formatTime d)%string.

Definition dateOnly (d : DateObj) : DateObj :=
  option_map (fun t => newDate3 (getFullYear t) (getMonth t) (getDate t)) d.

(** [string | Date], the argument of [new Date(input)]. *)
Inductive DateInput : Type :=
  | InDate (d : DateObj)
  | InString (s : string).

(** [new Date(input)]: the time value of a [Date], the parse of a string;
    [parse] is [Date.parse]. *)
Definition newDateFrom (parse : string -> option Z) (input : DateInput) : DateObj :=
  match input with
  | InDate d => d
  | InString s => parse s
  end.

(** [formatSmartDate]; [now] is the reading of the clock.  A comparison
    with NaN is false, so an invalid date falls through to [formatFull]. *)
Definition formatSmartDate (parse : string -> option Z) (now : Date)
    (input : DateInput) : string :=
  let date := newDateFrom parse input in
  let dateDay := option_map getTime (dateOnly date) in
  let nowDay := option_map getTime (dateOnly (Some now)) in
  let diffDays :=
    match nowDay, dateDay with
    | Some a, Some b => Some ((a - b) / msPerDay)
    | _, _ => None
    end in
  match diffDays with
  | Some k =>
      if k =? 0 then ("today " ++ formatTime date)%string
      else if k =? 1 then ("yesterday " ++ formatTime date)%string
      else if k <=? 6 then (numberToString k ++ " days ago " ++ formatTime date)%string
      else formatFull date
  | None => formatFull date
  end.

End DateUtils.

(* ================================================================== *)
(** * Year numbers from 0 to 99                                        *)
(* ================================================================== *)

(** [new Date(year, month, day)] reads a year number from 0 to 99 as
    1900 + year.  [JS.newDate3] is the constructor on the other years, and
    the functions above stand on it, their years being read off dates.
    The two range checks that are handed a year number by their caller are
    written out here on any year number, every call of the constructor
    with that reading, the ones inside [stripTime] included. *)
Module AnyYear.
Import JS DateUtils.

Definition MakeFullYear (year : Z) : Z :=
  if (0 <=? year) && (year <=? 99) then 1900 + year else year.

(** [new Date(year, month, day)] *)
Definition newDate3 (year month day : Z) : Date :=
  JS.newDate3 (MakeFullYear year) month day.

Definition stripTime (d : Date) : Date :=
  newDate3 (getFullYear d) (getMonth d) (getDate d).

Definition isMonthInRange (year month0 : Z) (range : option DateRange) : bool :=
  match range with
  | None => true
  | Some r =>
      match min r, max r with
      | None, None => true
      | _, _ =>
          let first := stripTime (newDate3 year month0 1) in
          let last := stripTime (newDate3 year (month0 + 1) 0) in
          let left :=
            match min r with
            | Some mn => Z.max (getTime first) (getTime (stripTime mn))
            | None => getTime first
            end in
          let right :=
            match max r with
            | Some mx => Z.min (getTime last) (getTime (stripTime mx))
            | None => getTime last
            end in
          left <=? right
      end
  end.

Definition isYearInRange (year : Z) (range : option DateRange) : bool :=
  match range with
  | None => true
  | Some r =>
      match min r, max r with
      | None, None => true
      | _, _ =>
          let first := stripTime (newDate3 year 0 1) in
          let last := stripTime (newDate3 (year + 1) 0 0) in
          let left :=
            match min r with
            | Some mn => Z.max (getTime first) (getTime (stripTime mn))
            | None => getTime first
            end in
          let right :=
            match max r with
            | Some mx => Z.min (getTime last) (getTime (stripTime mx))
            | None => getTime last
            end in
          left <=? right
      end
  end.

End AnyYear.

(* ================================================================== *)
(** * form/fields/RHFDateTimePicker.tsx                                *)
(* ================================================================== *)

Import JS DateUtils.

Inductive ValueAs : Type := AsIso | AsDate.
Inductive ViewMode : Type := ViewDate | ViewMonthYear.

(** What the form store may hold under the field's name ([unknown] in the
    source): nothing, a [Date] (possibly an invalid one), a string, or some
    other value. *)
Inductive FieldValue : Type :=
  | VUndefined
  | VNull
  | VDate (d : option Date)
  | VString (s : string)
  | VOther.

Definition viewEqb (a b : ViewMode) : bool :=
  match a, b with
  | ViewDate, ViewDate | ViewMonthYear, ViewMonthYear => true
  | _, _ => false
  end.

Definition isSome {A : Type} (o : option A) : bool :=
  match o with Some _ => true | None => false end.

(** [weekdayIndexMonFirst]: Monday first, from the platform's Sunday = 0. *)
Definition weekdayIndexMonFirst (jsDay : Z) : Z := if jsDay =? 0 then 6 else jsDay - 1.

(** The closing loop of [buildDaysGrid]:
    [while (out.length % 7 !== 0) out.push(null)]. *)
Fixpoint padToWeeks (fuel : nat) (out : list (option Z)) : list (option Z) :=
  match fuel with
  | O => out
  | S k =>
      if negb (Z.of_nat (List.length out) mod 7 =? 0)
      then padToWeeks k (out ++ [None])
      else out
  end.

(** Consecutive integers [lo], [lo + 1], ... ([n] of them). *)
Definition countFrom (lo : Z) (n : nat) : list Z :=
  List.map (fun k => lo + Z.of_nat k) (List.seq 0 n).

Definition buildDaysGrid (base : Date) : list (option Z) :=
  let first := startOfMonth base in
  let daysInMonth := getDate (endOfMonth base) in
  let startOffset := weekdayIndexMonFirst (getDay first) in
  let out := List.repeat None (Z.to_nat startOffset) in
  let out := out ++ List.map Some (countFrom 1 (Z.to_nat daysInMonth)) in
  padToWeeks 7 out.

(** Props of the component that the engine reads. *)
Record Props : Type := mkProps {
  minDate : option Date;
  maxDate : option Date;
  disabledDates : option (Date -> bool);
  minuteStep : Z;
  valueAs : ValueAs;
  requireTime : bool;
  disabled : bool;
  withClearButton : bool
}.

(** The component's [useState] cells, and the field of the form store. *)
Record State : Type := mkState {
  open : bool;
  view : ViewMode;
  displayDate : Date;
  draft : Date;
  picked_date : bool;
  picked_time : bool;
  hourTouched : bool;
  minuteTouched : bool;
  value : FieldValue
}.

Definition setOpen (s : State) (b : bool) : State :=
  mkState b (view s) (displayDate s) (draft s) (picked_date s) (picked_time s)
          (hourTouched s) (minuteTouched s) (value s).
Definition setView (s : State) (v : ViewMode) : State :=
  mkState (open s) v (displayDate s) (draft s) (picked_date s) (picked_time s)
          (hourTouched s) (minuteTouched s) (value s).
Definition setDisplayDate (s : State) (d : Date) : State :=
  mkState (open s) (view s) d (draft s) (picked_date s) (picked_time s)
          (hourTouched s) (minuteTouched s) (value s).
Definition setDraft (s : State) (d : Date) : State :=
  mkState (open s) (view s) (displayDate s) d (picked_date s) (picked_time s)
          (hourTouched s) (minuteTouched s) (value s).
Definition setPicked (s : State) (date time : bool) : State :=
  mkState (open s) (view s) (displayDate s) (draft s) date time
          (hourTouched s) (minuteTouched s) (value s).
Definition setHourTouched (s : State) (b : bool) : State :=
  mkState (open s) (view s) (displayDate s) (draft s) (picked_date s) (picked_time s)
          b (minuteTouched s) (value s).
Definition setMinuteTouched (s : State) (b : bool) : State :=
  mkState (open s) (view s) (displayDate s) (draft s) (picked_date s) (picked_time s)
          (hourTouched s) b (value s).
(** [field.onChange(v)] *)
Definition setValue (s : State) (v : FieldValue) : State :=
  mkState (open s) (view s) (displayDate s) (draft s) (picked_date s) (picked_time s)
          (hourTouched s) (minuteTouched s) v.

(** [{ minHour, minMinuteStepAligned }] *)
Record LowerBound : Type := mkLower { minHour : Z; minMinuteStepAligned : Z }.

(** [roundUpToStep]: [Math.min(59, Math.ceil(minute / step) * step)]. *)
Definition roundUpToStep (minute step : Z) : Z :=
  Z.min 59 (- ((- minute) / step) * step).

Definition isSameDay (a b : Date) : bool :=
  (getFullYear a =? getFullYear b) && (getMonth a =? getMonth b)
  && (getDate a =? getDate b).

Inductive Event : Type :=
  | EvOpenChange (nextOpen : bool)
  | EvDayClick (dayNum : Z)
  | EvHourClick (hour : Z)
  | EvMinuteClick (minute : Z)
  | EvMonthClick (m0 : Z)
  | EvYearClick (year : Z)
  | EvNavigate (dir : Z)
  | EvToggleView
  | EvClear.

Section Picker.

(** [Date.parse] on texts that are not in the complete date-time form is
    left to the implementation by the language definition. *)
Variable legacyParse : string -> option Z.

Definition Date_parse (s : string) : option Z :=
  match parseIsoComplete (list_ascii_of_string s) with
  | Some t => Some t
  | None => legacyParse s
  end.

(** [parseToDate]: [null] for a falsy value, an invalid [Date], an
    unparsable string, or anything that is neither a [Date] nor a string. *)
Definition parseToDate (v : FieldValue) : option Date :=
  match v with
  | VUndefined | VNull => None
  | VDate d => d
  | VString s => if String.eqb s EmptyString then None else Date_parse s
  | VOther => None
  end.

Variable props : Props.

Definition selected (s : State) : option Date := parseToDate (value s).

Definition rangeObj : option DateRange := Some (mkRange (minDate props) (maxDate props)).

(** The base instant of a (re)seeding: the selected value, else the later
    of the clock and [minDate], else the clock. *)
Definition seedBase (now : Date) (s : State) : Date :=
  match selected s with
  | Some d => d
  | None =>
      match minDate props with
      | Some mn => Z.max now (getTime mn)
      | None => now
      end
  end.

Definition normalizeToStep (base : Date) : Date :=
  newDate5 (getFullYear base) (getMonth base) (getDate base) (getHours base)
           (getMinutes base / minuteStep props * minuteStep props).

(** The effect over [open, selected, minDate, minuteStep]. *)
Definition syncEffect (now : Date) (s : State) : State :=
  if negb (open s) then s
  else
    let base := seedBase now s in
    let has := isSome (selected s) in
    mkState (open s) (view s) (startOfMonth base) (normalizeToStep base)
            has has has has (value s).

Definition canNavigatePrev (s : State) : bool :=
  match minDate props with
  | None => true
  | Some mn => endOfMonth (addMonths (displayDate s) (-1)) >=? stripTime mn
  end.

Definition canNavigateNext (s : State) : bool :=
  match maxDate props with
  | None => true
  | Some mx => startOfMonth (addMonths (displayDate s) 1) <=? stripTime mx
  end.

Definition toggleView (s : State) : State :=
  setView s (match view s with ViewDate => ViewMonthYear | ViewMonthYear => ViewDate end).

(** [commit]: the value handed to [field.onChange], if it is called. *)
Definition commit (d : option Date) : option FieldValue :=
  match d with
  | None => Some VUndefined
  | Some d =>
      if negb (isDateInRange d rangeObj true) then None
      else Some (match valueAs props with
                 | AsIso => VString (toISOString d)
                 | AsDate => VDate (Some d)
                 end)
  end.

Definition commitIfComplete (next : Date) (nextDate nextTime : bool) : option FieldValue :=
  if negb (requireTime props) || (nextDate && nextTime) then commit (Some next) else None.

Definition isDayDisabled (date : Date) : bool :=
  DateUtils.isDayDisabled date rangeObj (disabledDates props).

Definition isMonthDisabled (y m0 : Z) : bool :=
  let first := newDate3 y m0 1 in
  let last := newDate3 y (m0 + 1) 0 in
  if match minDate props with
     | Some mn => stripTime last <? stripTime mn
     | None => false
     end then true
  else if match maxDate props with
          | Some mx => stripTime first >? stripTime mx
          | None => false
          end then true
  else false.

Definition isDateTimeDisabled (dt : Date) : bool :=
  if negb (isDateInRange dt rangeObj true) then true else false.

Definition getLowerBoundForDraft (s : State) : option LowerBound :=
  match minDate props with
  | None => None
  | Some mn =>
      if negb (isSameDay (draft s) mn) then None
      else Some (mkLower (getHours mn) (roundUpToStep (getMinutes mn) (minuteStep props)))
  end.

(** The two [for] loops of [isHourCompletelyDisabled], over the indices
    [i = 0 .. floor(60 / minuteStep) - 1]: [false] at the first minute that
    is free, [true] when the indices are exhausted. *)
Fixpoint scanFrom (s : State) (hour floorMinute : Z) (indices : list Z) : bool :=
  match indices with
  | [] => true
  | i :: rest =>
      let m := i * minuteStep props in
      if m <? floorMinute then scanFrom s hour floorMinute rest
      else
        let probe := newDate5 (getFullYear (draft s)) (getMonth (draft s))
                              (getDate (draft s)) hour m in
        if negb (isDateTimeDisabled probe) then false
        else scanFrom s hour floorMinute rest
  end.

Fixpoint scanAll (s : State) (hour : Z) (indices : list Z) : bool :=
  match indices with
  | [] => true
  | i :: rest =>
      let m := i * minuteStep props in
      let probe := newDate5 (getFullYear (draft s)) (getMonth (draft s))
                            (getDate (draft s)) hour m in
      if negb (isDateTimeDisabled probe) then false
      else scanAll s hour rest
  end.

Definition minuteIndices : list Z := NumberUtils.range (60 / minuteStep props).

Definition isHourCompletelyDisabled (s : State) (hour : Z) : bool :=
  let general := scanAll s hour minuteIndices in
  match getLowerBoundForDraft s with
  | Some lower =>
      if hour <? minHour lower then true
      else if hour =? minHour lower then
        if minMinuteStepAligned lower >? 59 then true
        else scanFrom s hour (minMinuteStepAligned lower) minuteIndices
      else general
  | None => general
  end.

Definition isMinuteDisabled (s : State) (minute : Z) : bool :=
  let belowFloor :=
    match getLowerBoundForDraft s with
    | Some lower =>
        (getHours (draft s) =? minHour lower) && (minute <? minMinuteStepAligned lower)
    | None => false
    end in
  if belowFloor then true
  else
    let probe := newDate5 (getFullYear (draft s)) (getMonth (draft s))
                          (getDate (draft s)) (getHours (draft s)) minute in
    isDateTimeDisabled probe.

(** ** Handlers *)

Definition handleDateSelect (s : State) (dayNum : Z) : State :=
  let vis := newDate5 (getFullYear (displayDate s)) (getMonth (displayDate s))
                      (NumberUtils.clamp dayNum 1 31) 0 0 in
  let s := setDisplayDate s (startOfMonth vis) in
  let s := setPicked s true false in
  let s := setHourTouched s false in
  let s := setMinuteTouched s false in
  setDraft s vis.

Definition setHour (s : State) (hour : Z) : State :=
  let prev := draft s in
  let h := NumberUtils.clamp hour 0 23 in
  let next := newDate5 (getFullYear prev) (getMonth prev) (getDate prev) h 0 in
  if isDateTimeDisabled next then s
  else
    let s := setPicked s true false in
    let s := setHourTouched s true in
    let s := setMinuteTouched s false in
    setDraft s next.

(** [setMinute]: the new local state and the value handed to
    [field.onChange], if any. *)
Definition setMinute (s : State) (minute : Z) : State * option FieldValue :=
  let prev := draft s in
  let m := NumberUtils.clamp minute 0 59 in
  let next := newDate5 (getFullYear prev) (getMonth prev) (getDate prev)
                       (getHours prev) m in
  if isDateTimeDisabled next then (s, None)
  else
    let emitted := commitIfComplete next true true in
    let s := setPicked s true true in
    let s := setMinuteTouched s true in
    (setDraft s next, emitted).

Definition handleMonthChange (s : State) (m0 : Z) : State :=
  if isMonthDisabled (getFullYear (displayDate s)) m0 then s
  else
    let next := newDate3 (getFullYear (displayDate s)) m0 1 in
    let prev := draft s in
    let s := setDisplayDate s (startOfMonth next) in
    let s := setDraft s (newDate5 (getFullYear next) (getMonth next) (getDate prev)
                                  (getHours prev) (getMinutes prev)) in
    setView s ViewDate.

Definition handleYearChange (s : State) (year : Z) : State :=
  let next := newDate3 year (getMonth (displayDate s)) 1 in
  let prev := draft s in
  let s := setDisplayDate s (startOfMonth next) in
  setDraft s (newDate5 (getFullYear next) (getMonth next) (getDate prev)
                       (getHours prev) (getMinutes prev)).

Definition navigateMonth (s : State) (dir : Z) : State :=
  setDisplayDate s (addMonths (displayDate s) dir).

Definition resetFromSelected (now : Date) (s : State) : State :=
  let base := seedBase now s in
  let has := isSome (selected s) in
  let s' := setDisplayDate s (startOfMonth base) in
  let s' := setDraft s' (normalizeToStep base) in
  setPicked s' has has.

Definition onOpenChange (now : Date) (s : State) (nextOpen : bool) : State :=
  let s :=
    if negb nextOpen then
      let incomplete := requireTime props && picked_date s && negb (picked_time s) in
      if incomplete then resetFromSelected now s else s
    else s in
  setOpen s nextOpen.

Definition clear : option FieldValue := commit None.

Inductive LocalError : Type := TooEarly | TooLate | ChooseDateAndTime.

(** [localError]: the component's own check of the selected value. *)
Definition localError (s : State) : option LocalError :=
  match selected s with
  | None => None
  | Some sel =>
      if match minDate props with Some mn => sel <? mn | None => false end
      then Some TooEarly
      else if match maxDate props with Some mx => sel >? mx | None => false end
      then Some TooLate
      else if requireTime props && negb (picked_time s) then Some ChooseDateAndTime
      else None
  end.

(** ** Events

    A click reaches its handler only on an element that is rendered and
    not disabled; the conditions below are the ones of the JSX. *)

Definition memZ (x : Z) (l : list Z) : bool := List.existsb (Z.eqb x) l.

Definition dayRendered (s : State) (d : Z) : bool :=
  List.existsb (fun c => match c with Some n => n =? d | None => false end)
               (buildDaysGrid (displayDate s)).

Definition yearOptions (now : Date) : list Z :=
  let '(ystart, yend) := getYearRange now rangeObj 50 in
  List.filter (fun y => isYearInRange y rangeObj)
              (List.map (fun i => ystart + i) (NumberUtils.range (yend - ystart + 1))).

Definition monthOptions (s : State) : list Z :=
  List.filter (fun m0 => isMonthInRange (getFullYear (displayDate s)) m0 rangeObj)
              (NumberUtils.range 12).

Definition minuteOptions : list Z :=
  List.map (fun i => i * minuteStep props) minuteIndices.

Definition dispatch (now : Date) (s : State) (ev : Event) : State * option FieldValue :=
  match ev with
  | EvOpenChange nextOpen =>
      if nextOpen && disabled props then (s, None)
      else (onOpenChange now s nextOpen, None)
  | EvDayClick d =>
      if open s && viewEqb (view s) ViewDate && dayRendered s d
         && negb (isDayDisabled (newDate3 (getFullYear (displayDate s))
                                          (getMonth (displayDate s)) d))
      then (handleDateSelect s d, None) else (s, None)
  | EvHourClick h =>
      if open s && memZ h (NumberUtils.range 24) && negb (isHourCompletelyDisabled s h)
      then (setHour s h, None) else (s, None)
  | EvMinuteClick m =>
      if open s && memZ m minuteOptions && negb (isMinuteDisabled s m)
      then setMinute s m else (s, None)
  | EvMonthClick m0 =>
      if open s && viewEqb (view s) ViewMonthYear && memZ m0 (monthOptions s)
         && negb (isMonthDisabled (getFullYear (displayDate s)) m0)
      then (handleMonthChange s m0, None) else (s, None)
  | EvYearClick y =>
      if open s && viewEqb (view s) ViewMonthYear && memZ y (yearOptions now)
      then (handleYearChange s y, None) else (s, None)
  | EvNavigate dir =>
      if open s && viewEqb (view s) ViewDate
         && (((dir =? -1) && canNavigatePrev s) || ((dir =? 1) && canNavigateNext s))
      then (navigateMonth s dir, None) else (s, None)
  | EvToggleView =>
      if open s then (toggleView s, None) else (s, None)
  | EvClear =>
      if withClearButton props && isSome (selected s) && negb (disabled props)
      then (s, clear) else (s, None)
  end.

(** Whether the memoised [selected] is a different object after
    [field.onChange(v)]: a committed [Date] is a fresh object, a string is
    compared by content, and [null] is [null]. *)
Definition selectedChanged (old v : FieldValue) : bool :=
  let differs := isSome (parseToDate v) || isSome (parseToDate old) in
  match v, old with
  | VString a, VString b => if String.eqb a b then false else differs
  | _, _ => differs
  end.

(** One event, run to completion: the handler, the store update, and the
    effect when [open] or [selected] changed. *)
Definition step (now : Date) (s : State) (ev : Event) : State * option FieldValue :=
  let '(s1, emitted) := dispatch now s ev in
  let s2 := match emitted with Some v => setValue s1 v | None => s1 end in
  let changed :=
    negb (Bool.eqb (open s) (open s2))
    || match emitted with Some v => selectedChanged (value s) v | None => false end in
  (if changed then syncEffect now s2 else s2, emitted).

(** A session: events with the clock reading at each. *)
Fixpoint run (s : State) (evs : list (Date * Event)) : State * list FieldValue :=
  match evs with
  | [] => (s, [])
  | (now, ev) :: rest =>
      let '(s1, emitted) := step now s ev in
      let '(s2, out) := run s1 rest in
      (s2, match emitted with Some v => v :: out | None => out end)
  end.

End Picker.

(** The state at mount: closed, nothing picked, draft and displayed month at
    the clock. *)
Definition initialState (now : Date) (v : FieldValue) : State :=
  mkState false ViewDate now now false false false false v.

(** [DateUtils.isIsoDateString(value)]:
    [typeof value === "string" && /^\d{4}-\d{2}-\d{2}T/.test(value)]. *)
Definition isIsoDateString (value : FieldValue) : bool :=
  match value with
  | VString s => isIsoDateText s
  | _ => false
  end.

(** [weekdaysShortMonFirst]: the names of the seven days from Monday
    2024-01-01 on; [formatWeekday] is the formatter of the locale,
    [new Intl.DateTimeFormat(locale, { weekday: "short" }).format]. *)
Definition weekdaysShortMonFirst (formatWeekday : Date -> string) : list string :=
  let monday := newDate3 2024 0 1 in
  List.map (fun i => formatWeekday (newDate3 (getFullYear monday) (getMonth monday)
                                             (getDate monday + i)))
           (NumberUtils.range 7).

(* ================================================================== *)
(** * utils/constants.ts                                               *)
(* ================================================================== *)

(** The keys ["null"], ["undefined"] and ["empty-string"]. *)
Inductive TDeletionValuesKey : Type := KNull | KUndefined | KEmptyString.

Definition DeletionValuesMap (k : TDeletionValuesKey) : FieldValue :=
  match k with
  | KNull => VNull
  | KUndefined => VUndefined
  | KEmptyString => VString EmptyString
  end.

(* ================================================================== *)
(** * form/fields/RHFDatePicker.tsx                                    *)
(* ================================================================== *)

(** The picker of a date without a time.  Its [parseToDate],
    [weekdayIndexMonFirst] and [buildDaysGrid] are the text of the ones
    above, which stand for them here. *)
Module DatePicker.

Record Props : Type := mkProps {
  minDate : option Date;
  maxDate : option Date;
  disabledDates : option (Date -> bool);
  valueAs : ValueAs;
  emptyAs : TDeletionValuesKey;
  disabled : bool;
  withClearButton : bool
}.

Record State : Type := mkState {
  open : bool;
  view : ViewMode;
  displayDate : Date;
  value : FieldValue
}.

Definition setOpen (s : State) (b : bool) : State :=
  mkState b (view s) (displayDate s) (value s).
Definition setView (s : State) (v : ViewMode) : State :=
  mkState (open s) v (displayDate s) (value s).
Definition setDisplayDate (s : State) (d : Date) : State :=
  mkState (open s) (view s) d (value s).
Definition setValue (s : State) (v : FieldValue) : State :=
  mkState (open s) (view s) (displayDate s) v.

Inductive Event : Type :=
  | EvOpenChange (nextOpen : bool)
  | EvDayClick (dayNum : Z)
  | EvMonthClick (m0 : Z)
  | EvYearClick (year : Z)
  | EvNavigate (dir : Z)
  | EvToggleView
  | EvClear.

Section Component.

Variable legacyParse : string -> option Z.
Variable props : Props.

Definition selected (s : State) : option Date := parseToDate legacyParse (value s).

Definition rangeObj : option DateRange := Some (mkRange (minDate props) (maxDate props)).

(** The effect over [open, selected, minDate, maxDate]: the displayed
    month follows the selected value, else [minDate], else [maxDate], else
    the clock. *)
Definition syncEffect (now : Date) (s : State) : State :=
  if negb (open s) then s
  else
    let base :=
      match selected s with
      | Some d => d
      | None =>
          match minDate props with
          | Some mn => mn
          | None => match maxDate props with Some mx => mx | None => now end
          end
      end in
    setDisplayDate s (startOfMonth base).

Definition canNavigatePrev (s : State) : bool :=
  match minDate props with
  | None => true
  | Some mn => endOfMonth (addMonths (displayDate s) (-1)) >=? stripTime mn
  end.

Definition canNavigateNext (s : State) : bool :=
  match maxDate props with
  | None => true
  | Some mx => startOfMonth (addMonths (displayDate s) 1) <=? stripTime mx
  end.

Definition toggleView (s : State) : State :=
  setView s (match view s with ViewDate => ViewMonthYear | ViewMonthYear => ViewDate end).

(** [commit]: the value handed to [field.onChange], if it is called. *)
Definition commit (d : option Date) : option FieldValue :=
  match d with
  | None => Some (DeletionValuesMap (emptyAs props))
  | Some d =>
      if negb (isDateInRange d rangeObj true) then None
      else
        let onlyDate := stripTime d in
        Some (match valueAs props with
              | AsIso => VString (toISOString onlyDate)
              | AsDate => VDate (Some onlyDate)
              end)
  end.

Definition handleDateSelect (s : State) (dayNum : Z) : option FieldValue :=
  let next := newDate3 (getFullYear (displayDate s)) (getMonth (displayDate s)) dayNum in
  commit (Some next).

Definition handleMonthChange (s : State) (m0 : Z) : State :=
  let next := newDate3 (getFullYear (displayDate s)) m0 1 in
  setView (setDisplayDate s (startOfMonth next)) ViewDate.

Definition handleYearChange (s : State) (year : Z) : State :=
  let next := newDate3 year (getMonth (displayDate s)) 1 in
  setDisplayDate s (startOfMonth next).

Definition navigateMonth (s : State) (dir : Z) : State :=
  setDisplayDate s (addMonths (displayDate s) dir).

(** [localError]: whether "Date are not in range." is shown. *)
Definition localError (s : State) : bool :=
  match selected s with
  | None => false
  | Some sel =>
      match minDate props with Some mn => sel <? mn | None => false end
      || match maxDate props with Some mx => sel >? mx | None => false end
  end.

Definition clear : option FieldValue := commit None.

(** ** Events, with the conditions of the JSX *)

Definition dayRendered (s : State) (d : Z) : bool :=
  List.existsb (fun c => match c with Some n => n =? d | None => false end)
               (buildDaysGrid (displayDate s)).

Definition monthOptions (s : State) : list Z :=
  List.filter (fun m0 => isMonthInRange (getFullYear (displayDate s)) m0 rangeObj)
              (NumberUtils.range 12).

Definition yearOptions (now : Date) : list Z :=
  let '(ystart, yend) := getYearRange now rangeObj 50 in
  List.filter (fun y => isYearInRange y rangeObj)
              (List.map (fun i => ystart + i) (NumberUtils.range (yend - ystart + 1))).

Definition dispatch (now : Date) (s : State) (ev : Event) : State * option FieldValue :=
  match ev with
  | EvOpenChange nextOpen =>
      if nextOpen && disabled props then (s, None)
      else (setOpen s nextOpen, None)
  | EvDayClick d =>
      if open s && viewEqb (view s) ViewDate && dayRendered s d
         && negb (DateUtils.isDayDisabled
                    (newDate3 (getFullYear (displayDate s)) (getMonth (displayDate s)) d)
                    rangeObj (disabledDates props))
      then (s, handleDateSelect s d) else (s, None)
  | EvMonthClick m0 =>
      if open s && viewEqb (view s) ViewMonthYear && memZ m0 (monthOptions s)
         && isMonthInRange (getFullYear (displayDate s)) m0 rangeObj
      then (handleMonthChange s m0, None) else (s, None)
  | EvYearClick y =>
      if open s && viewEqb (view s) ViewMonthYear && memZ y (yearOptions now)
         && isYearInRange y rangeObj
      then (handleYearChange s y, None) else (s, None)
  | EvNavigate dir =>
      if open s && viewEqb (view s) ViewDate
         && (((dir =? -1) && canNavigatePrev s) || ((dir =? 1) && canNavigateNext s))
      then (navigateMonth s dir, None) else (s, None)
  | EvToggleView =>
      if open s then (toggleView s, None) else (s, None)
  | EvClear =>
      if withClearButton props && isSome (selected s) && negb (disabled props)
      then (s, clear) else (s, None)
  end.

(** One event, run to completion: the handler, the store update, and the
    effect when [open] or [selected] changed. *)
Definition step (now : Date) (s : State) (ev : Event) : State * option FieldValue :=
  let '(s1, emitted) := dispatch now s ev in
  let s2 := match emitted with Some v => setValue s1 v | None => s1 end in
  let changed :=
    negb (Bool.eqb (open s) (open s2))
    || match emitted with
       | Some v => selectedChanged legacyParse (value s) v
       | None => false
       end in
  (if changed then syncEffect now s2 else s2, emitted).

End Component.

(** The state at mount. *)
Definition initialState (now : Date) (v : FieldValue) : State :=
  mkState false ViewDate now v.

End DatePicker.

(* ================================================================== *)
(** * Notions used in the statements                                   *)
(* ================================================================== *)

(** The ten digit characters read back as their values and are none of
    the two signs. *)
Definition digitReadsBack (n : Z) : bool :=
  match digitVal (digitChar n) with
  | Some v => v =? n
  | None => false
  end
  && negb (Ascii.eqb (digitChar n) "+"%char)
  && negb (Ascii.eqb (digitChar n) "-"%char).

(** First day, within its era, of the March-based year [yoe]. *)
Definition yearStart (yoe : Z) : Z := 365 * yoe + yoe / 4 - yoe / 100.

(** Whether the March-based year [yoe] of an era ends with a 29 February. *)
Definition endsWithLeapDay (yoe : Z) : Prop :=
  (yoe + 1) mod 4 = 0 /\ ((yoe + 1) mod 100 <> 0 \/ yoe = 399).



(** The bounds of a range at day granularity; an absent bound bounds
    nothing. *)
Definition aboveMin (r : DateRange) (t : Z) : Prop :=
  forall mn, min r = Some mn -> stripTime mn <= t.

Definition belowMax (r : DateRange) (t : Z) : Prop :=
  forall mx, max r = Some mx -> t <= stripTime mx.

(** A date outside the years 0 to 99, whose year the constructor takes as
    it is. *)
Definition fullYear (d : Date) : Prop := getFullYear d < 0 \/ 99 < getFullYear d.

(** A range whose bounds are such dates. *)
Definition fullYearRange (r : DateRange) : Prop :=
  (forall mn, min r = Some mn -> fullYear mn)
  /\ (forall mx, max r = Some mx -> fullYear mx).

(** The years whose every day the time values of the platform cover. *)
Definition yearInTimeRange (y : Z) : Prop := -271820 <= y <= 275759.

(** The seventh claim in the words of the specification: the closed
    interval of days from the first to the last day of month [m0] (0 to 11)
    of year [y] meets the days from [min] to [max], an absent bound
    bounding nothing. *)
Definition monthIntersects (y m0 : Z) (r : DateRange) : Prop :=
  exists k,
    days_from_civil y (m0 + 1) 1 <= k <= days_from_civil y (m0 + 1) (DaysInMonth y (m0 + 1))
    /\ (forall mn, min r = Some mn -> Day mn <= k)
    /\ (forall mx, max r = Some mx -> k <= Day mx).

(** From 1 June 1999 to 1 July 1999. *)
Definition rangeJune1999 : DateRange :=
  mkRange (Some (newDate3 1999 5 1)) (Some (newDate3 1999 6 1)).

(** The same props with another exclusion predicate. *)
Definition withDisabledDates (p : Props) (ex : option (Date -> bool)) : Props :=
  mkProps (minDate p) (maxDate p) ex (minuteStep p) (valueAs p) (requireTime p)
          (disabled p) (withClearButton p).

(** The minutes 0, s, 2s, ... up to 59. *)
Definition stepGrid (s : Z) : list Z :=
  List.filter (fun g => g mod s =? 0) (NumberUtils.range 60).

(** The fourth claim in the words of the specification: with a step of at
    least 1 and a draft on the day and in the hour of [minDate], the least
    multiple of the step that is at least the minute of [minDate] is a grid
    minute, is selectable, and every grid minute below it is disabled. *)
Definition leastMultipleSelectable (props : Props) (st : State) : Prop :=
  forall mn,
    minDate props = Some mn -> 1 <= minuteStep props ->
    isSameDay (draft st) mn = true -> getHours (draft st) = getHours mn ->
    exists a,
      a mod minuteStep props = 0 /\ getMinutes mn <= a
      /\ (forall g, g mod minuteStep props = 0 -> getMinutes mn <= g -> a <= g)
      /\ In a (stepGrid (minuteStep props))
      /\ isMinuteDisabled props st a = false
      /\ forall g, In g (stepGrid (minuteStep props)) -> g < a ->
           isMinuteDisabled props st g = true.

(** [minDate] 2024-01-10 09:58, step 5. *)
Definition props0958 : Props :=
  mkProps (Some (newDate5 2024 0 10 9 58)) None None 5 AsDate true false true.

(** A draft on that day, in that hour. *)
Definition draft0955 : State :=
  mkState true ViewDate (newDate3 2024 0 1) (newDate5 2024 0 10 9 55)
          false false false false VUndefined.

(** How [commit] encodes an instant for the form store. *)
Definition encode (mode : ValueAs) (d : Date) : FieldValue :=
  match mode with
  | AsIso => VString (toISOString d)
  | AsDate => VDate (Some d)
  end.

(** Events that cannot reach [commit]. *)
Definition commitFree (ev : Event) : Prop :=
  match ev with
  | EvMinuteClick _ | EvClear => False
  | _ => True
  end.

(** The third claim in the words of the specification: in date-time mode a
    pick of an hour leaves the committed value alone and changes nothing of
    the draft but its hour (and the minute-chosen flag). *)
Definition pickHourTouchesOnlyHour (legacy : string -> option Z) (props : Props)
    (now : Date) (st : State) (h : Z) : Prop :=
  requireTime props = true ->
  let st' := fst (step legacy props now st (EvHourClick h)) in
  value st' = value st
  /\ getFullYear (draft st') = getFullYear (draft st)
  /\ getMonth (draft st') = getMonth (draft st)
  /\ getDate (draft st') = getDate (draft st)
  /\ getMinutes (draft st') = getMinutes (draft st)
  /\ picked_date st' = picked_date st.

(** An implementation whose [Date.parse] knows the complete form only. *)
Definition noLegacy : string -> option Z := fun _ => None.

(** No bounds, step 5. *)
Definition propsUnbounded : Props :=
  mkProps None None None 5 AsDate true false true.

(** Opened at 2024-01-15 10:35 with nothing committed: the draft is
    10:35, no date is picked. *)
Definition openedAt1035 : State :=
  fst (step noLegacy propsUnbounded (newDate5 2024 0 15 10 35)
            (initialState (newDate5 2024 0 15 10 35) VUndefined)
            (EvOpenChange true)).

(** The scenario of the specification: [minDate] 2024-01-10 09:07,
    [maxDate] 2024-01-20, step 15, the value kept as a [Date]. *)
Definition propsScenario : Props :=
  mkProps (Some (newDate5 2024 0 10 9 7)) (Some (newDate3 2024 0 20)) None
          15 AsDate true false true.

(** The clock of the scenario: 2024-01-01 12:00. *)
Definition clockScenario : Date := newDate5 2024 0 1 12 0.

(** The scenario with the value kept as text. *)
Definition propsScenarioIso : Props :=
  mkProps (Some (newDate5 2024 0 10 9 7)) (Some (newDate3 2024 0 20)) None
          15 AsIso true false true.

(** The scenario's picker, opened with nothing committed: the draft is
    2024-01-10 09:00. *)
Definition openedScenario : State :=
  fst (step noLegacy propsScenario clockScenario
            (initialState clockScenario VUndefined) (EvOpenChange true)).

(** ** Notions of the further properties *)

(** Whether the two ways of writing [n] on two digits agree with the digits
    of [n]. *)
Definition twoDigitsAgree (n : Z) : bool :=
  String.eqb (NumberUtils.pad2 n) (string_of_list_ascii (padDigits 2 n))
  && String.eqb (padStart 2 "0" (numberToString n)) (string_of_list_ascii (padDigits 2 n)).

(** Whether [padStart 3 "0"] of the text of [n] is the three digits of [n]. *)
Definition threeDigitsAgree (n : Z) : bool :=
  String.eqb (padStart 3 "0" (numberToString n)) (string_of_list_ascii (padDigits 3 n)).

(** Whether [minDate] falls on a later day than [maxDate]. *)
Definition rangeInverted (props : Props) : bool :=
  match minDate props, maxDate props with
  | Some mn, Some mx => Day mx <? Day mn
  | _, _ => false
  end.

(** The dates whose names head the columns. *)
Definition headerDates : list Date :=
  List.map (fun i => newDate3 2024 0 (1 + i)) (NumberUtils.range 7).

(** Whether the displayed month has a day of the range. *)
Definition displayedMonthOpen (props : Props) (st : State) : bool :=
  isMonthInRange (getFullYear (displayDate st)) (getMonth (displayDate st))
                 (rangeObj props).

(** The clicks inside the calendar that leave the year alone. *)
Definition keepsYear (ev : Event) : Prop :=
  match ev with
  | EvNavigate _ | EvMonthClick _ | EvDayClick _ | EvHourClick _ | EvToggleView => True
  | _ => False
  end.

(** The same props with another [requireTime]. *)
Definition withRequireTime (p : Props) (b : bool) : Props :=
  mkProps (minDate p) (maxDate p) (disabledDates p) (minuteStep p) (valueAs p) b
          (disabled p) (withClearButton p).

(** The probe of the hour and minute columns, on the day of [d]. *)
Definition probeDisabled (props : Props) (d : Date) (h m : Z) : bool :=
  isDateTimeDisabled props (newDate5 (getFullYear d) (getMonth d) (getDate d) h m).

(** The state once the hour [h] is picked on the draft's day. *)
Definition atHour (st : State) (h : Z) : State :=
  setDraft st (newDate5 (getFullYear (draft st)) (getMonth (draft st))
                        (getDate (draft st)) h 0).

(** ** Inputs of the further theorems *)

(** [minDate] 2024-01-10 09:07, [maxDate] 2024-03-20, step 15. *)
Definition propsQuarter : Props :=
  mkProps (Some (newDate5 2024 0 10 9 7)) (Some (newDate3 2024 2 20)) None
          15 AsDate true false true.

(** That picker, opened on 2024-01-01 with nothing committed. *)
Definition openedQuarter : State :=
  fst (step noLegacy propsQuarter clockScenario
            (initialState clockScenario VUndefined) (EvOpenChange true)).

(** The month and year lists shown, the draft on 2024-01-31 10:30. *)
Definition draftJan31 : State :=
  mkState true ViewMonthYear (newDate3 2024 0 1) (newDate5 2024 0 31 10 30)
          true false true false VUndefined.

(** A step of 90 minutes. *)
Definition propsStep90 : Props :=
  mkProps None None None 90 AsDate true false true.

(** The scenario's picker after day 10 and minute 15 were picked: the value
    is 2024-01-10 00:15. *)
Definition committedEarly : State :=
  fst (run noLegacy propsScenario (initialState clockScenario VUndefined)
           [(clockScenario, EvOpenChange true); (clockScenario, EvDayClick 10);
            (clockScenario, EvMinuteClick 15)]).

(** The scenario's picker after day 15 and hour 10 were picked. *)
Definition pickedHour10 : State :=
  fst (run noLegacy propsScenario (initialState clockScenario VUndefined)
           [(clockScenario, EvOpenChange true); (clockScenario, EvDayClick 15);
            (clockScenario, EvHourClick 10)]).

(** The date picker of the scenario, the value kept as text. *)
Definition datePropsScenario : DatePicker.Props :=
  DatePicker.mkProps (Some (newDate5 2024 0 10 9 7)) (Some (newDate3 2024 0 20)) None
                     AsIso KEmptyString false true.

(** That date picker, open on January 2024 with nothing committed. *)
Definition dateOpened : DatePicker.State :=
  DatePicker.mkState true ViewDate (newDate3 2024 0 1) VUndefined.

(* ================================================================== *)
(** * Calendar arithmetic                                              *)
(* ================================================================== *)

Ltac zdiv := Z.div_mod_to_equations; lia.

(** Case analysis on every integer comparison in sight. *)
Ltac boolz :=
  repeat match goal with
  | |- context [?a <=? ?b] => destruct (Z.leb_spec a b)
  | |- context [?a <? ?b] => destruct (Z.ltb_spec a b)
  | |- context [?a =? ?b] => destruct (Z.eqb_spec a b)
  | H : context [?a <=? ?b] |- _ => destruct (Z.leb_spec a b)
  | H : context [?a <? ?b] |- _ => destruct (Z.ltb_spec a b)
  | H : context [?a =? ?b] |- _ => destruct (Z.eqb_spec a b)
  end; cbn [andb orb negb] in *.

Lemma DaysInMonth_bounds y m : 28 <= DaysInMonth y m <= 31.
Proof. unfold DaysInMonth. destruct (isLeap y); boolz; lia. Qed.

Lemma era_split z :
  0 <= z + 719468 - (z + 719468) / 146097 * 146097 <= 146096.
Proof. zdiv. Qed.

Lemma yoe_range doe :
  0 <= doe <= 146096 ->
  let yoe := (doe - doe / 1460 + doe / 36524 - doe / 146096) / 365 in
  0 <= yoe <= 399 /\ 0 <= doe - yearStart yoe <= 365
  /\ (doe - yearStart yoe = 365 -> endsWithLeapDay yoe).
Proof.
  intros H. cbv zeta. unfold yearStart, endsWithLeapDay. repeat split; zdiv.
Qed.

Lemma yoe_unique yoe doy :
  0 <= yoe <= 399 -> 0 <= doy <= 365 ->
  (doy = 365 -> endsWithLeapDay yoe) ->
  let doe := yearStart yoe + doy in
  (doe - doe / 1460 + doe / 36524 - doe / 146096) / 365 = yoe.
Proof.
  intros Hy Hd Hl. cbv zeta.
  assert (Hdoe : 0 <= yearStart yoe + doy <= 146096) by (unfold yearStart; zdiv).
  pose proof (yoe_range _ Hdoe) as H. cbv zeta in H.
  remember ((yearStart yoe + doy - (yearStart yoe + doy) / 1460
             + (yearStart yoe + doy) / 36524
             - (yearStart yoe + doy) / 146096) / 365) as yoe' eqn:E.
  clear E. unfold yearStart, endsWithLeapDay in *.
  destruct H as (H1 & H2 & H3).
  destruct (Z.lt_trichotomy yoe' yoe) as [Hlt | [Heq | Hgt]];
    [ exfalso; zdiv | exact Heq | exfalso; zdiv ].
Qed.

(** The civil date of a day number is a date of the calendar. *)
Lemma civil_valid z :
  let '(y, m, d) := civil_from_days z in
  1 <= m <= 12 /\ 1 <= d <= DaysInMonth y m.
Proof.
  unfold civil_from_days.
  pose proof (era_split z) as He.
  remember ((z + 719468) / 146097) as era eqn:Eera.
  remember (z + 719468 - era * 146097) as doe eqn:Edoe.
  pose proof (yoe_range doe He) as Hy. cbv zeta in Hy.
  unfold yearStart, endsWithLeapDay in Hy.
  remember ((doe - doe / 1460 + doe / 36524 - doe / 146096) / 365) as yoe eqn:Eyoe.
  remember (doe - (365 * yoe + yoe / 4 - yoe / 100)) as doy eqn:Edoy.
  destruct Hy as (Hy1 & Hy2 & Hy3).
  remember ((5 * doy + 2) / 153) as mp eqn:Emp.
  assert (Hmp : 0 <= mp <= 11) by zdiv.
  clear Eera Edoe Eyoe Edoy He.
  unfold DaysInMonth, isLeap.
  boolz; try zdiv.
Qed.

(** Day number of the civil date of a day number. *)
Lemma days_civil_inv z :
  let '(y, m, d) := civil_from_days z in days_from_civil y m d = z.
Proof.
  unfold civil_from_days, days_from_civil.
  pose proof (era_split z) as He.
  remember ((z + 719468) / 146097) as era eqn:Eera.
  remember (z + 719468 - era * 146097) as doe eqn:Edoe.
  pose proof (yoe_range doe He) as Hy. cbv zeta in Hy.
  unfold yearStart, endsWithLeapDay in Hy.
  remember ((doe - doe / 1460 + doe / 36524 - doe / 146096) / 365) as yoe eqn:Eyoe.
  remember (doe - (365 * yoe + yoe / 4 - yoe / 100)) as doy eqn:Edoy.
  destruct Hy as (Hy1 & Hy2 & Hy3).
  remember ((5 * doy + 2) / 153) as mp eqn:Emp.
  assert (Hmp : 0 <= mp <= 11) by zdiv.
  clear Eera Eyoe He.
  boolz; try zdiv.
Qed.

(** Civil date of the day number of a date of the calendar. *)
Lemma civil_days_inv y m d :
  1 <= m <= 12 -> 1 <= d <= DaysInMonth y m ->
  civil_from_days (days_from_civil y m d) = (y, m, d).
Proof.
  intros Hm Hd.
  unfold days_from_civil.
  remember (if m <=? 2 then y - 1 else y) as y' eqn:Ey'.
  remember (y' / 400) as era eqn:Eera.
  remember (y' - era * 400) as yoe eqn:Eyoe.
  remember (if m <=? 2 then m + 9 else m - 3) as mp eqn:Emp.
  remember ((153 * mp + 2) / 5 + d - 1) as doy eqn:Edoy.
  assert (Hyoe : 0 <= yoe <= 399) by zdiv.
  assert (Hmp : 0 <= mp <= 11) by (subst mp; boolz; lia).
  assert (Hdoy : 0 <= doy <= 365 /\ (doy = 365 -> endsWithLeapDay yoe)).
  { revert Hd. unfold DaysInMonth, isLeap, endsWithLeapDay. subst mp y'.
    boolz; intros; zdiv. }
  destruct Hdoy as [Hdoy Hleap].
  unfold civil_from_days.
  replace (era * 146097 + (yoe * 365 + yoe / 4 - yoe / 100 + doy) - 719468 + 719468)
    with (yearStart yoe + doy + era * 146097) by (unfold yearStart; lia).
  assert (Hdoe : 0 <= yearStart yoe + doy <= 146096) by (unfold yearStart; zdiv).
  rewrite Z.div_add by lia.
  rewrite (Z.div_small (yearStart yoe + doy) 146097) by lia.
  replace (yearStart yoe + doy + era * 146097 - (0 + era) * 146097)
    with (yearStart yoe + doy) by lia.
  pose proof (yoe_unique yoe doy Hyoe Hdoy Hleap) as Hu. cbv zeta in Hu.
  rewrite Hu.
  replace (yearStart yoe + doy - (365 * yoe + yoe / 4 - yoe / 100)) with doy
    by (unfold yearStart; lia).
  assert (Emp' : (5 * doy + 2) / 153 = mp)
    by (subst doy; revert Hd; unfold DaysInMonth; boolz; intros; zdiv).
  rewrite Emp'.
  assert (Ed : doy - (153 * mp + 2) / 5 + 1 = d) by lia.
  rewrite Ed.
  assert (Em : (if mp <? 10 then mp + 3 else mp - 9) = m) by (subst mp; boolz; lia).
  rewrite Em.
  f_equal. f_equal. subst y' yoe. boolz; lia.
Qed.

Lemma days_from_civil_day y m d :
  days_from_civil y m d = days_from_civil y m 1 + d - 1.
Proof. unfold days_from_civil. lia. Qed.

(** The first of the next month follows the last day of the month. *)
Lemma days_from_civil_next y m :
  1 <= m <= 12 ->
  days_from_civil (if m =? 12 then y + 1 else y) (if m =? 12 then 1 else m + 1) 1
  = days_from_civil y m 1 + DaysInMonth y m.
Proof.
  intros Hm. unfold days_from_civil, DaysInMonth, isLeap.
  boolz; try lia; zdiv.
Qed.

(** ** Fields of constructed dates *)

Lemma MakeDay_month y m0 d :
  0 <= m0 <= 11 -> MakeDay y m0 d = days_from_civil y (m0 + 1) d.
Proof.
  intros H. unfold MakeDay.
  rewrite Z.div_small, Z.mod_small by lia.
  rewrite (days_from_civil_day y (m0 + 1) d). f_equal. f_equal. f_equal. lia.
Qed.

(** Day 0 of the next month is the last day of the month, whatever the
    month index. *)
Lemma MakeDay_day_zero y m0 :
  MakeDay y (m0 + 1) 0
  = MakeDay y m0 1 + DaysInMonth (y + m0 / 12) (m0 mod 12 + 1) - 1.
Proof.
  unfold MakeDay.
  assert (Hr : 0 <= m0 mod 12 <= 11) by zdiv.
  pose proof (days_from_civil_next (y + m0 / 12) (m0 mod 12 + 1) ltac:(lia)) as Hn.
  destruct (Z.eq_dec (m0 mod 12) 11) as [E | E].
  - replace ((m0 + 1) / 12) with (m0 / 12 + 1) by zdiv.
    replace ((m0 + 1) mod 12) with 0 by zdiv.
    rewrite E in *. cbn in Hn. cbn.
    replace (y + (m0 / 12 + 1)) with (y + m0 / 12 + 1) by lia. lia.
  - replace ((m0 + 1) / 12) with (m0 / 12) by zdiv.
    replace ((m0 + 1) mod 12) with (m0 mod 12 + 1) by zdiv.
    destruct (Z.eqb_spec (m0 mod 12 + 1) 12); [lia | lia].
Qed.

Lemma MakeDay_end_of_month y m0 :
  0 <= m0 <= 11 ->
  MakeDay y (m0 + 1) 0 = days_from_civil y (m0 + 1) (DaysInMonth y (m0 + 1)).
Proof.
  intros H. rewrite MakeDay_day_zero, MakeDay_month by lia.
  rewrite Z.div_small, Z.mod_small by lia.
  rewrite (days_from_civil_day y (m0 + 1) (DaysInMonth _ _)).
  replace (y + 0) with y by lia. lia.
Qed.

Lemma Day_newDate5 y m d h mi :
  0 <= h <= 23 -> 0 <= mi <= 59 -> Day (newDate5 y m d h mi) = MakeDay y m d.
Proof.
  intros Hh Hm. unfold newDate5, MakeDate, MakeTime, Day.
  generalize (MakeDay y m d). intros k.
  unfold msPerDay, msPerHour, msPerMinute, msPerSecond. zdiv.
Qed.

Lemma getHours_newDate5 y m d h mi :
  0 <= h <= 23 -> 0 <= mi <= 59 -> getHours (newDate5 y m d h mi) = h.
Proof.
  intros Hh Hm. unfold newDate5, MakeDate, MakeTime, getHours.
  generalize (MakeDay y m d). intros k.
  unfold msPerDay, msPerHour, msPerMinute, msPerSecond. zdiv.
Qed.

Lemma getMinutes_newDate5 y m d h mi :
  0 <= h <= 23 -> 0 <= mi <= 59 -> getMinutes (newDate5 y m d h mi) = mi.
Proof.
  intros Hh Hm. unfold newDate5, MakeDate, MakeTime, getMinutes.
  generalize (MakeDay y m d). intros k.
  unfold msPerDay, msPerHour, msPerMinute, msPerSecond. zdiv.
Qed.

Lemma getHours_range t : 0 <= getHours t <= 23.
Proof. unfold getHours. zdiv. Qed.

Lemma getMinutes_range t : 0 <= getMinutes t <= 59.
Proof. unfold getMinutes. zdiv. Qed.

Lemma getSeconds_range t : 0 <= getSeconds t <= 59.
Proof. unfold getSeconds. zdiv. Qed.

Lemma getMilliseconds_range t : 0 <= getMilliseconds t <= 999.
Proof. unfold getMilliseconds, msPerSecond. zdiv. Qed.

Lemma date_fields_valid t :
  0 <= getMonth t <= 11
  /\ 1 <= getDate t <= DaysInMonth (getFullYear t) (getMonth t + 1).
Proof.
  unfold getMonth, getDate, getFullYear.
  pose proof (civil_valid (Day t)) as H.
  destruct (civil_from_days (Day t)) as [[y m] d]. cbn [fst snd].
  replace (m - 1 + 1) with m by lia. lia.
Qed.

Lemma civil_from_days_fields t :
  civil_from_days (Day t) = (getFullYear t, getMonth t + 1, getDate t).
Proof.
  unfold getMonth, getDate, getFullYear.
  destruct (civil_from_days (Day t)) as [[y m] d]. cbn [fst snd].
  f_equal. f_equal. lia.
Qed.

Lemma MakeDay_fields t : MakeDay (getFullYear t) (getMonth t) (getDate t) = Day t.
Proof.
  destruct (date_fields_valid t) as [Hm _].
  rewrite MakeDay_month by exact Hm.
  pose proof (days_civil_inv (Day t)) as H.
  rewrite civil_from_days_fields in H. exact H.
Qed.

Lemma civil_MakeDay y m0 d :
  0 <= m0 <= 11 -> 1 <= d <= DaysInMonth y (m0 + 1) ->
  civil_from_days (MakeDay y m0 d) = (y, m0 + 1, d).
Proof.
  intros Hm Hd. rewrite MakeDay_month by exact Hm.
  apply civil_days_inv; lia.
Qed.

(** The getters read back the fields a date was built from. *)
Lemma fields_newDate5 y m0 d h mi :
  0 <= m0 <= 11 -> 1 <= d <= DaysInMonth y (m0 + 1) ->
  0 <= h <= 23 -> 0 <= mi <= 59 ->
  getFullYear (newDate5 y m0 d h mi) = y
  /\ getMonth (newDate5 y m0 d h mi) = m0
  /\ getDate (newDate5 y m0 d h mi) = d
  /\ getHours (newDate5 y m0 d h mi) = h
  /\ getMinutes (newDate5 y m0 d h mi) = mi.
Proof.
  intros Hm Hd Hh Hmi.
  unfold getFullYear, getMonth, getDate.
  rewrite Day_newDate5, civil_MakeDay by assumption. cbn [fst snd].
  rewrite getHours_newDate5, getMinutes_newDate5 by assumption.
  repeat split; lia.
Qed.

(** Rebuilding a date from its own calendar day keeps that day. *)
Lemma Day_rebuild t h mi :
  0 <= h <= 23 -> 0 <= mi <= 59 ->
  Day (newDate5 (getFullYear t) (getMonth t) (getDate t) h mi) = Day t.
Proof.
  intros Hh Hmi. rewrite Day_newDate5 by assumption. apply MakeDay_fields.
Qed.

Lemma fields_rebuild t h mi :
  0 <= h <= 23 -> 0 <= mi <= 59 ->
  let t' := newDate5 (getFullYear t) (getMonth t) (getDate t) h mi in
  getFullYear t' = getFullYear t /\ getMonth t' = getMonth t
  /\ getDate t' = getDate t /\ getHours t' = h /\ getMinutes t' = mi.
Proof.
  intros Hh Hmi. cbv zeta.
  destruct (date_fields_valid t) as [Hm Hd].
  apply fields_newDate5; assumption.
Qed.

Lemma stripTime_Day t : stripTime t = Day t * msPerDay.
Proof.
  unfold stripTime, newDate3, newDate5, MakeDate, MakeTime.
  rewrite MakeDay_fields. lia.
Qed.

Lemma stripTime_same_day a b : Day a = Day b -> stripTime a = stripTime b.
Proof. intros H. rewrite !stripTime_Day, H. reflexivity. Qed.

Lemma stripTime_le t : stripTime t <= t < stripTime t + msPerDay.
Proof. rewrite stripTime_Day. unfold Day, msPerDay. zdiv. Qed.

Lemma stripTime_mono a b : a <= b -> stripTime a <= stripTime b.
Proof. intros H. rewrite !stripTime_Day. unfold Day, msPerDay. zdiv. Qed.

Lemma Day_midnight k : Day (k * msPerDay) = k.
Proof. unfold Day, msPerDay. zdiv. Qed.

Lemma stripTime_newDate3 y m d : stripTime (newDate3 y m d) = newDate3 y m d.
Proof.
  rewrite stripTime_Day. unfold newDate3, newDate5, MakeDate, MakeTime.
  replace (MakeDay y m d * msPerDay + (0 * msPerHour + 0 * msPerMinute + 0 * msPerSecond + 0))
    with (MakeDay y m d * msPerDay) by lia.
  rewrite Day_midnight. reflexivity.
Qed.

Lemma isSameDay_Day a b : isSameDay a b = true -> Day a = Day b.
Proof.
  unfold isSameDay. intros H.
  apply andb_prop in H as [H H3]. apply andb_prop in H as [H1 H2].
  apply Z.eqb_eq in H1, H2, H3.
  rewrite <- (MakeDay_fields a), <- (MakeDay_fields b), H1, H2, H3. reflexivity.
Qed.

(* ================================================================== *)
(** * The day grid                                                     *)
(* ================================================================== *)

Lemma padToWeeks_spec fuel : forall out,
  (- Z.of_nat (List.length out)) mod 7 <= Z.of_nat fuel ->
  padToWeeks fuel out
  = out ++ List.repeat None (Z.to_nat ((- Z.of_nat (List.length out)) mod 7)).
Proof.
  induction fuel as [| k IH]; intros out Hfuel.
  - cbn [padToWeeks].
    replace ((- Z.of_nat (List.length out)) mod 7) with 0 by zdiv.
    cbn. now rewrite app_nil_r.
  - cbn [padToWeeks].
    destruct (Z.eqb_spec (Z.of_nat (List.length out) mod 7) 0) as [E | E]; cbn [negb].
    + replace ((- Z.of_nat (List.length out)) mod 7) with 0 by zdiv.
      cbn. now rewrite app_nil_r.
    + assert (Hlen : Z.of_nat (List.length (out ++ [None (A:=Z)]))
                     = Z.of_nat (List.length out) + 1)
        by (rewrite length_app; cbn; lia).
      rewrite IH by (rewrite Hlen; zdiv).
      rewrite Hlen, <- app_assoc. f_equal.
      replace (Z.to_nat ((- Z.of_nat (List.length out)) mod 7))
        with (S (Z.to_nat ((- (Z.of_nat (List.length out) + 1)) mod 7))) by zdiv.
      reflexivity.
Qed.







Lemma getDate_endOfMonth base :
  getDate (endOfMonth base) = DaysInMonth (getFullYear base) (getMonth base + 1).
Proof.
  destruct (date_fields_valid base) as [Hm _].
  pose proof (DaysInMonth_bounds (getFullYear base) (getMonth base + 1)) as Hb.
  unfold endOfMonth, newDate3, getDate.
  rewrite Day_newDate5 by lia.
  rewrite MakeDay_end_of_month by exact Hm.
  rewrite civil_days_inv by lia. reflexivity.
Qed.

Lemma fields_startOfMonth base :
  getFullYear (startOfMonth base) = getFullYear base
  /\ getMonth (startOfMonth base) = getMonth base
  /\ getDate (startOfMonth base) = 1.
Proof.
  destruct (date_fields_valid base) as [Hm _].
  pose proof (DaysInMonth_bounds (getFullYear base) (getMonth base + 1)) as Hb.
  unfold startOfMonth, newDate3.
  pose proof (fields_newDate5 (getFullYear base) (getMonth base) 1 0 0
                Hm ltac:(lia) ltac:(lia) ltac:(lia)) as (H1 & H2 & H3 & _).
  auto.
Qed.

Lemma weekdayIndexMonFirst_range t :
  0 <= weekdayIndexMonFirst (getDay t) <= 6
  /\ weekdayIndexMonFirst (getDay t) = (getDay t + 6) mod 7.
Proof.
  unfold weekdayIndexMonFirst, getDay.
  destruct (Z.eqb_spec ((Day t + 4) mod 7) 0); zdiv.
Qed.


(* ================================================================== *)
(** * Range checks                                                     *)
(* ================================================================== *)

(** The inclusive check compares the midnights of the days, bounds
    included. *)
Lemma isDateInRange_inclusive date r :
  isDateInRange date (Some r) true = true
  <-> aboveMin r (stripTime date) /\ belowMax r (stripTime date).
Proof.
  unfold isDateInRange, aboveMin, belowMax, getTime.
  destruct (min r) as [mn |], (max r) as [mx |].
  - destruct (Z.ltb_spec (stripTime date) (stripTime mn)).
    + split; [discriminate |]. intros [H1 _]. specialize (H1 _ eq_refl). lia.
    + rewrite Z.gtb_ltb. destruct (Z.ltb_spec (stripTime mx) (stripTime date)).
      * split; [discriminate |]. intros [_ H2]. specialize (H2 _ eq_refl). lia.
      * split; [| reflexivity]. intros _.
        split; intros ? [= <-]; lia.
  - destruct (Z.ltb_spec (stripTime date) (stripTime mn)).
    + split; [discriminate |]. intros [H1 _]. specialize (H1 _ eq_refl). lia.
    + split; [| reflexivity]. intros _.
      split; [intros ? [= <-]; lia | intros ? [=]].
  - rewrite Z.gtb_ltb. destruct (Z.ltb_spec (stripTime mx) (stripTime date)).
    + split; [discriminate |]. intros [_ H2]. specialize (H2 _ eq_refl). lia.
    + split; [| reflexivity]. intros _.
      split; [intros ? [=] | intros ? [= <-]; lia].
  - split; [| reflexivity]. intros _. split; intros ? [=].
Qed.

(** The time of day plays no part in the check. *)
Lemma isDateInRange_same_day a b range incl :
  Day a = Day b -> isDateInRange a range incl = isDateInRange b range incl.
Proof.
  intros H. unfold isDateInRange. now rewrite (stripTime_same_day a b H).
Qed.

Lemma month_first_le_last y m0 : newDate3 y m0 1 <= newDate3 y (m0 + 1) 0.
Proof.
  unfold newDate3, newDate5, MakeDate, MakeTime.
  rewrite MakeDay_day_zero.
  pose proof (DaysInMonth_bounds (y + m0 / 12) (m0 mod 12 + 1)).
  unfold msPerDay. lia.
Qed.

Lemma fields_month_ends y m0 :
  0 <= m0 <= 11 ->
  let first := newDate3 y m0 1 in
  let last := newDate3 y (m0 + 1) 0 in
  (getFullYear first = y /\ getMonth first = m0 /\ getDate first = 1)
  /\ (getFullYear last = y /\ getMonth last = m0
      /\ getDate last = DaysInMonth y (m0 + 1)).
Proof.
  intros Hm. cbv zeta.
  pose proof (DaysInMonth_bounds y (m0 + 1)) as Hb.
  split.
  - pose proof (fields_newDate5 y m0 1 0 0 Hm ltac:(lia) ltac:(lia) ltac:(lia))
      as (H1 & H2 & H3 & _). auto.
  - unfold newDate3, getFullYear, getMonth, getDate.
    rewrite Day_newDate5 by lia.
    rewrite MakeDay_end_of_month by exact Hm.
    rewrite civil_days_inv by lia. cbn [fst snd]. repeat split; lia.
Qed.

(** An instant between the midnights of the first and the last day of a
    month lies on one of its days, and conversely. *)
Lemma month_days_in_range y m0 r :
  0 <= m0 <= 11 ->
  (exists t, newDate3 y m0 1 <= t <= newDate3 y (m0 + 1) 0
             /\ aboveMin r t /\ belowMax r t)
  <-> exists d, 1 <= d <= DaysInMonth y (m0 + 1)
                /\ isDateInRange (newDate3 y m0 d) (Some r) true = true.
Proof.
  intros Hm.
  pose proof (DaysInMonth_bounds y (m0 + 1)) as Hb.
  assert (Hnd : forall d, newDate3 y m0 d = (MakeDay y m0 1 + d - 1) * msPerDay).
  { intros d. unfold newDate3, newDate5, MakeDate, MakeTime, MakeDay. lia. }
  assert (Hlast : newDate3 y (m0 + 1) 0
                  = (MakeDay y m0 1 + DaysInMonth y (m0 + 1) - 1) * msPerDay).
  { unfold newDate3, newDate5, MakeDate, MakeTime. rewrite MakeDay_day_zero.
    rewrite Z.div_small, Z.mod_small by lia.
    replace (y + 0) with y by lia. lia. }
  split.
  - intros (t & [Hlo Hhi] & Hmin & Hmax).
    rewrite Hnd in Hlo. rewrite Hlast in Hhi.
    exists (Day t - MakeDay y m0 1 + 1).
    assert (Hd : MakeDay y m0 1 <= Day t <= MakeDay y m0 1 + DaysInMonth y (m0 + 1) - 1)
      by (unfold Day, msPerDay in *; zdiv).
    split; [lia |].
    apply isDateInRange_inclusive. rewrite stripTime_newDate3, Hnd.
    replace (MakeDay y m0 1 + (Day t - MakeDay y m0 1 + 1) - 1) with (Day t) by lia.
    rewrite <- stripTime_Day.
    pose proof (stripTime_le t) as Hst.
    split.
    + intros mn Emn. specialize (Hmin mn Emn). clear Hst Hlo Hhi Hd.
      rewrite !stripTime_Day in *. unfold Day, msPerDay in *. zdiv.
    + intros mx Emx. specialize (Hmax mx Emx). lia.
  - intros (d & Hd & Hin).
    apply isDateInRange_inclusive in Hin. rewrite stripTime_newDate3 in Hin.
    exists (newDate3 y m0 d). split; [| exact Hin].
    rewrite Hlast, !Hnd. unfold msPerDay. lia.
Qed.

(** On a year that the constructor takes as it is: a month is reported open
    exactly when the closed interval of its days, from the first to the
    last, meets the days from [min] to [max] (an absent bound bounding
    nothing), that is, when one of its days passes the day-level range
    check.  The exclusion predicate has no part in it. *)
Lemma isMonthInRange_intersects (y m0 : Z) (r : DateRange) :
  let first := newDate3 y m0 1 in
  let last := newDate3 y (m0 + 1) 0 in
  (isMonthInRange y m0 (Some r) = true
   <-> exists t, first <= t <= last /\ aboveMin r t /\ belowMax r t)
  /\ (0 <= m0 <= 11 ->
      (getFullYear first = y /\ getMonth first = m0 /\ getDate first = 1
       /\ getFullYear last = y /\ getMonth last = m0
       /\ getDate last = DaysInMonth y (m0 + 1))
      /\ (isMonthInRange y m0 (Some r) = true
          <-> exists d, 1 <= d <= DaysInMonth y (m0 + 1)
                        /\ isDateInRange (newDate3 y m0 d) (Some r) true = true))
  /\ (forall (p : Props) (ex : option (Date -> bool)) (s : State),
        monthOptions (withDisabledDates p ex) s = monthOptions p s
        /\ forall m, isMonthDisabled (withDisabledDates p ex) y m = isMonthDisabled p y m)
  /\ (forall ex : Date -> bool, (forall d, ex d = true) ->
        forall date, DateUtils.isDayDisabled date (Some r) (Some ex) = true).
Proof.
  cbv zeta.
  assert (Hiff : isMonthInRange y m0 (Some r) = true
                 <-> exists t, newDate3 y m0 1 <= t <= newDate3 y (m0 + 1) 0
                               /\ aboveMin r t /\ belowMax r t).
  2: { split; [exact Hiff | split; [| split]].
       - intros Hm. split.
         + destruct (fields_month_ends y m0 Hm) as [(A & B & C) (D & E & F)].
           repeat split; assumption.
         + rewrite Hiff. apply month_days_in_range. exact Hm.
       - intros p ex s. split; [reflexivity | intros m; reflexivity].
       - intros ex Hex date. unfold DateUtils.isDayDisabled. now rewrite Hex. }
  pose proof (month_first_le_last y m0) as Hle.
  unfold isMonthInRange, aboveMin, belowMax, getTime.
  rewrite !stripTime_newDate3.
  destruct (min r) as [mn |], (max r) as [mx |].
  - rewrite Z.leb_le. split.
    + intros H. exists (Z.max (newDate3 y m0 1) (stripTime mn)).
      repeat split; try lia; intros ? [= <-]; lia.
    + intros (t & Ht & H1 & H2).
      specialize (H1 _ eq_refl). specialize (H2 _ eq_refl). lia.
  - rewrite Z.leb_le. split.
    + intros H. exists (Z.max (newDate3 y m0 1) (stripTime mn)).
      repeat split; try lia; [intros ? [= <-]; lia | intros ? [=]].
    + intros (t & Ht & H1 & H2). specialize (H1 _ eq_refl). lia.
  - rewrite Z.leb_le. split.
    + intros H. exists (newDate3 y m0 1).
      repeat split; try lia; [intros ? [=] | intros ? [= <-]; lia].
    + intros (t & Ht & H1 & H2). specialize (H2 _ eq_refl). lia.
  - split; [| reflexivity]. intros _. exists (newDate3 y m0 1).
    repeat split; try lia; intros ? [=].
Qed.

(** ** The month check on a year number *)

(** A midnight is its day number times the length of a day. *)
Lemma newDate3_MakeDay y m d : newDate3 y m d = MakeDay y m d * msPerDay.
Proof. unfold newDate3, newDate5, MakeDate, MakeTime. lia. Qed.

(** The year that the constructor builds on. *)
Lemma MakeFullYear_cases y :
  (y < 0 \/ 99 < y -> AnyYear.MakeFullYear y = y)
  /\ (0 <= y <= 99 -> AnyYear.MakeFullYear y = 1900 + y)
  /\ (AnyYear.MakeFullYear y < 0 \/ 99 < AnyYear.MakeFullYear y).
Proof.
  unfold AnyYear.MakeFullYear.
  destruct (Z.leb_spec 0 y), (Z.leb_spec y 99); cbn [andb]; lia.
Qed.

(** On a date outside the years 0 to 99 the two readings of [stripTime]
    agree. *)
Lemma AnyYear_stripTime d : fullYear d -> AnyYear.stripTime d = stripTime d.
Proof.
  intros H. unfold AnyYear.stripTime, AnyYear.newDate3.
  rewrite (proj1 (MakeFullYear_cases _) H). unfold stripTime. reflexivity.
Qed.

(** The first and the last day of a month, as the constructor builds them
    from a year number. *)
Lemma AnyYear_month_ends y m0 :
  0 <= m0 <= 11 ->
  AnyYear.stripTime (AnyYear.newDate3 y m0 1) = newDate3 (AnyYear.MakeFullYear y) m0 1
  /\ AnyYear.stripTime (AnyYear.newDate3 y (m0 + 1) 0)
     = newDate3 (AnyYear.MakeFullYear y) (m0 + 1) 0.
Proof.
  intros Hm.
  destruct (fields_month_ends (AnyYear.MakeFullYear y) m0 Hm) as [(F1 & _) (L1 & _)].
  split.
  - rewrite AnyYear_stripTime; [apply stripTime_newDate3 |].
    unfold fullYear, AnyYear.newDate3. rewrite F1. apply MakeFullYear_cases.
  - rewrite AnyYear_stripTime; [apply stripTime_newDate3 |].
    unfold fullYear, AnyYear.newDate3. rewrite L1. apply MakeFullYear_cases.
Qed.

(** With bounds outside the years 0 to 99, the month check on a year number
    is the check of the month of the year that the constructor reads. *)
Lemma AnyYear_isMonthInRange y m0 r :
  0 <= m0 <= 11 -> fullYearRange r ->
  AnyYear.isMonthInRange y m0 (Some r) = isMonthInRange (AnyYear.MakeFullYear y) m0 (Some r).
Proof.
  intros Hm [Hmin Hmax]. destruct (AnyYear_month_ends y m0 Hm) as [E1 E2].
  unfold AnyYear.isMonthInRange, isMonthInRange. rewrite E1, E2, !stripTime_newDate3.
  destruct (min r) as [mn |], (max r) as [mx |];
    rewrite ?(AnyYear_stripTime mn) by (apply Hmin; reflexivity);
    rewrite ?(AnyYear_stripTime mx) by (apply Hmax; reflexivity);
    reflexivity.
Qed.

(** The days of a month, as day numbers and as midnights. *)
Lemma monthIntersects_midnights y m0 r :
  0 <= m0 <= 11 ->
  monthIntersects y m0 r
  <-> exists t, newDate3 y m0 1 <= t <= newDate3 y (m0 + 1) 0
                /\ aboveMin r t /\ belowMax r t.
Proof.
  intros Hm. unfold monthIntersects, aboveMin, belowMax.
  rewrite !newDate3_MakeDay, (MakeDay_end_of_month y m0 Hm), (MakeDay_month y m0 1 Hm).
  generalize (days_from_civil y (m0 + 1) 1)
             (days_from_civil y (m0 + 1) (DaysInMonth y (m0 + 1))).
  intros f l. split.
  - intros (k & Hk & H1 & H2). exists (k * msPerDay).
    split; [unfold msPerDay; lia |].
    split; intros b Hb; rewrite stripTime_Day;
      [specialize (H1 b Hb) | specialize (H2 b Hb)]; unfold msPerDay; lia.
  - intros (t & Ht & H1 & H2). exists (Day t).
    assert (Hd : Day t * msPerDay <= t < Day t * msPerDay + msPerDay)
      by (rewrite <- stripTime_Day; apply stripTime_le).
    split; [unfold msPerDay in *; lia |].
    split; intros b Hb; [specialize (H1 b Hb) | specialize (H2 b Hb)];
      rewrite stripTime_Day in *; unfold msPerDay in *; lia.
Qed.

(** The days of those years are time values of the platform. *)
Lemma days_in_time_range y m d :
  -271820 <= y <= 275759 -> 1 <= m <= 12 -> 1 <= d <= 31 ->
  - 100000000 <= days_from_civil y m d <= 100000000 - 1.
Proof.
  intros Hy Hm Hd. unfold days_from_civil. boolz; zdiv.
Qed.

(** The seventh claim as the specification words it fails on a year number
    from 0 to 99: the check of June of the year 99 passes on a range within
    June 1999, which no day of June 99 meets. *)
Lemma isMonthInRange_two_digit_year_fails :
  AnyYear.isMonthInRange 99 5 (Some rangeJune1999) = true
  /\ ~ monthIntersects 99 5 rangeJune1999.
Proof.
  split; [vm_compute; reflexivity |].
  intros (k & [_ Hk] & Hmn & _).
  specialize (Hmn (newDate3 1999 5 1) eq_refl).
  assert (Hlt : days_from_civil 99 (5 + 1) (DaysInMonth 99 (5 + 1)) < Day (newDate3 1999 5 1))
    by (vm_compute; reflexivity).
  lia.
Qed.

(** C7.  On any year number whose days the time values of the platform
    cover, with bounds outside the years 0 to 99: a month is reported open
    exactly when the closed interval of its days, from the first to the
    last, meets the days from [min] to [max] (an absent bound bounding
    nothing), the month being taken in the year that the constructor reads
    the number as: the number itself, but 1900 more for a number from 0 to
    99.  That is, when one of its days passes the day-level range check.
    The exclusion predicate has no part in it: the month options of the
    picker are the same under any predicate, also under one that excludes
    every day, which disables each single day. *)
Theorem isMonthInRange_any_year (y m0 : Z) (r : DateRange) :
  yearInTimeRange y -> 0 <= m0 <= 11 -> fullYearRange r ->
  let year := AnyYear.MakeFullYear y in
  let first := AnyYear.newDate3 y m0 1 in
  let last := AnyYear.newDate3 y (m0 + 1) 0 in
  (AnyYear.isMonthInRange y m0 (Some r) = true <-> monthIntersects year m0 r)
  /\ ((y < 0 \/ 99 < y -> year = y) /\ (0 <= y <= 99 -> year = 1900 + y))
  /\ (getFullYear first = year /\ getMonth first = m0 /\ getDate first = 1
      /\ getFullYear last = year /\ getMonth last = m0
      /\ getDate last = DaysInMonth year (m0 + 1))
  /\ (Z.abs (getTime first) <= maxTime /\ Z.abs (getTime last) <= maxTime)
  /\ (AnyYear.isMonthInRange y m0 (Some r) = true
      <-> exists d, 1 <= d <= DaysInMonth year (m0 + 1)
                    /\ isDateInRange (newDate3 year m0 d) (Some r) true = true)
  /\ (forall (p : Props) (ex : option (Date -> bool)) (s : State),
        monthOptions (withDisabledDates p ex) s = monthOptions p s
        /\ forall yy m, isMonthDisabled (withDisabledDates p ex) yy m = isMonthDisabled p yy m)
  /\ (forall ex : Date -> bool, (forall d, ex d = true) ->
        forall date, DateUtils.isDayDisabled date (Some r) (Some ex) = true).
Proof.
  intros Hy Hm Hfull. cbv zeta.
  destruct (isMonthInRange_intersects (AnyYear.MakeFullYear y) m0 r)
    as (Hiff & Hfields & _ & Hex).
  cbv zeta in Hiff.
  destruct (Hfields Hm) as [Hf Hdays].
  rewrite (AnyYear_isMonthInRange y m0 r Hm Hfull).
  split; [rewrite Hiff; symmetry; now apply monthIntersects_midnights |].
  split; [split; apply MakeFullYear_cases |].
  split; [exact Hf |].
  split.
  { assert (HY : -271820 <= AnyYear.MakeFullYear y <= 275759).
    { unfold yearInTimeRange in Hy. unfold AnyYear.MakeFullYear.
      destruct (Z.leb_spec 0 y), (Z.leb_spec y 99); cbn [andb]; lia. }
    pose proof (DaysInMonth_bounds (AnyYear.MakeFullYear y) (m0 + 1)) as Hb.
    pose proof (days_in_time_range (AnyYear.MakeFullYear y) (m0 + 1) 1
                  HY ltac:(lia) ltac:(lia)) as H1.
    pose proof (days_in_time_range (AnyYear.MakeFullYear y) (m0 + 1)
                  (DaysInMonth (AnyYear.MakeFullYear y) (m0 + 1))
                  HY ltac:(lia) ltac:(lia)) as H2.
    unfold AnyYear.newDate3, getTime.
    rewrite !newDate3_MakeDay, (MakeDay_end_of_month _ m0 Hm), (MakeDay_month _ m0 1 Hm).
    unfold maxTime, msPerDay. lia. }
  split; [exact Hdays |].
  split; [| exact Hex].
  intros p ex s. split; [reflexivity | intros yy m; reflexivity].
Qed.

(* ================================================================== *)
(** * The lower bound on the day of [minDate]                          *)
(* ================================================================== *)

(** [Math.ceil(m / s)] is the least [k] with [m <= k * s]. *)
Lemma ceil_spec m s :
  1 <= s -> (- ((- m) / s) - 1) * s < m <= - ((- m) / s) * s.
Proof.
  intros Hs.
  pose proof (Z.div_mod (- m) s ltac:(lia)) as Hdm.
  pose proof (Z.mod_pos_bound (- m) s ltac:(lia)) as Hr.
  nia.
Qed.

Lemma ceil_unique m s k :
  1 <= s -> (k - 1) * s < m <= k * s -> k = - ((- m) / s).
Proof. intros Hs Hk. pose proof (ceil_spec m s Hs). nia. Qed.

Lemma range_spec n i : In i (NumberUtils.range n) <-> 0 <= i < n.
Proof.
  unfold NumberUtils.range. rewrite in_map_iff. split.
  - intros (k & <- & Hk). apply in_seq in Hk. lia.
  - intros Hi. exists (Z.to_nat i). split; [lia |]. apply in_seq. lia.
Qed.

Lemma minuteIndices_bound props i :
  1 <= minuteStep props -> In i (minuteIndices props) ->
  0 <= i * minuteStep props <= 60 - minuteStep props.
Proof.
  intros Hs Hi. unfold minuteIndices in Hi. apply range_spec in Hi.
  pose proof (Z.div_mod 60 (minuteStep props) ltac:(lia)) as Hdm.
  pose proof (Z.mod_pos_bound 60 (minuteStep props) ltac:(lia)) as Hr.
  nia.
Qed.

Lemma scanFrom_below props st hour fl idx :
  (forall i, In i idx -> i * minuteStep props < fl) ->
  scanFrom props st hour fl idx = true.
Proof.
  induction idx as [| i rest IH]; intros H; cbn [scanFrom]; [reflexivity |].
  destruct (Z.ltb_spec (i * minuteStep props) fl) as [_ | Hge].
  - apply IH. intros j Hj. apply H. now right.
  - specialize (H i (or_introl eq_refl)). lia.
Qed.

Lemma getLowerBoundForDraft_min_day props st mn :
  minDate props = Some mn -> isSameDay (draft st) mn = true ->
  getLowerBoundForDraft props st
  = Some (mkLower (getHours mn) (roundUpToStep (getMinutes mn) (minuteStep props))).
Proof.
  intros Hmn Hsame. unfold getLowerBoundForDraft. now rewrite Hmn, Hsame.
Qed.

(** A probe on the draft's day passes the range check when the draft
    does. *)
Lemma probe_on_draft_day props d h mi :
  0 <= h <= 23 -> 0 <= mi <= 59 ->
  isDateTimeDisabled props (newDate5 (getFullYear d) (getMonth d) (getDate d) h mi)
  = negb (isDateInRange d (rangeObj props) true).
Proof.
  intros Hh Hmi. unfold isDateTimeDisabled.
  rewrite (isDateInRange_same_day _ d) by (apply Day_rebuild; assumption).
  now destruct (isDateInRange d (rangeObj props) true).
Qed.

(** C10.  For a minute [m] of 0..59 and a step [s >= 1], [roundUpToStep]
    is the smaller of 59 and the least multiple of [s] that is at least [m];
    it lies between [m] and 59.  When that multiple exceeds 59 the result is
    59, which is no multiple of the step, every minute of the step grid lies
    strictly below it, and on the day of [minDate] the hour of [minDate] is
    reported completely disabled, each of its grid minutes being disabled. *)
Theorem roundUpToStep_floor (m s : Z) :
  0 <= m <= 59 -> 1 <= s ->
  (exists k, (k - 1) * s < m <= k * s)
  /\ (forall k, (k - 1) * s < m <= k * s -> roundUpToStep m s = Z.min 59 (k * s))
  /\ m <= roundUpToStep m s <= 59
  /\ (forall k, (k - 1) * s < m <= k * s -> 59 < k * s ->
        roundUpToStep m s = 59
        /\ 59 mod s <> 0
        /\ (forall i, 0 <= i -> i * s <= 59 -> i * s < roundUpToStep m s)
        /\ forall (props : Props) (st : State) (mn : Date),
             minDate props = Some mn -> minuteStep props = s ->
             getMinutes mn = m -> isSameDay (draft st) mn = true ->
             isHourCompletelyDisabled props st (getHours mn) = true
             /\ (getHours (draft st) = getHours mn ->
                 forall i, 0 <= i -> i * s <= 59 ->
                 isMinuteDisabled props st (i * s) = true)).
Proof.
  intros Hm Hs.
  pose proof (ceil_spec m s Hs) as Hc.
  assert (Hround : forall k, (k - 1) * s < m <= k * s ->
                   roundUpToStep m s = Z.min 59 (k * s)).
  { intros k Hk. unfold roundUpToStep. now rewrite (ceil_unique m s k Hs Hk). }
  split; [exists (- ((- m) / s)); exact Hc |].
  split; [exact Hround |].
  split; [rewrite (Hround _ Hc); lia |].
  intros k Hk Hover.
  assert (Hval : roundUpToStep m s = 59) by (rewrite (Hround k Hk); lia).
  assert (Hnot : 59 mod s <> 0).
  { intros H0. pose proof (Z.div_mod 59 s ltac:(lia)) as Hdm. rewrite H0 in Hdm.
    remember (59 / s) as q eqn:Eq. clear Eq.
    assert (Hkq : k <= q).
    { destruct (Z.le_gt_cases k q) as [Hle | Hgt]; [exact Hle | exfalso].
      assert (q * s <= (k - 1) * s) by (apply Z.mul_le_mono_nonneg_r; lia). lia. }
    assert (k * s <= q * s) by (apply Z.mul_le_mono_nonneg_r; lia). lia. }
  assert (Hgrid : forall i, 0 <= i -> i * s <= 59 -> i * s < 59).
  { intros i Hi Hle. destruct (Z.eq_dec (i * s) 59) as [E | E]; [| lia].
    exfalso. apply Hnot. rewrite <- E. apply Z.mod_mul. lia. }
  split; [exact Hval |]. split; [exact Hnot |].
  split; [rewrite Hval; exact Hgrid |].
  intros props st mn Hmn Hstep Hmin Hsame.
  pose proof (getLowerBoundForDraft_min_day props st mn Hmn Hsame) as Hlow.
  rewrite Hstep, Hmin, Hval in Hlow.
  split.
  - unfold isHourCompletelyDisabled. rewrite Hlow. cbn [minHour minMinuteStepAligned].
    rewrite Z.ltb_irrefl, Z.eqb_refl. cbn.
    apply scanFrom_below. intros i Hi.
    pose proof (minuteIndices_bound props i ltac:(lia) Hi) as Hb.
    unfold minuteIndices in Hi. apply range_spec in Hi.
    rewrite Hstep in *. apply Hgrid; lia.
  - intros Hhour i Hi Hle. unfold isMinuteDisabled. rewrite Hlow.
    cbn [minHour minMinuteStepAligned].
    rewrite Hhour, Z.eqb_refl.
    specialize (Hgrid i Hi Hle).
    destruct (Z.ltb_spec (i * s) 59); [reflexivity | lia].
Qed.

(** C4, as stated, fails: with [minDate] at 09:58 and a step of 5 the least
    multiple of the step from 58 on is 60, and no minute of the grid is
    selectable in that hour. *)
Lemma leastMultipleSelectable_fails : ~ leastMultipleSelectable props0958 draft0955.
Proof.
  intros Hclaim.
  destruct (Hclaim (newDate5 2024 0 10 9 58) eq_refl ltac:(cbn; lia)
              ltac:(vm_compute; reflexivity) ltac:(vm_compute; reflexivity))
    as (a & _ & _ & _ & Hin & Hfree & _).
  assert (Hall : List.forallb (isMinuteDisabled props0958 draft0955)
                              (stepGrid (minuteStep props0958)) = true)
    by (vm_compute; reflexivity).
  rewrite forallb_forall in Hall. rewrite (Hall a Hin) in Hfree. discriminate.
Qed.

(** C4, amended.  On the day and in the hour of [minDate], with a step
    [s >= 1] and a day that [maxDate] does not cut off, let [a] be the least
    multiple of [s] that is at least the minute of [minDate].  When
    [a <= 59], [a] is selectable and every minute below it is disabled, so
    [a] is the smallest selectable minute; it is among the rendered options
    when the step divides 60. *)
Theorem minute_floor_on_min_day (props : Props) (st : State) (mn : Date) :
  minDate props = Some mn ->
  1 <= minuteStep props ->
  isSameDay (draft st) mn = true ->
  getHours (draft st) = getHours mn ->
  isDateInRange (draft st) (rangeObj props) true = true ->
  let s := minuteStep props in
  let a := - ((- getMinutes mn) / s) * s in
  a <= 59 ->
  (a mod s = 0 /\ getMinutes mn <= a
   /\ forall g, g mod s = 0 -> getMinutes mn <= g -> a <= g)
  /\ isMinuteDisabled props st a = false
  /\ (forall g, g < a -> isMinuteDisabled props st g = true)
  /\ (60 mod s = 0 -> In a (minuteOptions props)).
Proof.
  intros Hmn Hs Hsame Hhour Hrange s a Ha.
  pose proof (getMinutes_range mn) as Hmm.
  pose proof (ceil_spec (getMinutes mn) s Hs) as Hc.
  pose proof (getLowerBoundForDraft_min_day props st mn Hmn Hsame) as Hlow.
  assert (Es : minuteStep props = s) by reflexivity.
  assert (Ea : a = - ((- getMinutes mn) / s) * s) by reflexivity.
  clearbody a. clearbody s.
  remember (- ((- getMinutes mn) / s)) as c eqn:Ec.
  assert (Hal : roundUpToStep (getMinutes mn) (minuteStep props) = c * s)
    by (unfold roundUpToStep; rewrite Es, <- Ec; lia).
  rewrite Hal in Hlow. clear Ec Hal. subst a.
  split; [split; [| split] |].
  - apply Z.mod_mul. lia.
  - lia.
  - intros g Hg Hge.
    pose proof (Z.div_mod g s ltac:(lia)) as Hdm. rewrite Hg in Hdm.
    remember (g / s) as q eqn:Eq. clear Eq.
    assert (Hlt : (c - 1) * s < q * s) by lia.
    apply Z.mul_lt_mono_pos_r in Hlt; [| lia].
    assert (c * s <= q * s) by (apply Z.mul_le_mono_nonneg_r; lia). lia.
  - split; [| split].
    + unfold isMinuteDisabled. rewrite Hlow. cbn [minHour minMinuteStepAligned].
      rewrite Hhour, Z.eqb_refl, Z.ltb_irrefl. cbn [andb].
      rewrite <- Hhour.
      rewrite probe_on_draft_day by (try apply getHours_range; lia).
      now rewrite Hrange.
    + intros g Hg. unfold isMinuteDisabled. rewrite Hlow.
      cbn [minHour minMinuteStepAligned].
      rewrite Hhour, Z.eqb_refl.
      destruct (Z.ltb_spec g (c * s)); [reflexivity | lia].
    + intros Hdiv. unfold minuteOptions, minuteIndices. rewrite Es.
      apply in_map_iff. exists c. split; [reflexivity |].
      apply range_spec.
      pose proof (Z.div_mod 60 s ltac:(lia)) as Hdm. rewrite Hdiv in Hdm.
      remember (60 / s) as q eqn:Eq. clear Eq.
      split.
      * destruct (Z.le_gt_cases 0 c) as [Hle | Hgt]; [exact Hle | exfalso].
        assert (c * s <= (-1) * s) by (apply Z.mul_le_mono_nonneg_r; lia). lia.
      * assert (Hlt : c * s < q * s) by lia.
        apply Z.mul_lt_mono_pos_r in Hlt; lia.
Qed.

(* ================================================================== *)
(** * The selection state machine                                      *)
(* ================================================================== *)

(** Flooring a minute to the step. *)
Lemma floor_to_step mm s :
  0 <= mm <= 59 -> 1 <= s ->
  0 <= mm / s * s <= 59 /\ (mm / s * s) mod s = 0
  /\ mm - s < mm / s * s <= mm.
Proof.
  intros Hmm Hs.
  pose proof (Z.div_mod mm s ltac:(lia)) as Hdm.
  pose proof (Z.mod_pos_bound mm s ltac:(lia)) as Hr.
  assert (Hq : 0 <= mm / s) by (apply Z.div_pos; lia).
  split; [nia |]. split; [apply Z.mod_mul; lia | nia].
Qed.

(** The draft that a seeding builds keeps the day and hour of its base and
    carries the floored minute. *)
Lemma fields_normalizeToStep props base :
  1 <= minuteStep props ->
  let d := normalizeToStep props base in
  getFullYear d = getFullYear base /\ getMonth d = getMonth base
  /\ getDate d = getDate base /\ getHours d = getHours base
  /\ getMinutes d = getMinutes base / minuteStep props * minuteStep props.
Proof.
  intros Hs. cbv zeta. unfold normalizeToStep.
  pose proof (floor_to_step (getMinutes base) (minuteStep props)
                (getMinutes_range base) Hs) as (Hb & _).
  apply fields_rebuild; [apply getHours_range | exact Hb].
Qed.

(** Projections of a state and the boolean connectives, for unfolding
    handlers without unfolding dates. *)
Ltac proj_state :=
  cbn [open view displayDate draft picked_date picked_time hourTouched
       minuteTouched value setOpen setView setDisplayDate setDraft setPicked
       setHourTouched setMinuteTouched setValue
       andb orb negb Bool.eqb fst snd isSome] in *.

(** Opening a closed picker: the handler sets [open], the effect seeds. *)
Lemma step_open legacy props now st :
  open st = false -> disabled props = false ->
  step legacy props now st (EvOpenChange true)
  = (let base := seedBase legacy props now st in
     let has := isSome (selected legacy st) in
     mkState true (view st) (startOfMonth base) (normalizeToStep props base)
             has has has has (value st), None).
Proof.
  intros Hopen Hdis. destruct st as [o v dd dr pd pt ht mt val].
  proj_state. subst o.
  unfold step, dispatch. rewrite Hdis. proj_state.
  unfold onOpenChange. proj_state.
  unfold syncEffect, seedBase, selected. proj_state. reflexivity.
Qed.

(** C9.  Opening the picker seeds the draft from the committed value when
    there is one, else from the later of the clock and [minDate] when there
    is a [minDate], else from the clock; the draft keeps the day and hour of
    that base, its minute is the base's minute floored to a multiple of the
    step; and the hour-chosen and minute-chosen flags (with the picked
    flags) are true exactly when a committed value existed.  Nothing is
    committed. *)
Theorem open_seeds_draft (legacy : string -> option Z) (props : Props)
    (now : Date) (st : State) :
  open st = false -> disabled props = false -> 1 <= minuteStep props ->
  let st' := fst (step legacy props now st (EvOpenChange true)) in
  let committed := parseToDate legacy (value st) in
  let base :=
    match committed with
    | Some v => v
    | None => match minDate props with Some mn => Z.max now mn | None => now end
    end in
  let s := minuteStep props in
  snd (step legacy props now st (EvOpenChange true)) = None
  /\ value st' = value st /\ open st' = true
  /\ draft st' = newDate5 (getFullYear base) (getMonth base) (getDate base)
                          (getHours base) (getMinutes base / s * s)
  /\ (getFullYear (draft st') = getFullYear base
      /\ getMonth (draft st') = getMonth base
      /\ getDate (draft st') = getDate base
      /\ getHours (draft st') = getHours base)
  /\ (getMinutes (draft st') = getMinutes base / s * s
      /\ getMinutes (draft st') mod s = 0
      /\ getMinutes base - s < getMinutes (draft st') <= getMinutes base)
  /\ displayDate st' = startOfMonth base
  /\ (hourTouched st' = isSome committed /\ minuteTouched st' = isSome committed
      /\ picked_date st' = isSome committed /\ picked_time st' = isSome committed).
Proof.
  intros Hopen Hdis Hs. cbv zeta.
  rewrite (step_open legacy props now st Hopen Hdis). cbv zeta.
  unfold seedBase, selected, getTime. proj_state.
  set (base := match parseToDate legacy (value st) with
               | Some d => d
               | None => match minDate props with
                         | Some mn => Z.max now mn
                         | None => now
                         end
               end).
  pose proof (fields_normalizeToStep props base Hs) as (F1 & F2 & F3 & F4 & F5).
  pose proof (floor_to_step (getMinutes base) (minuteStep props)
                (getMinutes_range base) Hs) as (Hb & Hmod & Hfl).
  split; [reflexivity |]. split; [reflexivity |]. split; [reflexivity |].
  split; [reflexivity |].
  split; [repeat split; assumption |].
  split; [rewrite F5; repeat split; first [assumption | lia] |].
  split; [reflexivity |].
  repeat split; reflexivity.
Qed.

(** Case analysis on the conditions of the goal. *)
Ltac break_if :=
  repeat match goal with
  | |- context [if ?c then _ else _] => destruct c eqn:?
  end.

Lemma commit_guarded props d v :
  commit props (Some d) = Some v ->
  isDateInRange d (rangeObj props) true = true /\ v = encode (valueAs props) d.
Proof.
  unfold commit, encode.
  destruct (isDateInRange d (rangeObj props) true); cbn [negb]; [| discriminate].
  intros [= <-]. split; [reflexivity | now destruct (valueAs props)].
Qed.

Lemma syncEffect_value legacy props now st :
  value (syncEffect legacy props now st) = value st.
Proof. unfold syncEffect. now destruct (open st). Qed.

Lemma syncEffect_closed legacy props now st :
  open st = false -> syncEffect legacy props now st = st.
Proof. intros H. unfold syncEffect. now rewrite H. Qed.

(** The handlers never write the form store themselves. *)
Lemma dispatch_value legacy props now st ev :
  value (fst (dispatch legacy props now st ev)) = value st.
Proof.
  destruct st as [o v dd dr pd pt ht mt val].
  destruct ev; unfold dispatch; break_if; proj_state; try reflexivity.
  - unfold onOpenChange. break_if; reflexivity.
  - unfold setHour. break_if; reflexivity.
  - unfold setMinute. break_if; reflexivity.
  - unfold handleMonthChange. break_if; reflexivity.
Qed.

(** What reaches [field.onChange], and from where. *)
Lemma dispatch_emits legacy props now st ev v :
  snd (dispatch legacy props now st ev) = Some v ->
  (exists m d, ev = EvMinuteClick m
               /\ isDateInRange d (rangeObj props) true = true
               /\ v = encode (valueAs props) d)
  \/ (ev = EvClear /\ v = VUndefined).
Proof.
  destruct ev; unfold dispatch; break_if; proj_state; try discriminate.
  - unfold setMinute. break_if; proj_state; [discriminate |].
    unfold commitIfComplete. rewrite orb_true_r.
    intros H. apply commit_guarded in H as [Hr ->].
    left. eauto.
  - unfold clear, commit. intros [= <-]. now right.
Qed.

Lemma step_emitted legacy props now st ev :
  snd (step legacy props now st ev) = snd (dispatch legacy props now st ev).
Proof.
  unfold step. destruct (dispatch legacy props now st ev) as [s1 em]. reflexivity.
Qed.

Lemma step_value legacy props now st ev :
  value (fst (step legacy props now st ev))
  = match snd (step legacy props now st ev) with
    | Some v => v
    | None => value st
    end.
Proof.
  pose proof (dispatch_value legacy props now st ev) as Hv.
  unfold step. destruct (dispatch legacy props now st ev) as [s1 em].
  proj_state. destruct em as [v |]; break_if; proj_state;
    rewrite ?syncEffect_value; proj_state; auto.
Qed.

Lemma step_commitFree legacy props now st ev :
  commitFree ev ->
  snd (step legacy props now st ev) = None
  /\ value (fst (step legacy props now st ev)) = value st.
Proof.
  intros Hfree.
  assert (Hnone : snd (step legacy props now st ev) = None).
  { rewrite step_emitted.
    destruct (snd (dispatch legacy props now st ev)) as [v |] eqn:E; [| reflexivity].
    apply dispatch_emits in E as [(m & d & -> & _) | [-> _]]; destruct Hfree. }
  split; [exact Hnone |]. now rewrite step_value, Hnone.
Qed.

Lemma run_commitFree legacy props evs : forall st,
  Forall (fun e => commitFree (snd e)) evs ->
  snd (run legacy props st evs) = []
  /\ value (fst (run legacy props st evs)) = value st.
Proof.
  induction evs as [| [now ev] rest IH]; intros st Hfree; cbn [run].
  - split; reflexivity.
  - inversion Hfree as [| ? ? Hev Hrest]; subst. cbn [snd] in Hev.
    destruct (step_commitFree legacy props now st ev Hev) as [Hn Hv].
    destruct (step legacy props now st ev) as [s1 em]. proj_state. subst em.
    specialize (IH s1 Hrest).
    destruct (run legacy props s1 rest) as [s2 out]. proj_state.
    destruct IH as [-> ->]. split; [reflexivity | exact Hv].
Qed.

(** Closing: the handler alone decides the state, the effect does nothing
    on a closed picker. *)
Lemma step_close legacy props now st :
  step legacy props now st (EvOpenChange false)
  = (onOpenChange legacy props now st false, None).
Proof.
  unfold step, dispatch. proj_state.
  assert (Hclosed : open (onOpenChange legacy props now st false) = false)
    by (unfold onOpenChange; reflexivity).
  rewrite Hclosed.
  destruct (open st); proj_state; [| reflexivity].
  now rewrite syncEffect_closed.
Qed.

(** C5.  In date-time mode, after any events of a session that do not
    complete a minute pick and do not clear (none at all included), if a day
    is picked and the time is not, closing the picker commits nothing and
    leaves the committed value as it was before those events; it closes the
    picker and reseeds the draft and the displayed month from that value, or
    from the later of the clock and [minDate], or from the clock, the minute
    floored to the step; the picked flags tell whether a value exists. *)
Theorem close_incomplete_restores (legacy : string -> option Z) (props : Props)
    (s0 : State) (evs : list (Date * Event)) (now : Date) :
  requireTime props = true ->
  Forall (fun e => commitFree (snd e)) evs ->
  let st := fst (run legacy props s0 evs) in
  picked_date st = true -> picked_time st = false ->
  let st' := fst (step legacy props now st (EvOpenChange false)) in
  let v0 := parseToDate legacy (value s0) in
  let base :=
    match v0 with
    | Some v => v
    | None => match minDate props with Some mn => Z.max now mn | None => now end
    end in
  snd (run legacy props s0 evs) = []
  /\ snd (step legacy props now st (EvOpenChange false)) = None
  /\ value st' = value s0
  /\ open st' = false
  /\ draft st' = newDate5 (getFullYear base) (getMonth base) (getDate base)
                          (getHours base)
                          (getMinutes base / minuteStep props * minuteStep props)
  /\ displayDate st' = startOfMonth base
  /\ (picked_date st' = isSome v0 /\ picked_time st' = isSome v0)
  /\ (view st' = view st /\ hourTouched st' = hourTouched st
      /\ minuteTouched st' = minuteTouched st).
Proof.
  intros Hrt Hfree st Hpd Hpt. cbv zeta.
  destruct (run_commitFree legacy props evs s0 Hfree) as [Hout Hval].
  fold st in Hval.
  rewrite step_close. proj_state.
  unfold onOpenChange. proj_state. rewrite Hrt, Hpd, Hpt. proj_state.
  unfold resetFromSelected, seedBase, selected, normalizeToStep, getTime.
  proj_state. rewrite Hval.
  split; [exact Hout |].
  repeat split; reflexivity.
Qed.

Lemma setHour_frame props st h :
  open (setHour props st h) = open st
  /\ view (setHour props st h) = view st
  /\ displayDate (setHour props st h) = displayDate st
  /\ value (setHour props st h) = value st.
Proof. unfold setHour. break_if; proj_state; repeat split; reflexivity. Qed.

Lemma step_hour legacy props now st h :
  step legacy props now st (EvHourClick h)
  = (if open st && memZ h (NumberUtils.range 24)
        && negb (isHourCompletelyDisabled props st h)
     then setHour props st h else st, None).
Proof.
  unfold step, dispatch.
  destruct (open st && memZ h (NumberUtils.range 24)
            && negb (isHourCompletelyDisabled props st h)); proj_state.
  - destruct (setHour_frame props st h) as (-> & _).
    now rewrite Bool.eqb_reflx.
  - now rewrite Bool.eqb_reflx.
Qed.

Lemma clamp_range n lo hi : lo <= hi -> lo <= NumberUtils.clamp n lo hi <= hi.
Proof. unfold NumberUtils.clamp. lia. Qed.

(** C3, as stated, fails: picking hour 11 in that state also sets the
    draft's minute from 35 to 0 and marks the date as picked. *)
Lemma pickHourTouchesOnlyHour_fails :
  ~ pickHourTouchesOnlyHour noLegacy propsUnbounded (newDate5 2024 0 15 10 35)
      openedAt1035 11.
Proof.
  intros Hclaim. destruct (Hclaim eq_refl) as (_ & _ & _ & _ & Hmin & Hpd).
  vm_compute in Hpd. discriminate.
Qed.

(** C3, amended.  A pick of an hour never commits and never changes the
    committed value.  It is either rejected, the state staying as it is, or
    it moves the draft to the picked hour (clamped to 0..23) of the same day
    at minute 0, marks the date as picked and the hour as touched, and
    clears the time-picked and minute-touched flags; the displayed month,
    the view and the open flag stay.  A value is committed only by a pick of
    a minute; clearing commits the absent value. *)
Theorem pick_hour_never_commits (legacy : string -> option Z) (props : Props)
    (now : Date) (st : State) (h : Z) :
  let st' := fst (step legacy props now st (EvHourClick h)) in
  snd (step legacy props now st (EvHourClick h)) = None
  /\ value st' = value st
  /\ (st' = st
      \/ (getFullYear (draft st') = getFullYear (draft st)
          /\ getMonth (draft st') = getMonth (draft st)
          /\ getDate (draft st') = getDate (draft st)
          /\ getHours (draft st') = NumberUtils.clamp h 0 23
          /\ getMinutes (draft st') = 0
          /\ picked_date st' = true /\ picked_time st' = false
          /\ hourTouched st' = true /\ minuteTouched st' = false
          /\ open st' = open st /\ view st' = view st
          /\ displayDate st' = displayDate st))
  /\ (forall now1 st1 ev v,
        snd (step legacy props now1 st1 ev) = Some v ->
        (exists m, ev = EvMinuteClick m /\ v <> VUndefined)
        \/ (ev = EvClear /\ v = VUndefined)).
Proof.
  cbv zeta. rewrite step_hour. proj_state.
  split; [reflexivity |].
  split; [| split].
  - break_if; [apply setHour_frame | reflexivity].
  - destruct (open st && memZ h (NumberUtils.range 24)
              && negb (isHourCompletelyDisabled props st h)); [| now left].
    unfold setHour. break_if; [now left | right].
    proj_state.
    pose proof (clamp_range h 0 23 ltac:(lia)) as Hc.
    pose proof (fields_rebuild (draft st) (NumberUtils.clamp h 0 23) 0 Hc ltac:(lia))
      as (F1 & F2 & F3 & F4 & F5).
    repeat split; first [assumption | reflexivity].
  - intros now1 st1 ev v Hv. rewrite step_emitted in Hv.
    apply dispatch_emits in Hv as [(m & d & -> & _ & ->) | [-> ->]].
    + left. exists m. split; [reflexivity |]. unfold encode.
      destruct (valueAs props); discriminate.
    + right. split; reflexivity.
Qed.

(** Whatever is committed passed the range check of [commit], which is the
    day-level one. *)
Lemma emitted_in_day_range legacy props now st ev v :
  snd (step legacy props now st ev) = Some v ->
  v = VUndefined
  \/ exists d, v = encode (valueAs props) d
               /\ isDateInRange d (rangeObj props) true = true.
Proof.
  rewrite step_emitted. intros H.
  apply dispatch_emits in H as [(m & d & _ & Hr & ->) | [_ ->]]; [right | left]; eauto.
Qed.

(** A rejected minute changes nothing and commits nothing. *)
Lemma setMinute_rejected props st m :
  isDateTimeDisabled props
    (newDate5 (getFullYear (draft st)) (getMonth (draft st)) (getDate (draft st))
              (getHours (draft st)) (NumberUtils.clamp m 0 59)) = true ->
  setMinute props st m = (st, None).
Proof. intros H. unfold setMinute. now rewrite H. Qed.

(** C1 at its failing input.  Opening the picker, picking day 10 and then
    minute 15 commits 2024-01-10 00:15, an instant before [minDate]
    (2024-01-10 09:07); the component's own check of the selected value then
    reports it as too early. *)
Theorem commit_before_minDate :
  let session := [(clockScenario, EvOpenChange true);
                  (clockScenario, EvDayClick 10);
                  (clockScenario, EvMinuteClick 15)] in
  let result := run noLegacy propsScenario (initialState clockScenario VUndefined) session in
  snd result = [VDate (Some (newDate5 2024 0 10 0 15))]
  /\ value (fst result) = VDate (Some (newDate5 2024 0 10 0 15))
  /\ newDate5 2024 0 10 0 15 < newDate5 2024 0 10 9 7
  /\ localError noLegacy propsScenario (fst result) = Some TooEarly.
Proof. vm_compute. repeat split; reflexivity. Qed.

(** C2 at its failing input.  The check of an instant looks at its day
    only: 00:15 on the day of [minDate] (09:07) and 23:00 on the day of
    [maxDate] (00:00) are both reported free, though one is before [minDate]
    and the other after [maxDate]. *)
Theorem isDateTimeDisabled_ignores_time :
  isDateTimeDisabled propsScenario (newDate5 2024 0 10 0 15) = false
  /\ newDate5 2024 0 10 0 15 < newDate5 2024 0 10 9 7
  /\ isDateTimeDisabled propsScenario (newDate5 2024 0 20 23 0) = false
  /\ newDate3 2024 0 20 < newDate5 2024 0 20 23 0.
Proof. vm_compute. repeat split; reflexivity. Qed.

(** In general the verdict on an instant is the verdict on the midnight of
    its day. *)
Lemma isDateTimeDisabled_day props dt :
  isDateTimeDisabled props dt = isDateTimeDisabled props (stripTime dt).
Proof.
  unfold isDateTimeDisabled.
  rewrite (isDateInRange_same_day dt (stripTime dt)); [reflexivity |].
  rewrite stripTime_Day, Day_midnight. reflexivity.
Qed.

(* ================================================================== *)
(** * The value codec                                                  *)
(* ================================================================== *)

Lemma digits_read_back n : 0 <= n <= 9 -> digitReadsBack n = true.
Proof.
  intros Hn.
  assert (Hall : List.forallb digitReadsBack (NumberUtils.range 10) = true)
    by reflexivity.
  rewrite forallb_forall in Hall. apply Hall, range_spec. lia.
Qed.

Lemma digitVal_digitChar n : 0 <= n <= 9 -> digitVal (digitChar n) = Some n.
Proof.
  intros Hn. pose proof (digits_read_back n Hn) as H. unfold digitReadsBack in H.
  destruct (digitVal (digitChar n)) as [v |]; [| discriminate].
  apply andb_prop in H as [H _]. apply andb_prop in H as [H _].
  apply Z.eqb_eq in H. now subst.
Qed.

Lemma digitChar_not_sign n : 0 <= n <= 9 ->
  Ascii.eqb (digitChar n) "+"%char = false /\ Ascii.eqb (digitChar n) "-"%char = false.
Proof.
  intros Hn. pose proof (digits_read_back n Hn) as H. unfold digitReadsBack in H.
  apply andb_prop in H as [H H2]. apply andb_prop in H as [_ H1].
  apply negb_true_iff in H1, H2. now split.
Qed.

Lemma readDigits_padDigits k : forall j acc n rest,
  0 <= n < 10 ^ Z.of_nat k ->
  readDigits (k + j) acc (padDigits k n ++ rest)
  = readDigits j (acc * 10 ^ Z.of_nat k + n) rest.
Proof.
  induction k as [| k IH]; intros j acc n rest Hn.
  - cbn [padDigits app Nat.add]. change (10 ^ Z.of_nat 0) with 1 in *.
    f_equal. lia.
  - cbn [padDigits]. rewrite <- app_assoc. cbn [app].
    replace (S k + j)%nat with (k + S j)%nat by lia.
    assert (Hpow : 10 ^ Z.of_nat (S k) = 10 * 10 ^ Z.of_nat k)
      by (rewrite Nat2Z.inj_succ, Z.pow_succ_r; lia).
    rewrite Hpow in Hn.
    rewrite IH by zdiv.
    cbn [readDigits]. rewrite digitVal_digitChar by zdiv.
    f_equal. rewrite Hpow. zdiv.
Qed.

Lemma readDigits_all k acc n rest :
  0 <= n < 10 ^ Z.of_nat k ->
  readDigits k acc (padDigits k n ++ rest) = Some (acc * 10 ^ Z.of_nat k + n, rest).
Proof.
  intros Hn. pose proof (readDigits_padDigits k 0 acc n rest Hn) as H.
  rewrite Nat.add_0_r in H. exact H.
Qed.

Lemma padDigits_head k : forall n,
  exists v tl, 0 <= v <= 9 /\ padDigits (S k) n = digitChar v :: tl.
Proof.
  induction k as [| k IH]; intros n.
  - exists (n mod 10), []. split; [zdiv | reflexivity].
  - destruct (IH (n / 10)) as (v & tl & Hv & E).
    exists v, (tl ++ [digitChar (n mod 10)]). split; [exact Hv |].
    change (padDigits (S (S k)) n)
      with (padDigits (S k) (n / 10) ++ [digitChar (n mod 10)]).
    now rewrite E.
Qed.

Lemma readYear_yearText y rest :
  -999999 <= y <= 999999 ->
  readYear (yearText y ++ rest) = Some (y, rest).
Proof.
  intros Hy. unfold yearText.
  destruct (Z.leb_spec 0 y) as [Hpos | Hneg]; cbn [andb].
  - destruct (Z.leb_spec y 9999) as [Hsmall | Hbig].
    + destruct (padDigits_head 3 y) as (v & tl & Hv & E).
      unfold readYear. rewrite E. cbn [app].
      destruct (digitChar_not_sign v Hv) as [-> ->].
      change (digitChar v :: tl ++ rest) with ((digitChar v :: tl) ++ rest).
      rewrite <- E. rewrite readDigits_all by (change (10 ^ Z.of_nat 4) with 10000; lia).
      f_equal.
    + destruct (Z.ltb_spec y 0); [lia |].
      unfold readYear. cbn [app]. cbn [Ascii.eqb Bool.eqb].
      rewrite readDigits_all by (change (10 ^ Z.of_nat 6) with 1000000; lia).
      f_equal. f_equal. lia.
  - destruct (Z.ltb_spec y 0); [| lia].
    unfold readYear. cbn [app]. cbn [Ascii.eqb Bool.eqb].
    rewrite readDigits_all by (change (10 ^ Z.of_nat 6) with 1000000; lia).
    replace (0 * 10 ^ Z.of_nat 6 + Z.abs y) with (- y) by lia.
    destruct (Z.eqb_spec (- y) 0); [lia |].
    f_equal. f_equal. lia.
Qed.

Lemma year_bound t : Z.abs t <= maxTime -> -999999 <= getFullYear t <= 999999.
Proof.
  intros Ht. unfold getFullYear, civil_from_days. cbn [fst].
  assert (Hd : -100000000 <= Day t <= 100000000)
    by (unfold Day, maxTime, msPerDay in *; zdiv).
  remember (Day t) as z eqn:Ez. clear Ez Ht.
  pose proof (era_split z) as He.
  remember ((z + 719468) / 146097) as era eqn:Eera.
  remember (z + 719468 - era * 146097) as doe eqn:Edoe.
  pose proof (yoe_range doe He) as Hy. cbv zeta in Hy.
  remember ((doe - doe / 1460 + doe / 36524 - doe / 146096) / 365) as yoe eqn:Eyoe.
  destruct Hy as (Hy1 & _).
  assert (Hera : -700 <= era <= 700) by zdiv.
  clear Eera Edoe Eyoe He.
  boolz; lia.
Qed.

Lemma time_recompose t :
  MakeDate (Day t)
           (MakeTime (getHours t) (getMinutes t) (getSeconds t) (getMilliseconds t))
  = t.
Proof.
  unfold MakeDate, MakeTime, Day, getHours, getMinutes, getSeconds, getMilliseconds,
    msPerDay, msPerHour, msPerMinute, msPerSecond.
  zdiv.
Qed.

(** Parsing the text form of an instant gives the instant back. *)
Lemma parse_toISOString t :
  Z.abs t <= maxTime ->
  parseIsoComplete (list_ascii_of_string (toISOString t)) = Some t.
Proof.
  intros Ht. unfold toISOString.
  rewrite list_ascii_of_string_of_list_ascii.
  pose proof (year_bound t Ht) as HY.
  destruct (date_fields_valid t) as [HM HD].
  pose proof (DaysInMonth_bounds (getFullYear t) (getMonth t + 1)) as HDB.
  pose proof (getHours_range t) as Hh.
  pose proof (getMinutes_range t) as Hmi.
  pose proof (getSeconds_range t) as Hs.
  pose proof (getMilliseconds_range t) as Hms.
  pose proof (time_recompose t) as Hre.
  pose proof (MakeDay_fields t) as Hday.
  remember (getFullYear t) as Y eqn:EY.
  remember (getMonth t) as M eqn:EM.
  remember (getDate t) as D eqn:ED.
  remember (getHours t) as h eqn:Eh.
  remember (getMinutes t) as mi eqn:Emi.
  remember (getSeconds t) as sec eqn:Esec.
  remember (getMilliseconds t) as ms eqn:Ems.
  clear EY EM ED Eh Emi Esec Ems.
  unfold parseIsoComplete.
  rewrite readYear_yearText by exact HY.
  cbn [expectChar]. rewrite Ascii.eqb_refl.
  rewrite readDigits_all by (change (10 ^ Z.of_nat 2) with 100; lia).
  cbn [expectChar]. rewrite Ascii.eqb_refl.
  rewrite readDigits_all by (change (10 ^ Z.of_nat 2) with 100; lia).
  cbn [expectChar]. rewrite Ascii.eqb_refl.
  rewrite readDigits_all by (change (10 ^ Z.of_nat 2) with 100; lia).
  cbn [expectChar]. rewrite Ascii.eqb_refl.
  rewrite readDigits_all by (change (10 ^ Z.of_nat 2) with 100; lia).
  cbn [expectChar]. rewrite Ascii.eqb_refl.
  rewrite readDigits_all by (change (10 ^ Z.of_nat 2) with 100; lia).
  cbn [expectChar]. rewrite Ascii.eqb_refl.
  rewrite readDigits_all by (change (10 ^ Z.of_nat 3) with 1000; lia).
  cbn [expectChar app]. rewrite Ascii.eqb_refl.
  change (10 ^ Z.of_nat 2) with 100. change (10 ^ Z.of_nat 3) with 1000.
  replace (0 * 100 + (M + 1)) with (M + 1) by lia.
  replace (0 * 100 + D) with D by lia.
  replace (0 * 100 + h) with h by lia.
  replace (0 * 100 + mi) with mi by lia.
  replace (0 * 100 + sec) with sec by lia.
  replace (0 * 1000 + ms) with ms by lia.
  replace (M + 1 - 1) with M by lia.
  rewrite Hday, Hre.
  repeat match goal with
  | |- context [?a <=? ?b] => destruct (Z.leb_spec a b); [| lia]
  end.
  reflexivity.
Qed.

Lemma toISOString_not_empty t : String.eqb (toISOString t) EmptyString = false.
Proof.
  unfold toISOString.
  destruct (yearText (getFullYear t)) as [| c tl]; reflexivity.
Qed.

(** C8.  For every instant [t] that the platform can hold and that the
    range lets through, [commit] stores the encoding of [t] in the mode of
    the props, and decoding that encoding gives [t] back; in the normalized
    mode the stored value is [t] itself, in the textual mode it is the ISO
    text of [t], whose parse is [t]. *)
Theorem decode_encode_roundtrip (legacy : string -> option Z) (props : Props)
    (t : Date) :
  Z.abs t <= maxTime ->
  isDateInRange t (rangeObj props) true = true ->
  commit props (Some t) = Some (encode (valueAs props) t)
  /\ parseToDate legacy (encode (valueAs props) t) = Some t
  /\ (encode AsDate t = VDate (Some t)
      /\ parseToDate legacy (encode AsDate t) = Some t)
  /\ (encode AsIso t = VString (toISOString t)
      /\ parseToDate legacy (encode AsIso t) = Some t).
Proof.
  intros Ht Hr.
  assert (Hiso : parseToDate legacy (encode AsIso t) = Some t).
  { unfold encode, parseToDate, Date_parse.
    now rewrite toISOString_not_empty, parse_toISOString. }
  assert (Hdate : parseToDate legacy (encode AsDate t) = Some t) by reflexivity.
  split.
  - unfold commit, encode. rewrite Hr. cbn [negb]. now destruct (valueAs props).
  - split; [destruct (valueAs props); assumption |].
    split; split; first [reflexivity | assumption].
Qed.

(* ================================================================== *)
(** * Scenarios of the specification                                   *)
(* ================================================================== *)

(** February 2024 starts on a Thursday and has 29 days. *)
Example grid_february_2024 :
  buildDaysGrid (newDate3 2024 1 15)
  = List.repeat None 3 ++ List.map Some (countFrom 1 29) ++ List.repeat None 3.
Proof. vm_compute. reflexivity. Qed.

(** With [minDate] 2024-01-10 09:07, [maxDate] 2024-01-20 and step 15,
    opening with nothing committed before [minDate] puts the draft at
    2024-01-10 09:00; the hours 0..8 are completely disabled, hour 9 and the
    later ones are not; in hour 9 minute 0 is disabled and 15 is the lowest
    selectable minute. *)
Example scenario_lower_bound :
  draft openedScenario = newDate5 2024 0 10 9 0
  /\ List.map (isHourCompletelyDisabled propsScenario openedScenario)
              (NumberUtils.range 24)
     = List.repeat true 9 ++ List.repeat false 15
  /\ List.map (isMinuteDisabled propsScenario openedScenario)
              (minuteOptions propsScenario)
     = [true; false; false; false].
Proof. vm_compute. repeat split; reflexivity. Qed.

(** A single allowed day, 2024-03-01: March is open, February and April
    are not, and neither arrow of the month navigation is enabled. *)
Example scenario_single_day :
  let day := newDate3 2024 2 1 in
  let r := Some (mkRange (Some day) (Some day)) in
  let p := mkProps (Some day) (Some day) None 5 AsDate true false true in
  let st := mkState true ViewDate day day false false false false VUndefined in
  isMonthInRange 2024 2 r = true /\ isMonthInRange 2024 1 r = false
  /\ isMonthInRange 2024 3 r = false
  /\ canNavigatePrev p st = false /\ canNavigateNext p st = false.
Proof. vm_compute. repeat split; reflexivity. Qed.

(** Picking day 15 and closing before a time is chosen leaves the
    committed value as it was. *)
Example scenario_close_before_time :
  let session := [(clockScenario, EvOpenChange true);
                  (clockScenario, EvDayClick 15);
                  (clockScenario, EvOpenChange false)] in
  let v0 := VDate (Some (newDate5 2024 0 12 10 30)) in
  let result := run noLegacy propsScenario (initialState clockScenario v0) session in
  snd result = [] /\ value (fst result) = v0
  /\ draft (fst result) = newDate5 2024 0 12 10 30.
Proof. vm_compute. repeat split; reflexivity. Qed.

(* ================================================================== *)
(** * The theorems at concrete inputs                                  *)
(* ================================================================== *)

(** The amended fourth claim in the scenario: on 2024-01-10 in hour 9,
    minute 15 is selectable and every minute below it is disabled. *)
Lemma minute_floor_witness :
  isSameDay (draft openedScenario) (newDate5 2024 0 10 9 7) = true
  /\ getHours (draft openedScenario) = getHours (newDate5 2024 0 10 9 7)
  /\ isDateInRange (draft openedScenario) (rangeObj propsScenario) true = true
  /\ isMinuteDisabled propsScenario openedScenario 15 = false
  /\ (forall g, g < 15 -> isMinuteDisabled propsScenario openedScenario g = true).
Proof.
  assert (H1 : isSameDay (draft openedScenario) (newDate5 2024 0 10 9 7) = true)
    by (vm_compute; reflexivity).
  assert (H2 : getHours (draft openedScenario) = getHours (newDate5 2024 0 10 9 7))
    by (vm_compute; reflexivity).
  assert (H3 : isDateInRange (draft openedScenario) (rangeObj propsScenario) true = true)
    by (vm_compute; reflexivity).
  assert (H4 : - ((- getMinutes (newDate5 2024 0 10 9 7)) / minuteStep propsScenario)
               * minuteStep propsScenario <= 59)
    by (vm_compute; discriminate).
  destruct (minute_floor_on_min_day propsScenario openedScenario
              (newDate5 2024 0 10 9 7) eq_refl ltac:(cbn; lia) H1 H2 H3 H4)
    as (_ & Hfree & Hbelow & _).
  repeat split; try assumption.
Defined.

(** The fifth claim in the scenario: day 15 picked, no time, then closed. *)
Lemma close_incomplete_witness :
  let evs := [(clockScenario, EvOpenChange true); (clockScenario, EvDayClick 15)] in
  let s0 := initialState clockScenario VUndefined in
  let st := fst (run noLegacy propsScenario s0 evs) in
  requireTime propsScenario = true
  /\ Forall (fun e => commitFree (snd e)) evs
  /\ picked_date st = true /\ picked_time st = false
  /\ value (fst (step noLegacy propsScenario clockScenario st (EvOpenChange false)))
     = VUndefined
  /\ open (fst (step noLegacy propsScenario clockScenario st (EvOpenChange false)))
     = false.
Proof.
  cbv zeta.
  assert (Hfree : Forall (fun e => commitFree (snd e))
            [(clockScenario, EvOpenChange true); (clockScenario, EvDayClick 15)])
    by (repeat constructor).
  assert (Hpd : picked_date (fst (run noLegacy propsScenario
                  (initialState clockScenario VUndefined)
                  [(clockScenario, EvOpenChange true); (clockScenario, EvDayClick 15)]))
                = true) by (vm_compute; reflexivity).
  assert (Hpt : picked_time (fst (run noLegacy propsScenario
                  (initialState clockScenario VUndefined)
                  [(clockScenario, EvOpenChange true); (clockScenario, EvDayClick 15)]))
                = false) by (vm_compute; reflexivity).
  destruct (close_incomplete_restores noLegacy propsScenario
              (initialState clockScenario VUndefined)
              [(clockScenario, EvOpenChange true); (clockScenario, EvDayClick 15)]
              clockScenario eq_refl Hfree Hpd Hpt)
    as (_ & _ & Hval & Hopen & _).
  repeat split; assumption.
Defined.

(** The eighth claim at 2024-01-15 10:30, kept as text. *)
Lemma decode_encode_witness :
  Z.abs (newDate5 2024 0 15 10 30) <= maxTime
  /\ isDateInRange (newDate5 2024 0 15 10 30) (rangeObj propsScenarioIso) true = true
  /\ parseToDate noLegacy (VString (toISOString (newDate5 2024 0 15 10 30)))
     = Some (newDate5 2024 0 15 10 30).
Proof.
  assert (H1 : Z.abs (newDate5 2024 0 15 10 30) <= maxTime)
    by (vm_compute; discriminate).
  assert (H2 : isDateInRange (newDate5 2024 0 15 10 30) (rangeObj propsScenarioIso) true
               = true) by (vm_compute; reflexivity).
  destruct (decode_encode_roundtrip noLegacy propsScenarioIso
              (newDate5 2024 0 15 10 30) H1 H2) as (_ & _ & _ & _ & Hiso).
  repeat split; assumption.
Defined.

(** The ninth claim in the scenario: opened with nothing committed. *)
Lemma open_seeds_witness :
  let s0 := initialState clockScenario VUndefined in
  let st' := fst (step noLegacy propsScenario clockScenario s0 (EvOpenChange true)) in
  open s0 = false /\ disabled propsScenario = false /\ 1 <= minuteStep propsScenario
  /\ draft st' = newDate5 2024 0 10 9 0
  /\ hourTouched st' = false /\ minuteTouched st' = false.
Proof.
  cbv zeta.
  destruct (open_seeds_draft noLegacy propsScenario clockScenario
              (initialState clockScenario VUndefined) eq_refl eq_refl ltac:(cbn; lia))
    as (_ & _ & _ & Hdraft & _ & _ & _ & Hh & Hm & _).
  repeat split; try assumption. cbn; lia.
Defined.

(** The tenth claim at minute 58 with step 5. *)
Lemma roundUpToStep_witness :
  0 <= 58 <= 59 /\ 1 <= 5
  /\ roundUpToStep 58 5 = 59 /\ 59 mod 5 <> 0
  /\ isHourCompletelyDisabled props0958 draft0955 9 = true.
Proof.
  destruct (roundUpToStep_floor 58 5 ltac:(lia) ltac:(lia)) as (_ & _ & _ & H).
  destruct (H 12 ltac:(lia) ltac:(lia)) as (Hval & Hnot & _ & Hprops).
  destruct (Hprops props0958 draft0955 (newDate5 2024 0 10 9 58)
              eq_refl eq_refl ltac:(vm_compute; reflexivity)
              ltac:(vm_compute; reflexivity)) as (Hhour & _).
  repeat split; try assumption; lia.
Defined.

(** The seventh claim on the year number 99 and June, against a range
    within June 1999. *)
Lemma isMonthInRange_any_year_witness :
  yearInTimeRange 99 /\ 0 <= 5 <= 11 /\ fullYearRange rangeJune1999
  /\ (AnyYear.isMonthInRange 99 5 (Some rangeJune1999) = true
      <-> monthIntersects (AnyYear.MakeFullYear 99) 5 rangeJune1999)
  /\ AnyYear.MakeFullYear 99 = 1900 + 99.
Proof.
  assert (H0 : yearInTimeRange 99) by (unfold yearInTimeRange; lia).
  assert (H1 : 0 <= 5 <= 11) by lia.
  assert (H2 : fullYearRange rangeJune1999).
  { split; intros b [= <-]; right; vm_compute; reflexivity. }
  destruct (isMonthInRange_any_year 99 5 rangeJune1999 H0 H1 H2) as (Hiff & [_ Hy] & _).
  exact (conj H0 (conj H1 (conj H2 (conj Hiff (Hy ltac:(lia)))))).
Defined.

(* ================================================================== *)
(** * Numbers and dates as text                                        *)
(* ================================================================== *)

(** ** Padding *)

(** The element of [range n] at index [i] is [i]. *)
Lemma range_nth n i :
  0 <= i < n -> nth_error (NumberUtils.range n) (Z.to_nat i) = Some i.
Proof.
  intros Hi. unfold NumberUtils.range.
  rewrite nth_error_map, nth_error_seq.
  destruct (Nat.ltb_spec (Z.to_nat i) (Z.to_nat n)); [| lia].
  cbn. f_equal. lia.
Qed.

(** On 0..99, [pad2] and [padStart 2 "0"] both give the two digits. *)
Lemma two_digits n :
  0 <= n <= 99 ->
  NumberUtils.pad2 n = string_of_list_ascii (padDigits 2 n)
  /\ padStart 2 "0" (numberToString n) = string_of_list_ascii (padDigits 2 n).
Proof.
  intros Hn.
  assert (Hall : List.forallb twoDigitsAgree (NumberUtils.range 100) = true)
    by (vm_compute; reflexivity).
  rewrite forallb_forall in Hall.
  specialize (Hall n ltac:(apply range_spec; lia)).
  unfold twoDigitsAgree in Hall. apply andb_prop in Hall as [H1 H2].
  apply String.eqb_eq in H1, H2. now split.
Qed.

(** On 0..999, [padStart 3 "0"] gives the three digits. *)
Lemma three_digits n :
  0 <= n <= 999 ->
  padStart 3 "0" (numberToString n) = string_of_list_ascii (padDigits 3 n).
Proof.
  intros Hn.
  assert (Hall : List.forallb threeDigitsAgree (NumberUtils.range 1000) = true)
    by (vm_compute; reflexivity).
  rewrite forallb_forall in Hall.
  specialize (Hall n ltac:(apply range_spec; lia)).
  now apply String.eqb_eq in Hall.
Qed.

(** X1.  [pad2] writes a number from 0 to 99 on exactly two digits, the tens
    then the units, as [padStart 2 "0"] does; a negative number comes out as
    the character 0 before its minus sign, and a number from 100 on is
    written as it is. *)
Theorem pad2_two_digits (n : Z) :
  (0 <= n <= 99 ->
     NumberUtils.pad2 n
     = String (digitChar (n / 10)) (String (digitChar (n mod 10)) EmptyString)
     /\ NumberUtils.pad2 n = padStart 2 "0" (numberToString n))
  /\ (n < 0 -> exists rest, NumberUtils.pad2 n = String "0" (String "-" rest)
                            /\ numberToString n = String "-" rest)
  /\ (100 <= n -> NumberUtils.pad2 n = numberToString n).
Proof.
  split; [| split].
  - intros Hn. destruct (two_digits n Hn) as [H1 H2]. split.
    + rewrite H1. cbn [padDigits app string_of_list_ascii].
      replace (n / 10 mod 10) with (n / 10) by zdiv. reflexivity.
    + now rewrite H1, H2.
  - intros Hn. destruct n as [| p | p]; try lia.
    unfold NumberUtils.pad2, numberToString. cbn [Z.ltb Z.compare Z.to_int].
    eexists. split; reflexivity.
  - intros Hn. unfold NumberUtils.pad2. destruct (Z.ltb_spec n 10); [lia | reflexivity].
Qed.

(** X2.  [formatTime] of a valid date is HH:mm on five characters and
    [get24HourTime] is HH:mm:ss.mmm on twelve, every field zero-padded, and
    [formatTime] agrees with [pad2] on the two fields; of an invalid date
    they are NaN:NaN and NaN:NaN:NaN.NaN. *)
Theorem time_text_shape (t : Date) :
  formatTime (Some t)
  = string_of_list_ascii (padDigits 2 (getHours t) ++ ":"%char :: padDigits 2 (getMinutes t))
  /\ formatTime (Some t)
     = (NumberUtils.pad2 (getHours t) ++ ":" ++ NumberUtils.pad2 (getMinutes t))%string
  /\ get24HourTime (Some t)
     = string_of_list_ascii
         (padDigits 2 (getHours t) ++ ":"%char :: padDigits 2 (getMinutes t)
          ++ ":"%char :: padDigits 2 (getSeconds t)
          ++ "."%char :: padDigits 3 (getMilliseconds t))
  /\ String.length (formatTime (Some t)) = 5%nat
  /\ String.length (get24HourTime (Some t)) = 12%nat
  /\ formatTime None = "NaN:NaN"%string
  /\ get24HourTime None = "NaN:NaN:NaN.NaN"%string.
Proof.
  pose proof (getHours_range t) as Hh.
  pose proof (getMinutes_range t) as Hm.
  pose proof (getSeconds_range t) as Hs.
  pose proof (getMilliseconds_range t) as Hms.
  destruct (two_digits (getHours t) ltac:(lia)) as [Ph Hh2].
  destruct (two_digits (getMinutes t) ltac:(lia)) as [Pm Hm2].
  destruct (two_digits (getSeconds t) ltac:(lia)) as [_ Hs2].
  pose proof (three_digits (getMilliseconds t) Hms) as Hms3.
  unfold formatTime, get24HourTime. cbn [option_map numText].
  rewrite Hh2, Hm2, Hs2, Hms3, Ph, Pm.
  cbn [padDigits app string_of_list_ascii String.append String.length].
  repeat split; reflexivity.
Qed.

(** ** ISO texts *)

(** A digit character matches [\d]. *)
Lemma digit_is_digit n :
  match digitVal (digitChar (n mod 10)) with Some _ => true | None => false end = true.
Proof. rewrite digitVal_digitChar by zdiv. reflexivity. Qed.

(** X3.  [isIsoDateString] accepts the text that [toISOString] gives for an
    instant exactly when its year is from 0 to 9999: the signed six-digit
    years of the expanded form are refused. *)
Theorem isIsoDateString_toISOString (t : Date) :
  isIsoDateString (VString (toISOString t))
  = (0 <=? getFullYear t) && (getFullYear t <=? 9999).
Proof.
  unfold isIsoDateString, isIsoDateText, toISOString.
  rewrite list_ascii_of_string_of_list_ascii.
  unfold yearText.
  destruct ((0 <=? getFullYear t) && (getFullYear t <=? 9999)) eqn:E.
  - cbn [padDigits app isoDatePattern testPrefix].
    rewrite !digit_is_digit. reflexivity.
  - destruct (getFullYear t <? 0); cbn [app isoDatePattern testPrefix]; reflexivity.
Qed.

(** ** Relative dates *)

(** [stripTime] rebuilds the date from its year, month and day. *)
Lemma stripTime_unfold t :
  stripTime t = newDate3 (getFullYear t) (getMonth t) (getDate t).
Proof. unfold stripTime. reflexivity. Qed.

(** The difference of two midnights, in days, is the difference of the day numbers. *)
Lemma diffDays_Day now t :
  (getTime (newDate3 (getFullYear now) (getMonth now) (getDate now))
   - getTime (newDate3 (getFullYear t) (getMonth t) (getDate t))) / msPerDay
  = Day now - Day t.
Proof.
  rewrite <- !stripTime_unfold. unfold getTime. rewrite !stripTime_Day.
  unfold msPerDay. generalize (Day now) (Day t). intros a b. zdiv.
Qed.

(** X4.  [formatSmartDate] goes by [k], the time from the midnight of the
    date to the midnight of today in whole days, rounded down: today and
    yesterday with the time for 0 and 1, [k] days ago for 2 to 6, the full
    form beyond 6, and a negative count before days ago below 0.  A date on
    today's calendar day gives today, a date on a later day gives a
    negative count, and an invalid date gives NaN.NaN.NaN NaN:NaN. *)
Theorem formatSmartDate_cases (parse : string -> option Z) (now : Date)
    (input : DateInput) :
  match newDateFrom parse input with
  | None => formatSmartDate parse now input = "NaN.NaN.NaN NaN:NaN"%string
  | Some t =>
      let k := (getTime (stripTime now) - getTime (stripTime t)) / msPerDay in
      let hhmm := formatTime (Some t) in
      (k = 0 -> formatSmartDate parse now input = ("today " ++ hhmm)%string)
      /\ (k = 1 -> formatSmartDate parse now input = ("yesterday " ++ hhmm)%string)
      /\ (2 <= k <= 6 ->
          formatSmartDate parse now input
          = (numberToString k ++ " days ago " ++ hhmm)%string)
      /\ (6 < k -> formatSmartDate parse now input = formatFull (Some t))
      /\ (k < 0 ->
          exists digits,
            numberToString k = String "-" digits
            /\ formatSmartDate parse now input
               = (String "-" digits ++ " days ago " ++ hhmm)%string)
      /\ (isSameDay now t = true ->
          formatSmartDate parse now input = ("today " ++ hhmm)%string)
      /\ (Day now < Day t -> k < 0)
  end.
Proof.
  unfold formatSmartDate.
  destruct (newDateFrom parse input) as [t |];
    unfold dateOnly, option_map; cbv beta iota.
  2: { unfold formatFull, formatTime, option_map, numText.
       vm_compute. reflexivity. }
  assert (Ek : (getTime (stripTime now) - getTime (stripTime t)) / msPerDay
               = Day now - Day t)
    by (unfold stripTime; apply diffDays_Day).
  rewrite diffDays_Day. cbv zeta. rewrite Ek.
  assert (Hsame : isSameDay now t = true -> Day now - Day t = 0)
    by (intros H; apply isSameDay_Day in H; lia).
  revert Hsame.
  generalize (isSameDay now t). intros same.
  remember (Day now - Day t) as k eqn:Hk.
  assert (Hlater : Day now < Day t -> k < 0) by lia.
  revert Hlater. generalize (Day now) (Day t). intros dn dt Hlater. clear Hk Ek.
  remember (formatTime (Some t)) as hhmm eqn:Eh. clear Eh.
  remember (formatFull (Some t)) as full eqn:Ef. clear Ef.
  intros Hsame.
  split; [| split; [| split; [| split; [| split; [| split]]]]].
  - intros ->. cbn [Z.eqb]. reflexivity.
  - intros ->. cbn [Z.eqb Pos.eqb]. reflexivity.
  - intros Hk. destruct (Z.eqb_spec k 0); [lia |].
    destruct (Z.eqb_spec k 1); [lia |].
    destruct (Z.leb_spec k 6); [reflexivity | lia].
  - intros Hk. destruct (Z.eqb_spec k 0); [lia |].
    destruct (Z.eqb_spec k 1); [lia |].
    destruct (Z.leb_spec k 6); [lia | reflexivity].
  - intros Hk. destruct (Z.eqb_spec k 0); [lia |].
    destruct (Z.eqb_spec k 1); [lia |].
    destruct (Z.leb_spec k 6); [| lia].
    destruct k as [| p | p]; try lia.
    unfold numberToString. cbn [Z.to_int NilZero.string_of_int].
    eexists. split; reflexivity.
  - intros H. rewrite (Hsame H). cbn [Z.eqb]. reflexivity.
  - exact Hlater.
Qed.

(** ** The full form *)

(** The text of a concatenation of character lists. *)
Lemma string_of_list_ascii_app a b :
  string_of_list_ascii (a ++ b)
  = (string_of_list_ascii a ++ string_of_list_ascii b)%string.
Proof. induction a as [| c a IH]; cbn; [reflexivity | now rewrite IH]. Qed.

(** Two integers with the same text are equal. *)
Lemma numberToString_inj a b : numberToString a = numberToString b -> a = b.
Proof.
  unfold numberToString. intros H.
  assert (Hnn : forall z, Z.to_int z <> Decimal.Pos Decimal.Nil
                          /\ Z.to_int z <> Decimal.Neg Decimal.Nil).
  { intros [| p | p]; cbn; split; try discriminate;
      intros [= E]; now apply Unsigned.to_uint_nonnil in E. }
  apply (f_equal NilZero.int_of_string) in H.
  rewrite !NilZero.isi in H by apply Hnn.
  injection H as H. now apply DecimalZ.to_int_inj.
Qed.

(** Two digits with the same character are equal. *)
Lemma digitChar_inj x y : 0 <= x <= 9 -> 0 <= y <= 9 -> digitChar x = digitChar y -> x = y.
Proof.
  intros Hx Hy H. apply (f_equal digitVal) in H.
  rewrite !digitVal_digitChar in H by assumption. now injection H.
Qed.

(** Two texts that start with two-digit fields agree on the field and on the rest. *)
Lemma two_digits_inj x y a b rest rest' :
  0 <= x <= 99 -> 0 <= y <= 99 ->
  padDigits 2 x ++ a :: rest = padDigits 2 y ++ b :: rest' ->
  x = y /\ a = b /\ rest = rest'.
Proof.
  intros Hx Hy. cbn [padDigits app]. intros [= H1 H2 H3 H4].
  apply digitChar_inj in H1; [| zdiv | zdiv].
  apply digitChar_inj in H2; [| zdiv | zdiv].
  split; [zdiv | now split].
Qed.

(** The layout of [formatFull] on a valid date. *)
Lemma formatFull_layout t :
  formatFull (Some t)
  = string_of_list_ascii
      (padDigits 2 (getDate t) ++ "."%char
       :: padDigits 2 (getMonth t + 1) ++ "."%char
       :: list_ascii_of_string (numberToString (getFullYear t)) ++ " "%char
       :: padDigits 2 (getHours t) ++ ":"%char :: padDigits 2 (getMinutes t)).
Proof.
  destruct (date_fields_valid t) as [HM HD].
  pose proof (DaysInMonth_bounds (getFullYear t) (getMonth t + 1)) as HDB.
  pose proof (getHours_range t) as Hh.
  pose proof (getMinutes_range t) as Hm.
  destruct (two_digits (getDate t) ltac:(lia)) as [_ E1].
  destruct (two_digits (getMonth t + 1) ltac:(lia)) as [_ E2].
  destruct (two_digits (getHours t) ltac:(lia)) as [_ E3].
  destruct (two_digits (getMinutes t) ltac:(lia)) as [_ E4].
  unfold formatFull, formatTime, option_map, numText.
  rewrite E1, E2, E3, E4.
  rewrite <- (string_of_list_ascii_of_string (numberToString (getFullYear t))) at 1.
  change "."%string with (string_of_list_ascii ["."%char]).
  change " "%string with (string_of_list_ascii [" "%char]).
  change ":"%string with (string_of_list_ascii [":"%char]).
  rewrite <- !string_of_list_ascii_app.
  f_equal.
Qed.

(** X5.  [formatFull] of a valid date is DD.MM.YYYY HH:mm with two
    characters for the day and for the month, and two valid dates with the
    same text have the same year, month, day, hour and minute; of an invalid
    date it is NaN.NaN.NaN NaN:NaN. *)
Theorem formatFull_identifies_minute (a : Date) :
  (exists dd mm hhmm,
     String.length dd = 2%nat /\ String.length mm = 2%nat
     /\ hhmm = formatTime (Some a)
     /\ formatFull (Some a)
        = (dd ++ "." ++ mm ++ "." ++ numberToString (getFullYear a) ++ " " ++ hhmm)%string)
  /\ (forall b, formatFull (Some a) = formatFull (Some b) ->
        getFullYear a = getFullYear b /\ getMonth a = getMonth b
        /\ getDate a = getDate b /\ getHours a = getHours b
        /\ getMinutes a = getMinutes b)
  /\ formatFull None = "NaN.NaN.NaN NaN:NaN"%string.
Proof.
  split; [| split].
  - destruct (date_fields_valid a) as [HM HD].
    pose proof (DaysInMonth_bounds (getFullYear a) (getMonth a + 1)) as HDB.
    destruct (two_digits (getDate a) ltac:(lia)) as [_ E1].
    destruct (two_digits (getMonth a + 1) ltac:(lia)) as [_ E2].
    exists (padStart 2 "0" (numberToString (getDate a))),
           (padStart 2 "0" (numberToString (getMonth a + 1))),
           (formatTime (Some a)).
    split; [rewrite E1; reflexivity |].
    split; [rewrite E2; reflexivity |].
    split; reflexivity.
  - intros b H. rewrite !formatFull_layout in H.
    apply (f_equal list_ascii_of_string) in H.
    rewrite !list_ascii_of_string_of_list_ascii in H.
    destruct (date_fields_valid a) as [HMa HDa].
    destruct (date_fields_valid b) as [HMb HDb].
    pose proof (DaysInMonth_bounds (getFullYear a) (getMonth a + 1)) as HBa.
    pose proof (DaysInMonth_bounds (getFullYear b) (getMonth b + 1)) as HBb.
    pose proof (getHours_range a) as Hha. pose proof (getHours_range b) as Hhb.
    pose proof (getMinutes_range a) as Hma. pose proof (getMinutes_range b) as Hmb.
    apply two_digits_inj in H as (ED & _ & H); [| lia | lia].
    apply two_digits_inj in H as (EM & _ & H); [| lia | lia].
    apply (f_equal (@rev ascii)) in H.
    rewrite !rev_app_distr in H.
    cbn [padDigits app rev] in H.
    injection H as Hm0 Hm1 Hh0 Hh1 HY.
    apply rev_inj in HY.
    apply (f_equal string_of_list_ascii) in HY.
    rewrite !string_of_list_ascii_of_string in HY.
    apply numberToString_inj in HY.
    assert (D1 : forall x, 0 <= x <= 59 -> 0 <= x mod 10 <= 9 /\ 0 <= x / 10 mod 10 <= 9)
      by (intros x Hx; zdiv).
    apply digitChar_inj in Hm0; [| apply D1; lia | apply D1; lia].
    apply digitChar_inj in Hm1; [| apply D1; lia | apply D1; lia].
    apply digitChar_inj in Hh0; [| apply D1; lia | apply D1; lia].
    apply digitChar_inj in Hh1; [| apply D1; lia | apply D1; lia].
    assert (Eh : getHours a = getHours b) by zdiv.
    assert (Em : getMinutes a = getMinutes b) by zdiv.
    split; [exact HY |]. split; [lia |]. split; [exact ED |]. split; assumption.
  - vm_compute. reflexivity.
Qed.

(* ================================================================== *)
(** * Days, months and years                                           *)
(* ================================================================== *)

(** ** Midnights and days *)

(** The day number of a date, from the day number of the first of its month. *)
Lemma MakeDay_date y m d : MakeDay y m d = MakeDay y m 1 + d - 1.
Proof. unfold MakeDay. lia. Qed.

(** The month index of [MakeDay] is taken modulo 12, the years carried. *)
Lemma MakeDay_normal y m d : MakeDay y m d = MakeDay (y + m / 12) (m mod 12) d.
Proof.
  unfold MakeDay.
  replace (y + m / 12 + m mod 12 / 12) with (y + m / 12) by zdiv.
  replace ((m mod 12) mod 12) with (m mod 12) by zdiv.
  reflexivity.
Qed.

(** The day number of a date built from year, month and day. *)
Lemma Day_newDate3 y m d : Day (newDate3 y m d) = MakeDay y m d.
Proof. rewrite newDate3_MakeDay. apply Day_midnight. Qed.

(** The fields of the first of a month given by any month index. *)
Lemma fields_first_of_month y m :
  getFullYear (newDate3 y m 1) = y + m / 12
  /\ getMonth (newDate3 y m 1) = m mod 12
  /\ getDate (newDate3 y m 1) = 1.
Proof.
  unfold getFullYear, getMonth, getDate.
  rewrite Day_newDate3, MakeDay_normal.
  assert (Hm : 0 <= m mod 12 <= 11) by zdiv.
  pose proof (DaysInMonth_bounds (y + m / 12) (m mod 12 + 1)) as Hb.
  rewrite civil_MakeDay by lia. cbn [fst snd]. repeat split; lia.
Qed.

(** The time fields of a midnight are zero. *)
Lemma time_fields_midnight k :
  getHours (k * msPerDay) = 0 /\ getMinutes (k * msPerDay) = 0
  /\ getSeconds (k * msPerDay) = 0 /\ getMilliseconds (k * msPerDay) = 0.
Proof.
  unfold getHours, getMinutes, getSeconds, getMilliseconds,
    msPerDay, msPerHour, msPerMinute, msPerSecond.
  repeat split; zdiv.
Qed.

(** X6.  [stripTime] (and [dateOnly], the same function on a valid date)
    gives the start of the day of its argument: the same year, month and
    day, every time field zero (the day starting at 00:00), not after the
    argument and on its day; it is idempotent and monotone. *)
Theorem stripTime_midnight (t : Date) :
  dateOnly (Some t) = Some (stripTime t)
  /\ stripTime t <= t
  /\ (getFullYear (stripTime t) = getFullYear t
      /\ getMonth (stripTime t) = getMonth t
      /\ getDate (stripTime t) = getDate t)
  /\ (getHours (stripTime t) = 0 /\ getMinutes (stripTime t) = 0
      /\ getSeconds (stripTime t) = 0 /\ getMilliseconds (stripTime t) = 0)
  /\ isSameDay (stripTime t) t = true
  /\ stripTime (stripTime t) = stripTime t
  /\ (forall u, t <= u -> stripTime t <= stripTime u)
  /\ dateOnly None = None.
Proof.
  assert (Hday : Day (stripTime t) = Day t)
    by (rewrite stripTime_Day; apply Day_midnight).
  split; [unfold dateOnly, option_map; now rewrite <- stripTime_unfold |].
  split; [apply stripTime_le |].
  split; [unfold getFullYear, getMonth, getDate; rewrite Hday; repeat split |].
  split; [rewrite stripTime_Day; apply time_fields_midnight |].
  split.
  { unfold isSameDay, getFullYear, getMonth, getDate. rewrite Hday.
    now rewrite !Z.eqb_refl. }
  split; [now apply stripTime_same_day |].
  split; [intros u Hu; now apply stripTime_mono | reflexivity].
Qed.

(** X7.  [isSameDay] holds exactly for two instants of the same calendar day,
    equivalently of equal [stripTime]; it is reflexive, symmetric and
    transitive, and every instant between two instants of one day is on
    that day. *)
Theorem isSameDay_iff (a b : Date) :
  (isSameDay a b = true <-> Day a = Day b)
  /\ (isSameDay a b = true <-> stripTime a = stripTime b)
  /\ isSameDay a a = true
  /\ isSameDay a b = isSameDay b a
  /\ (forall c, isSameDay a b = true -> isSameDay b c = true -> isSameDay a c = true)
  /\ (forall c, isSameDay a b = true -> a <= c <= b -> isSameDay a c = true).
Proof.
  assert (H1 : forall x y, isSameDay x y = true <-> Day x = Day y).
  { intros x y. split; [apply isSameDay_Day |].
    intros H. unfold isSameDay, getFullYear, getMonth, getDate. rewrite H.
    now rewrite !Z.eqb_refl. }
  assert (H2 : Day a = Day b <-> stripTime a = stripTime b).
  { rewrite !stripTime_Day. unfold msPerDay. split; intros H; [now rewrite H | lia]. }
  split; [apply H1 |].
  split; [now rewrite H1 |].
  split; [unfold isSameDay; now rewrite !Z.eqb_refl |].
  split.
  { unfold isSameDay.
    now rewrite (Z.eqb_sym (getFullYear a)), (Z.eqb_sym (getMonth a)),
      (Z.eqb_sym (getDate a)). }
  split.
  - intros c Hab Hbc. apply H1. apply H1 in Hab, Hbc. lia.
  - intros c Hab Hc. apply H1. apply H1 in Hab. revert Hab.
    unfold Day, msPerDay. zdiv.
Qed.

(** X8.  With [inclusive] false, [isDateInRange] holds exactly when the day
    of the date is strictly after the day of [min] and strictly before the
    day of [max]; a date on the day of a bound is refused, what is accepted
    is accepted inclusively too, and without a range every date is
    accepted. *)
Theorem isDateInRange_exclusive (date : Date) (r : DateRange) :
  (isDateInRange date (Some r) false = true
   <-> (forall mn, min r = Some mn -> Day mn < Day date)
       /\ (forall mx, max r = Some mx -> Day date < Day mx))
  /\ (isDateInRange date (Some r) false = true ->
      isDateInRange date (Some r) true = true)
  /\ (forall mn, min r = Some mn -> isSameDay date mn = true ->
        isDateInRange date (Some r) false = false)
  /\ (forall mx, max r = Some mx -> isSameDay date mx = true ->
        isDateInRange date (Some r) false = false)
  /\ (forall incl, isDateInRange date None incl = true).
Proof.
  assert (Hlt : forall x y, stripTime x < stripTime y <-> Day x < Day y)
    by (intros x y; rewrite !stripTime_Day; unfold msPerDay; lia).
  assert (Hiff : isDateInRange date (Some r) false = true
                 <-> (forall mn, min r = Some mn -> Day mn < Day date)
                     /\ (forall mx, max r = Some mx -> Day date < Day mx)).
  { unfold isDateInRange, getTime.
    destruct (min r) as [mn |], (max r) as [mx |].
    - destruct (Z.leb_spec (stripTime date) (stripTime mn)) as [H | H].
      + split; [discriminate |]. intros [H1 _]. specialize (H1 _ eq_refl).
        apply Hlt in H1. lia.
      + rewrite Z.geb_leb. destruct (Z.leb_spec (stripTime mx) (stripTime date)) as [H' | H'].
        * split; [discriminate |]. intros [_ H2]. specialize (H2 _ eq_refl).
          apply Hlt in H2. lia.
        * split; [| reflexivity]. intros _.
          split; intros ? [= <-]; now apply Hlt.
    - destruct (Z.leb_spec (stripTime date) (stripTime mn)) as [H | H].
      + split; [discriminate |]. intros [H1 _]. specialize (H1 _ eq_refl).
        apply Hlt in H1. lia.
      + split; [| reflexivity]. intros _.
        split; [intros ? [= <-]; now apply Hlt | intros ? [=]].
    - rewrite Z.geb_leb. destruct (Z.leb_spec (stripTime mx) (stripTime date)) as [H' | H'].
      + split; [discriminate |]. intros [_ H2]. specialize (H2 _ eq_refl).
        apply Hlt in H2. lia.
      + split; [| reflexivity]. intros _.
        split; [intros ? [=] | intros ? [= <-]; now apply Hlt].
    - split; [| reflexivity]. intros _. split; intros ? [=]. }
  split; [exact Hiff |].
  split; [| split; [| split]].
  - intros H. apply Hiff in H as [H1 H2].
    apply isDateInRange_inclusive. unfold aboveMin, belowMax.
    split; intros b Hb; [specialize (H1 b Hb) | specialize (H2 b Hb)];
      apply Hlt in H1 || apply Hlt in H2; lia.
  - intros mn Hmn Hsame. apply isSameDay_Day in Hsame.
    destruct (isDateInRange date (Some r) false) eqn:E; [| reflexivity].
    destruct (proj1 Hiff eq_refl) as [H1 _]. specialize (H1 mn Hmn). lia.
  - intros mx Hmx Hsame. apply isSameDay_Day in Hsame.
    destruct (isDateInRange date (Some r) false) eqn:E; [| reflexivity].
    destruct (proj1 Hiff eq_refl) as [_ H2]. specialize (H2 mx Hmx). lia.
  - intros incl. reflexivity.
Qed.

(** ** Months *)

(** [MakeDay] depends on the month index through the years it carries and its residue modulo 12. *)
Lemma MakeDay_congr y m y' m' d :
  y + m / 12 = y' + m' / 12 -> m mod 12 = m' mod 12 -> MakeDay y m d = MakeDay y' m' d.
Proof. intros H1 H2. unfold MakeDay. now rewrite H1, H2. Qed.

(** The fields of [addMonths]. *)
Lemma fields_addMonths d a :
  getFullYear (addMonths d a) = getFullYear d + (getMonth d + a) / 12
  /\ getMonth (addMonths d a) = (getMonth d + a) mod 12
  /\ getDate (addMonths d a) = 1.
Proof. unfold addMonths. apply fields_first_of_month. Qed.

(** Two moves by months add up. *)
Lemma addMonths_addMonths d a b : addMonths (addMonths d a) b = addMonths d (a + b).
Proof.
  destruct (fields_addMonths d a) as (EY & EM & _).
  unfold addMonths at 1 3. rewrite EY, EM.
  rewrite !newDate3_MakeDay. f_equal.
  apply MakeDay_congr; zdiv.
Qed.

(** X9.  [addMonths] lands on the first of the month [delta] months away, the
    years carried; moving by [a] and then by [b] is moving by [a + b], and
    moving by 0 is [startOfMonth]; so a navigation forth and back returns to
    the first of the displayed month. *)
Theorem addMonths_compose (d : Date) (a b : Z) :
  addMonths (addMonths d a) b = addMonths d (a + b)
  /\ addMonths d 0 = startOfMonth d
  /\ (getFullYear (addMonths d a) = getFullYear d + (getMonth d + a) / 12
      /\ getMonth (addMonths d a) = (getMonth d + a) mod 12
      /\ getDate (addMonths d a) = 1)
  /\ (forall st : State,
        navigateMonth (navigateMonth st a) (- a)
        = setDisplayDate st (startOfMonth (displayDate st))).
Proof.
  assert (H0 : forall x, addMonths x 0 = startOfMonth x).
  { intros x. unfold addMonths, startOfMonth. now rewrite Z.add_0_r. }
  split; [apply addMonths_addMonths |].
  split; [apply H0 |].
  split; [apply fields_addMonths |].
  intros st. unfold navigateMonth.
  destruct st as [o v dd dr pd pt ht mt val].
  cbn [displayDate setDisplayDate open view draft picked_date picked_time
       hourTouched minuteTouched value].
  rewrite addMonths_addMonths, Z.add_opp_diag_r, H0. reflexivity.
Qed.

(** The first and the last day of the month of [d], as day numbers. *)
Lemma month_ends_Day d :
  let first := MakeDay (getFullYear d) (getMonth d) 1 in
  let dim := DaysInMonth (getFullYear d) (getMonth d + 1) in
  startOfMonth d = first * msPerDay
  /\ endOfMonth d = (first + dim - 1) * msPerDay
  /\ first <= Day d <= first + dim - 1.
Proof.
  cbv zeta.
  destruct (date_fields_valid d) as [HM HD].
  split; [unfold startOfMonth; apply newDate3_MakeDay |].
  split.
  - unfold endOfMonth. rewrite newDate3_MakeDay, MakeDay_day_zero.
    rewrite Z.div_small, Z.mod_small by lia.
    now replace (getFullYear d + 0) with (getFullYear d) by lia.
  - rewrite <- (MakeDay_fields d).
    rewrite (MakeDay_date _ _ (getDate d)). lia.
Qed.

(** The fields of [endOfMonth]. *)
Lemma fields_endOfMonth d :
  getFullYear (endOfMonth d) = getFullYear d
  /\ getMonth (endOfMonth d) = getMonth d
  /\ getDate (endOfMonth d) = DaysInMonth (getFullYear d) (getMonth d + 1).
Proof.
  destruct (date_fields_valid d) as [HM _].
  unfold endOfMonth. apply (fields_month_ends (getFullYear d) (getMonth d) HM).
Qed.

(** X10.  [startOfMonth] and [endOfMonth] are the midnights of the first and
    of the last day of the month of their argument, whose day lies from the
    one to the other; [addMonths d 1] is the midnight of the day after the
    last, and it is after [d]; each of the two is stable under the other. *)
Theorem month_brackets (d : Date) :
  startOfMonth d <= d < addMonths d 1
  /\ startOfMonth d <= endOfMonth d < addMonths d 1
  /\ (Day (startOfMonth d) <= Day d <= Day (endOfMonth d)
      /\ Day (addMonths d 1) = Day (endOfMonth d) + 1)
  /\ (getFullYear (startOfMonth d) = getFullYear d
      /\ getMonth (startOfMonth d) = getMonth d /\ getDate (startOfMonth d) = 1)
  /\ (getFullYear (endOfMonth d) = getFullYear d
      /\ getMonth (endOfMonth d) = getMonth d
      /\ getDate (endOfMonth d) = DaysInMonth (getFullYear d) (getMonth d + 1))
  /\ (startOfMonth (startOfMonth d) = startOfMonth d
      /\ startOfMonth (endOfMonth d) = startOfMonth d
      /\ endOfMonth (startOfMonth d) = endOfMonth d
      /\ endOfMonth (endOfMonth d) = endOfMonth d).
Proof.
  destruct (month_ends_Day d) as (Hs & He & Hd). cbv zeta in *.
  destruct (date_fields_valid d) as [HM _].
  pose proof (DaysInMonth_bounds (getFullYear d) (getMonth d + 1)) as Hb.
  pose proof (fields_startOfMonth d) as (S1 & S2 & S3).
  pose proof (fields_endOfMonth d) as (E1 & E2 & E3).
  assert (Hnext : addMonths d 1 = endOfMonth d + msPerDay).
  { unfold addMonths. rewrite He, newDate3_MakeDay.
    pose proof (MakeDay_day_zero (getFullYear d) (getMonth d)) as Hz.
    rewrite Z.div_small, Z.mod_small in Hz by lia.
    replace (getFullYear d + 0) with (getFullYear d) in Hz by lia.
    rewrite (MakeDay_date _ (getMonth d + 1) 0) in Hz.
    unfold msPerDay. lia. }
  assert (Hin : startOfMonth d <= d < endOfMonth d + msPerDay).
  { rewrite Hs, He. revert Hd. unfold Day, msPerDay.
    generalize (MakeDay (getFullYear d) (getMonth d) 1). intros k. zdiv. }
  split; [rewrite Hnext; exact Hin |].
  split; [rewrite Hnext, Hs, He; unfold msPerDay; lia |].
  split.
  { rewrite Hnext, Hs, He.
    replace ((MakeDay (getFullYear d) (getMonth d) 1
              + DaysInMonth (getFullYear d) (getMonth d + 1) - 1) * msPerDay + msPerDay)
      with ((MakeDay (getFullYear d) (getMonth d) 1
             + DaysInMonth (getFullYear d) (getMonth d + 1)) * msPerDay)
      by (unfold msPerDay; lia).
    rewrite !Day_midnight. lia. }
  split; [auto |].
  split; [auto |].
  destruct (fields_month_ends (getFullYear d) (getMonth d) HM)
    as [(F1 & F2 & _) (L1 & L2 & _)].
  cbv zeta in F1, F2, L1, L2.
  unfold startOfMonth, endOfMonth.
  rewrite F1, F2, L1, L2. repeat split; exact eq_refl.
Qed.

(** ** Years *)

(** A year has 365 or 366 days. *)
Lemma year_length y :
  365 <= days_from_civil (y + 1) 1 1 - days_from_civil y 1 1 <= 366.
Proof. unfold days_from_civil. boolz; try lia; zdiv. Qed.

(** The days of a year lie between its first of January and the eve of
    the next. *)
Lemma year_span y m d :
  1 <= m <= 12 -> 1 <= d <= DaysInMonth y m ->
  days_from_civil y 1 1 <= days_from_civil y m d <= days_from_civil (y + 1) 1 1 - 1.
Proof.
  intros Hm Hd. revert Hd. unfold days_from_civil, DaysInMonth, isLeap.
  boolz; intros; try lia; zdiv.
Qed.

(** A year starts at least 365 days after the year before it. *)
Lemma year_start_mono y1 y2 :
  y1 <= y2 -> days_from_civil y1 1 1 + 365 * (y2 - y1) <= days_from_civil y2 1 1.
Proof.
  intros H. replace y2 with (y1 + Z.of_nat (Z.to_nat (y2 - y1))) by lia.
  generalize (Z.to_nat (y2 - y1)). intros n. clear H y2.
  induction n as [| n IH].
  - rewrite Z.add_0_r. lia.
  - pose proof (year_length (y1 + Z.of_nat n)) as Hl.
    replace (y1 + Z.of_nat (S n)) with (y1 + Z.of_nat n + 1) by lia. lia.
Qed.

(** The year of an instant, from its day number. *)
Lemma year_of_Day t y :
  (MakeDay y 0 1 <= Day t <-> y <= getFullYear t)
  /\ (Day t <= MakeDay (y + 1) 0 1 - 1 <-> getFullYear t <= y).
Proof.
  destruct (date_fields_valid t) as [HM HD].
  pose proof (MakeDay_fields t) as HF.
  rewrite MakeDay_month in HF by exact HM.
  pose proof (year_span (getFullYear t) (getMonth t + 1) (getDate t) ltac:(lia) HD) as Hs.
  rewrite HF in Hs.
  rewrite !MakeDay_month by lia. cbn [Z.add].
  remember (getFullYear t) as Y eqn:EY. clear EY HF HD HM.
  split; split; intros H.
  - destruct (Z.le_gt_cases y Y) as [Hle | Hgt]; [exact Hle | exfalso].
    pose proof (year_start_mono (Y + 1) y ltac:(lia)). lia.
  - pose proof (year_start_mono y Y H). lia.
  - destruct (Z.le_gt_cases Y y) as [Hle | Hgt]; [exact Hle | exfalso].
    pose proof (year_start_mono (y + 1) Y ltac:(lia)). lia.
  - pose proof (year_start_mono (Y + 1) (y + 1) ltac:(lia)). lia.
Qed.

(** The first and the last midnight of a year. *)
Lemma year_ends y :
  stripTime (newDate3 y 0 1) = MakeDay y 0 1 * msPerDay
  /\ stripTime (newDate3 (y + 1) 0 0) = (MakeDay (y + 1) 0 1 - 1) * msPerDay.
Proof.
  rewrite !stripTime_newDate3, !newDate3_MakeDay.
  rewrite (MakeDay_date (y + 1) 0 0). split; [reflexivity | f_equal; lia].
Qed.

(** The year check, bound by bound. *)
Lemma isYearInRange_iff y r :
  isYearInRange y (Some r) = true
  <-> (forall mn, min r = Some mn -> getFullYear mn <= y)
      /\ (forall mx, max r = Some mx -> y <= getFullYear mx)
      /\ (forall mn mx, min r = Some mn -> max r = Some mx -> Day mn <= Day mx).
Proof.
  destruct (year_ends y) as [Efirst Elast].
  assert (Hyear : MakeDay y 0 1 <= MakeDay (y + 1) 0 1 - 1).
  { rewrite !MakeDay_month by lia. cbn [Z.add].
    pose proof (year_length y). lia. }
  assert (Hmin : forall mn, MakeDay (y + 1) 0 1 - 1 >= Day mn <-> getFullYear mn <= y).
  { intros mn. destruct (year_of_Day mn y) as [_ H]. rewrite <- H. lia. }
  assert (Hmax : forall mx, MakeDay y 0 1 <= Day mx <-> y <= getFullYear mx).
  { intros mx. apply year_of_Day. }
  unfold isYearInRange, getTime.
  destruct (min r) as [mn |], (max r) as [mx |];
    rewrite ?Efirst, ?Elast, ?stripTime_Day, ?Z.leb_le.
  - specialize (Hmin mn). specialize (Hmax mx).
    remember (MakeDay y 0 1) as f eqn:Ef. remember (MakeDay (y + 1) 0 1) as l eqn:El.
    remember (Day mn) as a eqn:Ea. remember (Day mx) as b eqn:Eb.
    clear Ef El Efirst Elast. unfold msPerDay. split.
    + intros H. split; [intros ? [= <-]; apply Hmin; lia |].
      split; [intros ? [= <-]; apply Hmax; lia |].
      intros ? ? [= <-] [= <-]. lia.
    + intros (H1 & H2 & H3). specialize (H1 _ eq_refl). specialize (H2 _ eq_refl).
      specialize (H3 _ _ eq_refl eq_refl). apply Hmin in H1. apply Hmax in H2. lia.
  - specialize (Hmin mn).
    remember (MakeDay y 0 1) as f eqn:Ef. remember (MakeDay (y + 1) 0 1) as l eqn:El.
    remember (Day mn) as a eqn:Ea.
    clear Ef El Ea Efirst Elast. unfold msPerDay. split.
    + intros H. split; [intros ? [= <-]; apply Hmin; lia |].
      split; [intros ? [=] | intros ? ? _ [=]].
    + intros (H1 & _). specialize (H1 _ eq_refl). apply Hmin in H1. lia.
  - specialize (Hmax mx).
    remember (MakeDay y 0 1) as f eqn:Ef. remember (MakeDay (y + 1) 0 1) as l eqn:El.
    remember (Day mx) as b eqn:Eb.
    clear Ef El Eb Efirst Elast. unfold msPerDay. split.
    + intros H. split; [intros ? [=] |].
      split; [intros ? [= <-]; apply Hmax; lia | intros ? ? [=]].
    + intros (_ & H2 & _). specialize (H2 _ eq_refl). apply Hmax in H2. lia.
  - split; [| reflexivity]. intros _.
    split; [intros ? [=] |]. split; [intros ? [=] | intros ? ? [=]].
Qed.

(** The year does not decrease with the day number. *)
Lemma getFullYear_mono a b : Day a <= Day b -> getFullYear a <= getFullYear b.
Proof.
  intros H. destruct (year_of_Day b (getFullYear a)) as [H1 _]. apply H1.
  destruct (year_of_Day a (getFullYear a)) as [H2 _].
  pose proof (proj2 H2 (Z.le_refl _)). lia.
Qed.

(** ** Years, from year numbers *)

(** The last day of December is the eve of the next year. *)
Lemma MakeDay_december y : MakeDay y 11 31 = MakeDay (y + 1) 0 1 - 1.
Proof.
  rewrite (MakeDay_date y 11 31), (MakeDay_date (y + 1) 0 1).
  pose proof (MakeDay_day_zero y 11) as H.
  rewrite Z.div_small, Z.mod_small in H by lia.
  replace (y + 0) with y in H by lia.
  replace (DaysInMonth y (11 + 1)) with 31 in H by reflexivity.
  rewrite (MakeDay_normal y (11 + 1) 0) in H.
  replace ((11 + 1) / 12) with 1 in H by reflexivity.
  replace ((11 + 1) mod 12) with 0 in H by reflexivity.
  rewrite (MakeDay_date (y + 1) 0 0) in H. lia.
Qed.

(** The year that [isYearInRange] ends on: the year of the eve of
    [new Date(year + 1, 0, 1)], read once more by [stripTime]. *)
Lemma AnyYear_year_ends y :
  let last := if y =? -1 then 1899 else AnyYear.MakeFullYear y in
  AnyYear.stripTime (AnyYear.newDate3 y 0 1)
  = MakeDay (AnyYear.MakeFullYear y) 0 1 * msPerDay
  /\ AnyYear.stripTime (AnyYear.newDate3 (y + 1) 0 0)
     = (MakeDay (last + 1) 0 1 - 1) * msPerDay
  /\ AnyYear.MakeFullYear y <= last.
Proof.
  cbv zeta.
  destruct (AnyYear_month_ends y 0 ltac:(lia)) as [E1 _].
  split; [rewrite E1; apply newDate3_MakeDay |].
  (* the eve of the first of January of the year read from [y + 1] *)
  remember (AnyYear.MakeFullYear (y + 1)) as Y1 eqn:EY1.
  assert (Hprev : AnyYear.newDate3 (y + 1) 0 0 = newDate3 (Y1 - 1) (11 + 1) 0).
  { unfold AnyYear.newDate3. rewrite <- EY1. rewrite !newDate3_MakeDay. f_equal.
    rewrite (MakeDay_normal (Y1 - 1) (11 + 1) 0).
    replace ((11 + 1) / 12) with 1 by reflexivity.
    replace ((11 + 1) mod 12) with 0 by reflexivity.
    f_equal. lia. }
  destruct (fields_month_ends (Y1 - 1) 11 ltac:(lia)) as [_ (L1 & L2 & L3)].
  cbv zeta in L1, L2, L3.
  assert (Hlast : AnyYear.stripTime (AnyYear.newDate3 (y + 1) 0 0)
                  = newDate3 (AnyYear.MakeFullYear (Y1 - 1)) 11 31).
  { unfold AnyYear.stripTime. rewrite Hprev, L1, L2, L3.
    unfold AnyYear.newDate3. reflexivity. }
  assert (HL : AnyYear.MakeFullYear (Y1 - 1)
               = if y =? -1 then 1899 else AnyYear.MakeFullYear y).
  { rewrite EY1. unfold AnyYear.MakeFullYear.
    destruct (Z.eqb_spec y (-1)) as [-> | Hy]; [reflexivity |].
    destruct (Z.leb_spec 0 (y + 1)), (Z.leb_spec (y + 1) 99); cbn [andb];
      destruct (Z.leb_spec 0 y), (Z.leb_spec y 99); cbn [andb];
      repeat match goal with
             | |- context [?a <=? ?b] => destruct (Z.leb_spec a b)
             end; cbn [andb]; lia. }
  split.
  - rewrite Hlast, HL, newDate3_MakeDay, MakeDay_december. reflexivity.
  - destruct (Z.eqb_spec y (-1)) as [-> | Hy]; [vm_compute; discriminate | lia].
Qed.

(** A run of years from [a] to [b] against a range: the interval check of
    the code, bound by bound. *)
Lemma years_meet a b r :
  a <= b ->
  ((match min r with
    | Some mn => Z.max (MakeDay a 0 1 * msPerDay) (stripTime mn)
    | None => MakeDay a 0 1 * msPerDay
    end
    <=? match max r with
        | Some mx => Z.min ((MakeDay (b + 1) 0 1 - 1) * msPerDay) (stripTime mx)
        | None => (MakeDay (b + 1) 0 1 - 1) * msPerDay
        end) = true
   <-> (forall mn, min r = Some mn -> getFullYear mn <= b)
       /\ (forall mx, max r = Some mx -> a <= getFullYear mx)
       /\ (forall mn mx, min r = Some mn -> max r = Some mx -> Day mn <= Day mx)).
Proof.
  intros Hab.
  assert (Hyear : MakeDay a 0 1 <= MakeDay (b + 1) 0 1 - 1).
  { rewrite !MakeDay_month by lia. cbn [Z.add].
    pose proof (year_start_mono a b Hab). pose proof (year_length b). lia. }
  assert (Hmin : forall mn, MakeDay (b + 1) 0 1 - 1 >= Day mn <-> getFullYear mn <= b).
  { intros mn. destruct (year_of_Day mn b) as [_ H]. rewrite <- H. lia. }
  assert (Hmax : forall mx, MakeDay a 0 1 <= Day mx <-> a <= getFullYear mx).
  { intros mx. apply year_of_Day. }
  rewrite Z.leb_le.
  destruct (min r) as [mn |], (max r) as [mx |]; rewrite ?stripTime_Day.
  - specialize (Hmin mn). specialize (Hmax mx).
    remember (MakeDay a 0 1) as f eqn:Ef. remember (MakeDay (b + 1) 0 1) as l eqn:El.
    remember (Day mn) as u eqn:Eu. remember (Day mx) as v eqn:Ev.
    clear Ef El. unfold msPerDay. split.
    + intros H. split; [intros ? [= <-]; apply Hmin; lia |].
      split; [intros ? [= <-]; apply Hmax; lia |].
      intros ? ? [= <-] [= <-]. lia.
    + intros (H1 & H2 & H3). specialize (H1 _ eq_refl). specialize (H2 _ eq_refl).
      specialize (H3 _ _ eq_refl eq_refl). apply Hmin in H1. apply Hmax in H2. lia.
  - specialize (Hmin mn).
    remember (MakeDay a 0 1) as f eqn:Ef. remember (MakeDay (b + 1) 0 1) as l eqn:El.
    remember (Day mn) as u eqn:Eu.
    clear Ef El Eu. unfold msPerDay. split.
    + intros H. split; [intros ? [= <-]; apply Hmin; lia |].
      split; [intros ? [=] | intros ? ? _ [=]].
    + intros (H1 & _). specialize (H1 _ eq_refl). apply Hmin in H1. lia.
  - specialize (Hmax mx).
    remember (MakeDay a 0 1) as f eqn:Ef. remember (MakeDay (b + 1) 0 1) as l eqn:El.
    remember (Day mx) as v eqn:Ev.
    clear Ef El Ev. unfold msPerDay. split.
    + intros H. split; [intros ? [=] |].
      split; [intros ? [= <-]; apply Hmax; lia | intros ? ? [=]].
    + intros (_ & H2 & _). specialize (H2 _ eq_refl). apply Hmax in H2. lia.
  - split; [intros _ | intros _; unfold msPerDay; lia].
    split; [intros ? [=] |]. split; [intros ? [=] | intros ? ? [=]].
Qed.

(** With bounds outside the years 0 to 99, the year check on a year number,
    bound by bound. *)
Lemma AnyYear_isYearInRange_iff y r :
  fullYearRange r ->
  let first := AnyYear.MakeFullYear y in
  let last := if y =? -1 then 1899 else AnyYear.MakeFullYear y in
  AnyYear.isYearInRange y (Some r) = true
  <-> (forall mn, min r = Some mn -> getFullYear mn <= last)
      /\ (forall mx, max r = Some mx -> first <= getFullYear mx)
      /\ (forall mn mx, min r = Some mn -> max r = Some mx -> Day mn <= Day mx).
Proof.
  intros [Hmin Hmax]. cbv zeta.
  destruct (AnyYear_year_ends y) as (E1 & E2 & Hle). cbv zeta in E2, Hle.
  rewrite <- (years_meet _ _ r Hle).
  unfold AnyYear.isYearInRange, getTime. rewrite E1, E2.
  destruct (min r) as [mn |], (max r) as [mx |];
    rewrite ?(AnyYear_stripTime mn) by (apply Hmin; reflexivity);
    rewrite ?(AnyYear_stripTime mx) by (apply Hmax; reflexivity);
    try reflexivity.
  split; [intros _ | reflexivity].
  apply Z.leb_le. unfold msPerDay.
  assert (Hyear : MakeDay (AnyYear.MakeFullYear y) 0 1
                  <= MakeDay ((if y =? -1 then 1899 else AnyYear.MakeFullYear y) + 1) 0 1 - 1).
  { rewrite !MakeDay_month by lia. cbn [Z.add].
    pose proof (year_start_mono _ _ Hle).
    pose proof (year_length (if y =? -1 then 1899 else AnyYear.MakeFullYear y)). lia. }
  lia.
Qed.

(** A year passes the check on full years exactly when one of its instants
    passes the inclusive day check. *)
Lemma isYearInRange_some_day y r :
  isYearInRange y (Some r) = true
  <-> exists t, getFullYear t = y /\ isDateInRange t (Some r) true = true.
Proof.
  rewrite isYearInRange_iff. split.
  - intros (H1 & H2 & H3).
    set (k := match min r with
              | Some mn => Z.max (MakeDay y 0 1) (Day mn)
              | None => MakeDay y 0 1
              end).
    assert (Hy : MakeDay y 0 1 <= MakeDay (y + 1) 0 1 - 1).
    { rewrite !MakeDay_month by lia. cbn [Z.add]. pose proof (year_length y). lia. }
    assert (Hk : MakeDay y 0 1 <= k <= MakeDay (y + 1) 0 1 - 1).
    { subst k. destruct (min r) as [mn |]; [| lia].
      specialize (H1 mn eq_refl). apply (year_of_Day mn y) in H1. lia. }
    exists (k * msPerDay).
    assert (Hday : Day (k * msPerDay) = k) by apply Day_midnight.
    split.
    + apply Z.le_antisymm.
      * apply (year_of_Day (k * msPerDay) y). rewrite Hday. lia.
      * apply (year_of_Day (k * msPerDay) y). rewrite Hday. lia.
    + apply isDateInRange_inclusive. unfold aboveMin, belowMax.
      rewrite stripTime_Day, Hday. split.
      * intros mn Hmn. rewrite stripTime_Day. subst k. rewrite Hmn.
        unfold msPerDay. lia.
      * intros mx Hmx. rewrite stripTime_Day.
        specialize (H2 mx Hmx). apply (year_of_Day mx y) in H2.
        assert (k <= Day mx); [| unfold msPerDay; lia].
        subst k. destruct (min r) as [mn |]; [| lia].
        specialize (H3 mn mx eq_refl Hmx). lia.
  - intros (t & Hy & Hin). apply isDateInRange_inclusive in Hin as [Hmin Hmax].
    unfold aboveMin, belowMax in *.
    assert (Hd : forall a b, stripTime a <= stripTime b -> Day a <= Day b)
      by (intros a b; rewrite !stripTime_Day; unfold msPerDay; lia).
    split; [| split].
    + intros mn Hmn. rewrite <- Hy. apply getFullYear_mono, Hd, Hmin, Hmn.
    + intros mx Hmx. rewrite <- Hy. apply getFullYear_mono, Hd, Hmax, Hmx.
    + intros mn mx Hmn Hmx. specialize (Hmin mn Hmn). specialize (Hmax mx Hmx).
      apply Hd. lia.
Qed.

(** X11.  On any year number whose days the time values of the platform
    cover, with bounds outside the years 0 to 99:
    [isYearInRange] accepts exactly when the year that the constructor reads
    the number as (1900 more for a number from 0 to 99) lies between the
    years of the bounds and [min] is not on a later day than [max];
    equivalently, when some instant of that year passes the inclusive day
    check.  The year number -1 is the exception: its end,
    [new Date(0, 0, 0)], is the last day of 1899, and it is accepted as the
    run of years from -1 to 1899.  Without a range every year is accepted. *)
Theorem isYearInRange_any_year (y : Z) (r : DateRange) :
  yearInTimeRange y -> fullYearRange r ->
  let first := AnyYear.MakeFullYear y in
  let last := if y =? -1 then 1899 else AnyYear.MakeFullYear y in
  (AnyYear.isYearInRange y (Some r) = true
   <-> (forall mn, min r = Some mn -> getFullYear mn <= last)
       /\ (forall mx, max r = Some mx -> first <= getFullYear mx)
       /\ (forall mn mx, min r = Some mn -> max r = Some mx -> Day mn <= Day mx))
  /\ ((y < -1 \/ 99 < y -> first = y /\ last = y)
      /\ (0 <= y <= 99 -> first = 1900 + y /\ last = 1900 + y)
      /\ (y = -1 -> first = -1 /\ last = 1899))
  /\ (y <> -1 ->
      (AnyYear.isYearInRange y (Some r) = true
       <-> exists t, getFullYear t = first /\ isDateInRange t (Some r) true = true))
  /\ (Z.abs (getTime (AnyYear.stripTime (AnyYear.newDate3 y 0 1))) <= maxTime
      /\ Z.abs (getTime (AnyYear.stripTime (AnyYear.newDate3 (y + 1) 0 0))) <= maxTime)
  /\ AnyYear.isYearInRange y None = true.
Proof.
  intros Hy Hfull. cbv zeta.
  pose proof (AnyYear_isYearInRange_iff y r Hfull) as Hiff. cbv zeta in Hiff.
  destruct (MakeFullYear_cases y) as (Hout & Hin & _).
  split; [exact Hiff |].
  split.
  { split; [| split].
    - intros Hy1. destruct (Z.eqb_spec y (-1)); [lia |]. rewrite Hout by lia. now split.
    - intros Hy1. destruct (Z.eqb_spec y (-1)); [lia |]. rewrite Hin by lia. now split.
    - intros ->. split; reflexivity. }
  split.
  { intros Hy1. rewrite <- isYearInRange_some_day, Hiff, isYearInRange_iff.
    destruct (Z.eqb_spec y (-1)); [contradiction | reflexivity]. }
  split; [| reflexivity].
  destruct (AnyYear_year_ends y) as (E1 & E2 & _). cbv zeta in E2.
  assert (HY : -271820 <= AnyYear.MakeFullYear y <= 275759).
  { unfold yearInTimeRange in Hy. unfold AnyYear.MakeFullYear.
    destruct (Z.leb_spec 0 y), (Z.leb_spec y 99); cbn [andb]; lia. }
  assert (HL : -271820 <= (if y =? -1 then 1899 else AnyYear.MakeFullYear y) <= 275759)
    by (destruct (Z.eqb_spec y (-1)); lia).
  pose proof (days_in_time_range _ (0 + 1) 1 HY ltac:(lia) ltac:(lia)) as H1.
  pose proof (days_in_time_range _ (11 + 1) 31 HL ltac:(lia) ltac:(lia)) as H2.
  unfold getTime. rewrite E1, E2, <- MakeDay_december.
  rewrite (MakeDay_month _ 0 1) by lia. rewrite (MakeDay_month _ 11 31) by lia.
  unfold maxTime, msPerDay. lia.
Qed.

(** A filter that accepts every element keeps the list. *)
Lemma filter_all {A} (f : A -> bool) l :
  (forall x, In x l -> f x = true) -> List.filter f l = l.
Proof.
  induction l as [| a l IH]; intros H; cbn [List.filter]; [reflexivity |].
  rewrite (H a (or_introl eq_refl)), IH; [reflexivity |].
  intros x Hx. apply H. now right.
Qed.

(** A filter that refuses every element leaves nothing. *)
Lemma filter_none {A} (f : A -> bool) l :
  (forall x, In x l -> f x = false) -> List.filter f l = [].
Proof.
  induction l as [| a l IH]; intros H; cbn [List.filter]; [reflexivity |].
  rewrite (H a (or_introl eq_refl)). apply IH.
  intros x Hx. apply H. now right.
Qed.

(** The members of a run of consecutive years. *)
Lemma in_year_span ys n y :
  In y (List.map (fun i => ys + i) (NumberUtils.range n)) <-> ys <= y < ys + n.
Proof.
  rewrite in_map_iff. split.
  - intros (i & <- & Hi). apply range_spec in Hi. lia.
  - intros H. exists (y - ys). split; [lia | apply range_spec; lia].
Qed.

(** X12.  The years offered by the picker are the consecutive years from the
    start to the end of [getYearRange], or none at all when [minDate] is on
    a later day than [maxDate]; the span runs from the year of [minDate] to
    the year of [maxDate], fifty years from the one bound that is given, or
    fifty years each side of the current year. *)
Theorem yearOptions_span (props : Props) (now : Date) :
  let ystart := fst (getYearRange now (rangeObj props) 50) in
  let yend := snd (getYearRange now (rangeObj props) 50) in
  yearOptions props now
  = (if rangeInverted props then []
     else List.map (fun i => ystart + i) (NumberUtils.range (yend - ystart + 1)))
  /\ (forall y, In y (yearOptions props now)
                <-> rangeInverted props = false /\ ystart <= y <= yend)
  /\ match minDate props, maxDate props with
     | Some mn, Some mx => ystart = getFullYear mn /\ yend = getFullYear mx
     | Some mn, None => ystart = getFullYear mn /\ yend = getFullYear mn + 50
     | None, Some mx => ystart = getFullYear mx - 50 /\ yend = getFullYear mx
     | None, None => ystart = getFullYear now - 50 /\ yend = getFullYear now + 50
     end.
Proof.
  cbv zeta.
  assert (Heq : yearOptions props now
    = (if rangeInverted props then []
       else List.map (fun i => fst (getYearRange now (rangeObj props) 50) + i)
              (NumberUtils.range (snd (getYearRange now (rangeObj props) 50)
                                  - fst (getYearRange now (rangeObj props) 50) + 1)))).
  { unfold yearOptions, rangeInverted.
    destruct (getYearRange now (rangeObj props) 50) as [ys ye] eqn:E.
    cbn [fst snd].
    unfold getYearRange, rangeObj in E. cbn [min max] in E.
    unfold rangeObj.
    destruct (minDate props) as [mn |], (maxDate props) as [mx |];
      injection E as <- <-.
    - destruct (Z.ltb_spec (Day mx) (Day mn)) as [Hinv | Hok].
      + apply filter_none. intros y _.
        destruct (isYearInRange y (Some (mkRange (Some mn) (Some mx)))) eqn:Ey;
          [| reflexivity].
        apply isYearInRange_iff in Ey as (_ & _ & H3).
        specialize (H3 mn mx eq_refl eq_refl). lia.
      + apply filter_all. intros y Hy. apply in_year_span in Hy.
        apply isYearInRange_iff. cbn [min max].
        split; [intros ? [= <-]; lia |].
        split; [intros ? [= <-]; lia | intros ? ? [= <-] [= <-]; exact Hok].
    - apply filter_all. intros y Hy. apply in_year_span in Hy.
      apply isYearInRange_iff. cbn [min max].
      split; [intros ? [= <-]; lia |]. split; [intros ? [=] | intros ? ? _ [=]].
    - apply filter_all. intros y Hy. apply in_year_span in Hy.
      apply isYearInRange_iff. cbn [min max].
      split; [intros ? [=] |]. split; [intros ? [= <-]; lia | intros ? ? [=]].
    - apply filter_all. intros y _. reflexivity. }
  split; [exact Heq |]. split.
  - intros y. rewrite Heq. destruct (rangeInverted props).
    + split; [intros [] | intros [H _]; discriminate].
    + rewrite in_year_span. split; [intros H; split; [reflexivity | lia] | intros [_ H]; lia].
  - unfold getYearRange, rangeObj. cbn [min max].
    destruct (minDate props), (maxDate props); cbn [fst snd]; split; reflexivity.
Qed.

(* ================================================================== *)
(** * The calendar shown                                               *)
(* ================================================================== *)

(** ** Columns of the grid *)

(** The cells of the grid: empty ones up to the weekday of the first, the
    days, empty ones up to a full week. *)
Lemma buildDaysGrid_layout base :
  let off := Z.to_nat (weekdayIndexMonFirst (getDay (startOfMonth base))) in
  let dim := Z.to_nat (DaysInMonth (getFullYear base) (getMonth base + 1)) in
  exists pad,
    buildDaysGrid base
    = List.repeat None off ++ List.map Some (countFrom 1 dim) ++ List.repeat None pad.
Proof.
  cbv zeta. unfold buildDaysGrid. rewrite getDate_endOfMonth.
  eexists. rewrite padToWeeks_spec by zdiv.
  rewrite <- app_assoc. reflexivity.
Qed.

(** The element of [countFrom lo n] at index [k]. *)
Lemma nth_error_countFrom lo n k :
  (k < n)%nat -> nth_error (countFrom lo n) k = Some (lo + Z.of_nat k).
Proof.
  intros H. unfold countFrom. rewrite nth_error_map, nth_error_seq.
  destruct (Nat.ltb_spec k n); [reflexivity | lia].
Qed.

(** A day cell of the grid and its position. *)
Lemma grid_cell base k d :
  nth_error (buildDaysGrid base) k = Some (Some d) ->
  1 <= d <= DaysInMonth (getFullYear base) (getMonth base + 1)
  /\ Z.of_nat k = weekdayIndexMonFirst (getDay (startOfMonth base)) + d - 1.
Proof.
  destruct (buildDaysGrid_layout base) as (pad & ->). cbv zeta.
  destruct (weekdayIndexMonFirst_range (startOfMonth base)) as [Hoff _].
  pose proof (DaysInMonth_bounds (getFullYear base) (getMonth base + 1)) as Hb.
  set (off := Z.to_nat (weekdayIndexMonFirst (getDay (startOfMonth base)))).
  set (dim := Z.to_nat (DaysInMonth (getFullYear base) (getMonth base + 1))).
  assert (Eoff : Z.of_nat off = weekdayIndexMonFirst (getDay (startOfMonth base)))
    by (subst off; lia).
  assert (Edim : Z.of_nat dim = DaysInMonth (getFullYear base) (getMonth base + 1))
    by (subst dim; lia).
  clearbody off dim.
  destruct (Nat.ltb_spec k off) as [Hlt | Hge].
  - rewrite nth_error_app1 by (rewrite repeat_length; exact Hlt).
    rewrite nth_error_repeat by exact Hlt. discriminate.
  - rewrite nth_error_app2 by (rewrite repeat_length; exact Hge).
    rewrite repeat_length.
    destruct (Nat.ltb_spec (k - off) dim) as [Hin | Hout].
    + rewrite nth_error_app1 by (rewrite length_map; unfold countFrom;
                                 rewrite length_map, length_seq; exact Hin).
      rewrite nth_error_map, nth_error_countFrom by exact Hin. cbn [option_map].
      intros H. assert (E : d = 1 + Z.of_nat (k - off)) by congruence. lia.
    + rewrite nth_error_app2 by (rewrite length_map; unfold countFrom;
                                 rewrite length_map, length_seq; exact Hout).
      intros H. apply nth_error_In, repeat_spec in H. discriminate.
Qed.

(** The weekday of day [d] of the month of [base]. *)
Lemma getDay_of_cell base d :
  getDay (newDate3 (getFullYear base) (getMonth base) d)
  = (getDay (startOfMonth base) + d - 1) mod 7.
Proof.
  unfold getDay, startOfMonth. rewrite !Day_newDate3, (MakeDay_date _ _ d).
  generalize (MakeDay (getFullYear base) (getMonth base) 1). intros k. zdiv.
Qed.

(** X13.  The column names are the formatter's names of the seven days from
    Monday 2024-01-01 on, Monday first, and every day cell of the grid, at
    position [k] and so in column [k mod 7], falls on the weekday of the date
    that names its column. *)
Theorem grid_columns_are_weekdays (formatWeekday : Date -> string) (base : Date) :
  weekdaysShortMonFirst formatWeekday = List.map formatWeekday headerDates
  /\ List.map (fun h => weekdayIndexMonFirst (getDay h)) headerDates
     = NumberUtils.range 7
  /\ forall k d,
       nth_error (buildDaysGrid base) k = Some (Some d) ->
       let cell := newDate3 (getFullYear base) (getMonth base) d in
       weekdayIndexMonFirst (getDay cell) = Z.of_nat k mod 7
       /\ exists h, nth_error headerDates (Nat.modulo k 7) = Some h
                    /\ getDay h = getDay cell.
Proof.
  assert (Hhead : List.map (fun h => weekdayIndexMonFirst (getDay h)) headerDates
                  = NumberUtils.range 7) by (vm_compute; reflexivity).
  split; [| split; [exact Hhead |]].
  - assert (E1 : getFullYear (newDate3 2024 0 1) = 2024) by (vm_compute; reflexivity).
    assert (E2 : getMonth (newDate3 2024 0 1) = 0) by (vm_compute; reflexivity).
    assert (E3 : getDate (newDate3 2024 0 1) = 1) by (vm_compute; reflexivity).
    unfold weekdaysShortMonFirst, headerDates. cbv zeta.
    rewrite map_map, E1, E2, E3. exact eq_refl.
  - intros k d Hcell. cbv zeta.
    destruct (grid_cell base k d Hcell) as [Hd Hk].
    destruct (weekdayIndexMonFirst_range (startOfMonth base)) as [Hoff Eoff].
    destruct (weekdayIndexMonFirst_range
                (newDate3 (getFullYear base) (getMonth base) d)) as [Hc Ec].
    assert (Hcol : weekdayIndexMonFirst
                     (getDay (newDate3 (getFullYear base) (getMonth base) d))
                   = Z.of_nat k mod 7).
    { rewrite Ec, getDay_of_cell, Hk, Eoff.
      generalize (getDay (startOfMonth base)). intros g.
      replace ((g + 6) mod 7 + d - 1) with ((g + 6) mod 7 + (d - 1)) by lia.
      rewrite !Zplus_mod_idemp_l. f_equal. lia. }
    split; [exact Hcol |].
    assert (Hlt : (Nat.modulo k 7 < 7)%nat) by (apply Nat.mod_upper_bound; lia).
    assert (Hmod : Z.of_nat (Nat.modulo k 7) = Z.of_nat k mod 7)
      by (rewrite Nat2Z.inj_mod; reflexivity).
    destruct (nth_error headerDates (Nat.modulo k 7)) as [h |] eqn:Eh.
    2: { apply nth_error_None in Eh.
         assert (Hlen : List.length headerDates = 7%nat) by (vm_compute; reflexivity).
         lia. }
    exists h. split; [reflexivity |].
    pose proof (map_nth_error (fun h => weekdayIndexMonFirst (getDay h)) _ _ Eh) as Hm.
    rewrite Hhead in Hm.
    pose proof (range_nth 7 (Z.of_nat (Nat.modulo k 7)) ltac:(lia)) as Hr.
    rewrite Nat2Z.id in Hr. rewrite Hr in Hm.
    assert (Hm' : weekdayIndexMonFirst (getDay h) = Z.of_nat (Nat.modulo k 7))
      by congruence.
    clear Hm. rename Hm' into Hm. rewrite Hmod, <- Hcol in Hm.
    assert (B : forall x, 0 <= getDay x < 7)
      by (intros x; unfold getDay; apply Z.mod_pos_bound; lia).
    pose proof (B h) as B1.
    pose proof (B (newDate3 (getFullYear base) (getMonth base) d)) as B2.
    revert Hm. unfold weekdayIndexMonFirst. boolz; lia.
Qed.

(** ** The month list *)

(** The next month starts when the month is over. *)
Lemma MakeDay_next_month y m :
  MakeDay y (m + 1) 1 = MakeDay y m 1 + DaysInMonth (y + m / 12) (m mod 12 + 1).
Proof.
  pose proof (MakeDay_day_zero y m) as H. rewrite (MakeDay_date y (m + 1) 0) in H. lia.
Qed.

(** The month check, bound by bound. *)
Lemma isMonthInRange_bounds y m0 r :
  isMonthInRange y m0 (Some r) = true
  <-> (forall mn, min r = Some mn -> stripTime mn <= newDate3 y (m0 + 1) 0)
      /\ (forall mx, max r = Some mx -> newDate3 y m0 1 <= stripTime mx)
      /\ (forall mn mx, min r = Some mn -> max r = Some mx ->
            stripTime mn <= stripTime mx).
Proof.
  pose proof (month_first_le_last y m0) as Hle.
  unfold isMonthInRange, getTime. rewrite !stripTime_newDate3.
  destruct (min r) as [mn |], (max r) as [mx |]; rewrite ?Z.leb_le.
  - split.
    + intros H. split; [intros ? [= <-]; lia |].
      split; [intros ? [= <-]; lia | intros ? ? [= <-] [= <-]; lia].
    + intros (H1 & H2 & H3). specialize (H1 _ eq_refl). specialize (H2 _ eq_refl).
      specialize (H3 _ _ eq_refl eq_refl). lia.
  - split.
    + intros H. split; [intros ? [= <-]; lia |].
      split; [intros ? [=] | intros ? ? _ [=]].
    + intros (H1 & _). specialize (H1 _ eq_refl). lia.
  - split.
    + intros H. split; [intros ? [=] |].
      split; [intros ? [= <-]; lia | intros ? ? [=]].
    + intros (_ & H2 & _). specialize (H2 _ eq_refl). lia.
  - split; [| reflexivity]. intros _.
    split; [intros ? [=] |]. split; [intros ? [=] | intros ? ? [=]].
Qed.

(** The picker's month check, bound by bound. *)
Lemma isMonthDisabled_bounds props y m0 :
  isMonthDisabled props y m0 = false
  <-> (forall mn, minDate props = Some mn -> stripTime mn <= newDate3 y (m0 + 1) 0)
      /\ (forall mx, maxDate props = Some mx -> newDate3 y m0 1 <= stripTime mx).
Proof.
  unfold isMonthDisabled. rewrite !stripTime_newDate3.
  destruct (minDate props) as [mn |], (maxDate props) as [mx |].
  - destruct (Z.ltb_spec (newDate3 y (m0 + 1) 0) (stripTime mn)).
    + split; [discriminate |]. intros [H1 _]. specialize (H1 _ eq_refl). lia.
    + rewrite Z.gtb_ltb. destruct (Z.ltb_spec (stripTime mx) (newDate3 y m0 1)).
      * split; [discriminate |]. intros [_ H2]. specialize (H2 _ eq_refl). lia.
      * split; [| reflexivity]. intros _. split; intros ? [= <-]; lia.
  - destruct (Z.ltb_spec (newDate3 y (m0 + 1) 0) (stripTime mn)).
    + split; [discriminate |]. intros [H1 _]. specialize (H1 _ eq_refl). lia.
    + split; [| reflexivity]. intros _. split; [intros ? [= <-]; lia | intros ? [=]].
  - rewrite Z.gtb_ltb. destruct (Z.ltb_spec (stripTime mx) (newDate3 y m0 1)).
    + split; [discriminate |]. intros [_ H2]. specialize (H2 _ eq_refl). lia.
    + split; [| reflexivity]. intros _. split; [intros ? [=] | intros ? [= <-]; lia].
  - split; [| reflexivity]. intros _. split; intros ? [=].
Qed.

(** A month in range is not disabled. *)
Lemma month_in_range_enabled props y m0 :
  isMonthInRange y m0 (rangeObj props) = true -> isMonthDisabled props y m0 = false.
Proof.
  intros H. unfold rangeObj in H. apply isMonthInRange_bounds in H as (A & B & _).
  cbn [min max] in A, B. apply isMonthDisabled_bounds. now split.
Qed.

(** X14.  A month accepted by [isMonthInRange] is never disabled by the
    picker's own [isMonthDisabled], so every month rendered in the list can
    be clicked; when [minDate] is not on a later day than [maxDate] the two
    checks are each other's negation. *)
Theorem month_options_enabled (props : Props) (y m0 : Z) :
  (isMonthInRange y m0 (rangeObj props) = true -> isMonthDisabled props y m0 = false)
  /\ ((forall mn mx, minDate props = Some mn -> maxDate props = Some mx ->
         Day mn <= Day mx) ->
      isMonthDisabled props y m0 = negb (isMonthInRange y m0 (rangeObj props)))
  /\ (forall st : State,
        In m0 (monthOptions props st) ->
        0 <= m0 <= 11
        /\ isMonthDisabled props (getFullYear (displayDate st)) m0 = false).
Proof.
  assert (H1 : forall y, isMonthInRange y m0 (rangeObj props) = true ->
                         isMonthDisabled props y m0 = false)
    by (intros y'; apply month_in_range_enabled).
  split; [apply H1 |]. split.
  - intros Hord.
    destruct (isMonthInRange y m0 (rangeObj props)) eqn:E; cbn [negb].
    + now apply H1.
    + destruct (isMonthDisabled props y m0) eqn:D; [reflexivity | exfalso].
      apply isMonthDisabled_bounds in D as [A B].
      assert (Hin : isMonthInRange y m0 (rangeObj props) = true); [| congruence].
      unfold rangeObj. apply isMonthInRange_bounds. cbn [min max].
      split; [exact A |]. split; [exact B |].
      intros mn mx Hmn Hmx. specialize (Hord mn mx Hmn Hmx).
      rewrite !stripTime_Day. unfold msPerDay. lia.
  - intros st Hin. unfold monthOptions in Hin. apply filter_In in Hin as [Hr Hin].
    apply range_spec in Hr. split; [lia | now apply H1].
Qed.

(** ** Navigation *)

(** An event that commits nothing and leaves [open] alone runs no effect. *)
Lemma step_quiet legacy props now st ev :
  snd (dispatch legacy props now st ev) = None ->
  open (fst (dispatch legacy props now st ev)) = open st ->
  step legacy props now st ev = (fst (dispatch legacy props now st ev), None).
Proof.
  unfold step. destruct (dispatch legacy props now st ev) as [s1 em].
  cbn [fst snd]. intros -> ->. now rewrite Bool.eqb_reflx.
Qed.

(** The first and the last midnight of the month [a] months from the month
    of [d], by the day number of the first of a month. *)
Lemma month_of_addMonths d a :
  let X := addMonths d a in
  let f := fun m => MakeDay (getFullYear d) m 1 in
  newDate3 (getFullYear X) (getMonth X) 1 = f (getMonth d + a) * msPerDay
  /\ newDate3 (getFullYear X) (getMonth X + 1) 0 = (f (getMonth d + a + 1) - 1) * msPerDay
  /\ X = f (getMonth d + a) * msPerDay.
Proof.
  cbv zeta. destruct (fields_addMonths d a) as (EY & EM & _).
  rewrite EY, EM, !newDate3_MakeDay.
  unfold addMonths. rewrite newDate3_MakeDay.
  split; [| split; [| reflexivity]].
  - f_equal. apply MakeDay_congr; zdiv.
  - f_equal. rewrite (MakeDay_date _ _ 0).
    rewrite (MakeDay_congr _ ((getMonth d + a) mod 12 + 1) (getFullYear d)
               (getMonth d + a + 1)) by zdiv.
    lia.
Qed.

(** The first and the last midnight of the month of [d]. *)
Lemma month_of_date d :
  let f := fun m => MakeDay (getFullYear d) m 1 in
  newDate3 (getFullYear d) (getMonth d) 1 = f (getMonth d) * msPerDay
  /\ newDate3 (getFullYear d) (getMonth d + 1) 0 = (f (getMonth d + 1) - 1) * msPerDay.
Proof.
  cbv zeta. rewrite !newDate3_MakeDay, (MakeDay_date _ (getMonth d + 1) 0).
  split; [reflexivity | f_equal; lia].
Qed.

(** A month has from 28 to 31 days. *)
Lemma month_step y m : MakeDay y m 1 + 28 <= MakeDay y (m + 1) 1 <= MakeDay y m 1 + 31.
Proof.
  rewrite MakeDay_next_month.
  pose proof (DaysInMonth_bounds (y + m / 12) (m mod 12 + 1)). lia.
Qed.

(** A day cell of the grid holds a day number of the month. *)
Lemma dayRendered_bounds base d :
  List.existsb (fun c => match c with Some n => n =? d | None => false end)
               (buildDaysGrid base) = true ->
  1 <= d <= DaysInMonth (getFullYear base) (getMonth base + 1).
Proof.
  intros H. apply existsb_exists in H as (c & Hin & Hc).
  destruct c as [n |]; [| discriminate]. apply Z.eqb_eq in Hc. subst n.
  apply In_nth_error in Hin as (k & Hk).
  now destruct (grid_cell base k d Hk).
Qed.

(** What the enabled arrow to the previous month says about [minDate]. *)
Lemma canNavigatePrev_bound props st mn :
  minDate props = Some mn -> canNavigatePrev props st = true ->
  stripTime mn
  <= newDate3 (getFullYear (addMonths (displayDate st) (-1)))
              (getMonth (addMonths (displayDate st) (-1)) + 1) 0.
Proof.
  unfold canNavigatePrev, endOfMonth. intros ->. intros H. now apply Z.geb_le in H.
Qed.

(** What the enabled arrow to the next month says about [maxDate]. *)
Lemma canNavigateNext_bound props st mx :
  maxDate props = Some mx -> canNavigateNext props st = true ->
  newDate3 (getFullYear (addMonths (displayDate st) 1))
           (getMonth (addMonths (displayDate st) 1)) 1
  <= stripTime mx.
Proof.
  unfold canNavigateNext, startOfMonth. intros ->. intros H. now apply Z.leb_le in H.
Qed.

(** A rendered day is a day number of the displayed month. *)
Lemma dayRendered_within st d :
  dayRendered st d = true ->
  1 <= d <= DaysInMonth (getFullYear (displayDate st)) (getMonth (displayDate st) + 1).
Proof. unfold dayRendered. apply dayRendered_bounds. Qed.

(** An enabled arrow leads to a month that holds a day of the range. *)
Lemma navigate_keeps_open props st dir :
  displayedMonthOpen props st = true ->
  ((dir =? -1) && canNavigatePrev props st) || ((dir =? 1) && canNavigateNext props st)
  = true ->
  displayedMonthOpen props (navigateMonth st dir) = true.
Proof.
  unfold displayedMonthOpen, navigateMonth, rangeObj.
  intros Hopen Hguard.
  assert (Edd : displayDate (setDisplayDate st (addMonths (displayDate st) dir))
                = addMonths (displayDate st) dir) by (destruct st; reflexivity).
  rewrite Edd. clear Edd.
  pose proof (canNavigatePrev_bound props st) as HP.
  pose proof (canNavigateNext_bound props st) as HN.
  remember (displayDate st) as dd eqn:Edd. clear Edd.
  apply isMonthInRange_bounds in Hopen as (A & B & C). cbn [min max] in A, B, C.
  apply isMonthInRange_bounds. cbn [min max].
  destruct (month_of_date dd) as [F0 L0]. cbv zeta in F0, L0.
  rewrite F0 in B. rewrite L0 in A.
  destruct (month_of_addMonths dd dir) as (F1 & L1 & _). cbv zeta in F1, L1.
  rewrite F1, L1.
  apply orb_prop in Hguard as [Hg | Hg]; apply andb_prop in Hg as [Hd Hg];
    apply Z.eqb_eq in Hd; subst dir.
  - pose proof (month_step (getFullYear dd) (getMonth dd + -1)) as S1.
    replace (getMonth dd + -1 + 1) with (getMonth dd) in * by lia.
    split; [| split; [| exact C]].
    + intros mn Hmn. specialize (HP mn Hmn Hg). rewrite L1 in HP.
      replace (getMonth dd + -1 + 1) with (getMonth dd) in HP by lia. exact HP.
    + intros mx Hmx. specialize (B mx Hmx). unfold msPerDay in *. lia.
  - pose proof (month_step (getFullYear dd) (getMonth dd)) as S1.
    pose proof (month_step (getFullYear dd) (getMonth dd + 1)) as S2.
    split; [| split; [| exact C]].
    + intros mn Hmn. specialize (A mn Hmn). unfold msPerDay in *. lia.
    + intros mx Hmx. specialize (HN mx Hmx Hg). rewrite F1 in HN. exact HN.
Qed.

(** The fields of the day cell [d] of the displayed month. *)
Lemma fields_vis dd d :
  1 <= d <= DaysInMonth (getFullYear dd) (getMonth dd + 1) ->
  let vis := newDate5 (getFullYear dd) (getMonth dd) (NumberUtils.clamp d 1 31) 0 0 in
  vis = newDate3 (getFullYear dd) (getMonth dd) d
  /\ getFullYear vis = getFullYear dd /\ getMonth vis = getMonth dd
  /\ getDate vis = d /\ getHours vis = 0 /\ getMinutes vis = 0.
Proof.
  intros Hd. cbv zeta.
  pose proof (DaysInMonth_bounds (getFullYear dd) (getMonth dd + 1)) as Hb.
  destruct (date_fields_valid dd) as [HM _].
  replace (NumberUtils.clamp d 1 31) with d by (unfold NumberUtils.clamp; lia).
  split; [unfold newDate3; reflexivity |].
  apply fields_newDate5; lia.
Qed.

(** A day pick leaves the displayed month where it is. *)
Lemma handleDateSelect_display props st d :
  1 <= d <= DaysInMonth (getFullYear (displayDate st)) (getMonth (displayDate st) + 1) ->
  displayedMonthOpen props (handleDateSelect st d) = displayedMonthOpen props st.
Proof.
  intros Hd. unfold displayedMonthOpen, handleDateSelect.
  destruct (fields_vis (displayDate st) d Hd) as (_ & V1 & V2 & _). cbv zeta in V1, V2.
  assert (E : displayDate
                (setDraft
                   (setMinuteTouched
                      (setHourTouched
                         (setPicked
                            (setDisplayDate st
                               (startOfMonth
                                  (newDate5 (getFullYear (displayDate st))
                                     (getMonth (displayDate st))
                                     (NumberUtils.clamp d 1 31) 0 0)))
                            true false) false) false)
                   (newDate5 (getFullYear (displayDate st)) (getMonth (displayDate st))
                      (NumberUtils.clamp d 1 31) 0 0))
              = startOfMonth (newDate5 (getFullYear (displayDate st))
                                (getMonth (displayDate st))
                                (NumberUtils.clamp d 1 31) 0 0))
    by (destruct st; reflexivity).
  cbv zeta. rewrite E.
  destruct (fields_startOfMonth
              (newDate5 (getFullYear (displayDate st)) (getMonth (displayDate st))
                 (NumberUtils.clamp d 1 31) 0 0)) as (S1 & S2 & _).
  now rewrite S1, S2, V1, V2.
Qed.

(** A pick of a month in range displays a month in range. *)
Lemma handleMonthChange_display props st m0 :
  0 <= m0 <= 11 ->
  isMonthInRange (getFullYear (displayDate st)) m0 (rangeObj props) = true ->
  displayedMonthOpen props (handleMonthChange props st m0) = true.
Proof.
  intros Hm Hin. unfold displayedMonthOpen, handleMonthChange.
  destruct (isMonthDisabled props (getFullYear (displayDate st)) m0) eqn:D.
  - rewrite (month_in_range_enabled props _ _ Hin) in D. discriminate.
  - assert (E : forall a b,
              displayDate (setView (setDraft (setDisplayDate st a) b) ViewDate) = a)
      by (intros; destruct st; reflexivity).
    cbv zeta. rewrite E.
    destruct (fields_month_ends (getFullYear (displayDate st)) m0 Hm)
      as [(F1 & F2 & _) _]. cbv zeta in F1, F2.
    destruct (fields_startOfMonth (newDate3 (getFullYear (displayDate st)) m0 1))
      as (S1 & S2 & _).
    now rewrite S1, S2, F1, F2.
Qed.

(** X15.  When the displayed month holds a day of the range, it still
    does after an arrow navigation, a month pick, a day pick, an hour pick or
    a toggle of the view: the arrows and the month list never lead to a
    month wholly outside the range. *)
Theorem navigation_keeps_open_month (legacy : string -> option Z) (props : Props)
    (now : Date) (st : State) (ev : Event) :
  keepsYear ev ->
  displayedMonthOpen props st = true ->
  displayedMonthOpen props (fst (step legacy props now st ev)) = true.
Proof.
  intros Hev Hopen.
  assert (Hquiet : snd (dispatch legacy props now st ev) = None
                   /\ open (fst (dispatch legacy props now st ev)) = open st).
  { destruct ev; cbn [keepsYear] in Hev; try contradiction; unfold dispatch.
    5: { destruct (open st) eqn:E; cbn [fst snd]; (split; [reflexivity |]);
           [rewrite <- E; destruct st; reflexivity | exact E]. }
    all: match goal with |- context [if ?c then _ else _] => destruct c end;
      cbn [fst snd]; (split; [reflexivity |]);
      first [ reflexivity
            | apply setHour_frame
            | unfold handleMonthChange; break_if; destruct st; reflexivity
            | destruct st; reflexivity ]. }
  destruct Hquiet as [Hn Ho]. rewrite (step_quiet legacy props now st ev Hn Ho).
  cbn [fst]. clear Hn Ho.
  destruct ev; try destruct Hev; unfold dispatch.
  - (* day *)
    match goal with |- context [if ?c then _ else _] => destruct c eqn:G end;
      cbn [fst]; [| exact Hopen].
    apply andb_prop in G as [G _]. apply andb_prop in G as [_ G].
    rewrite handleDateSelect_display; [exact Hopen |].
    exact (dayRendered_within st dayNum G).
  - (* hour *)
    match goal with |- context [if ?c then _ else _] => destruct c eqn:G end;
      cbn [fst]; [| exact Hopen].
    unfold displayedMonthOpen in *.
    destruct (setHour_frame props st hour) as (_ & _ & -> & _). exact Hopen.
  - (* month *)
    match goal with |- context [if ?c then _ else _] => destruct c eqn:G end;
      cbn [fst]; [| exact Hopen].
    apply andb_prop in G as [G _]. apply andb_prop in G as [_ G].
    unfold memZ in G. apply existsb_exists in G as (x & Hin & Hx).
    apply Z.eqb_eq in Hx. subst x.
    unfold monthOptions in Hin. apply filter_In in Hin as [Hr Hin].
    apply range_spec in Hr. apply handleMonthChange_display; [lia | exact Hin].
  - (* navigate *)
    match goal with |- context [if ?c then _ else _] => destruct c eqn:G end;
      cbn [fst]; [| exact Hopen].
    apply andb_prop in G as [_ G]. now apply navigate_keeps_open.
  - (* toggle *)
    destruct (open st); cbn [fst]; [| exact Hopen].
    unfold displayedMonthOpen, toggleView in *. destruct st; exact Hopen.
Qed.

(** ** Changes of month and year *)

(** A date built on a day number beyond the end of its month lies in the
    month after. *)
Lemma newDate5_overflow y m0 d h mi :
  0 <= m0 <= 11 -> DaysInMonth y (m0 + 1) < d <= 31 ->
  newDate5 y m0 d h mi
  = newDate5 (y + (m0 + 1) / 12) ((m0 + 1) mod 12) (d - DaysInMonth y (m0 + 1)) h mi.
Proof.
  intros Hm Hd. unfold newDate5. f_equal.
  rewrite <- (MakeDay_normal y (m0 + 1)).
  rewrite (MakeDay_date y m0 d), (MakeDay_date y (m0 + 1) (d - _)).
  rewrite MakeDay_next_month.
  rewrite Z.div_small, Z.mod_small by lia.
  replace (y + 0) with y by lia. lia.
Qed.

(** The fields of the draft that a change of month or year builds from the
    day number and the time of the draft before. *)
Lemma fields_carried y m0 prev :
  0 <= m0 <= 11 ->
  let next := newDate5 y m0 (getDate prev) (getHours prev) (getMinutes prev) in
  let dim := DaysInMonth y (m0 + 1) in
  getHours next = getHours prev /\ getMinutes next = getMinutes prev
  /\ (getDate prev <= dim ->
      getFullYear next = y /\ getMonth next = m0 /\ getDate next = getDate prev)
  /\ (dim < getDate prev ->
      getFullYear next = y + (m0 + 1) / 12 /\ getMonth next = (m0 + 1) mod 12
      /\ getDate next = getDate prev - dim).
Proof.
  intros Hm. cbv zeta.
  destruct (date_fields_valid prev) as [_ HD].
  pose proof (DaysInMonth_bounds (getFullYear prev) (getMonth prev + 1)) as HB.
  pose proof (DaysInMonth_bounds y (m0 + 1)) as Hb.
  pose proof (getHours_range prev) as Hh.
  pose proof (getMinutes_range prev) as Hmi.
  split; [apply getHours_newDate5; assumption |].
  split; [apply getMinutes_newDate5; assumption |].
  split.
  - intros Hle.
    destruct (fields_newDate5 y m0 (getDate prev) (getHours prev) (getMinutes prev)
                Hm ltac:(lia) Hh Hmi) as (F1 & F2 & F3 & _).
    auto.
  - intros Hgt. rewrite newDate5_overflow by lia.
    assert (Hm' : 0 <= (m0 + 1) mod 12 <= 11) by zdiv.
    pose proof (DaysInMonth_bounds (y + (m0 + 1) / 12) ((m0 + 1) mod 12 + 1)) as Hb'.
    destruct (fields_newDate5 (y + (m0 + 1) / 12) ((m0 + 1) mod 12)
                (getDate prev - DaysInMonth y (m0 + 1)) (getHours prev) (getMinutes prev)
                Hm' ltac:(lia) Hh Hmi) as (F1 & F2 & F3 & _).
    auto.
Qed.

(** X16.  A pick of an enabled month [m0] shows the first of that month
    in the date view and rebuilds the draft in month [m0] of the displayed
    year with the draft's day, hour and minute, leaving the value and the
    flags alone; when the draft's day number exceeds the length of month
    [m0], the draft overflows into the month after it. *)
Theorem month_change_carries_draft (props : Props) (st : State) (m0 : Z) :
  0 <= m0 <= 11 ->
  isMonthDisabled props (getFullYear (displayDate st)) m0 = false ->
  let st' := handleMonthChange props st m0 in
  let y := getFullYear (displayDate st) in
  let dim := DaysInMonth y (m0 + 1) in
  (displayDate st' = newDate3 y m0 1 /\ view st' = ViewDate)
  /\ (open st' = open st /\ value st' = value st
      /\ picked_date st' = picked_date st /\ picked_time st' = picked_time st
      /\ hourTouched st' = hourTouched st /\ minuteTouched st' = minuteTouched st)
  /\ (getHours (draft st') = getHours (draft st)
      /\ getMinutes (draft st') = getMinutes (draft st))
  /\ (getDate (draft st) <= dim ->
      getFullYear (draft st') = y /\ getMonth (draft st') = m0
      /\ getDate (draft st') = getDate (draft st))
  /\ (dim < getDate (draft st) ->
      getFullYear (draft st') = y + (m0 + 1) / 12
      /\ getMonth (draft st') = (m0 + 1) mod 12
      /\ getDate (draft st') = getDate (draft st) - dim).
Proof.
  intros Hm Hen. cbv zeta.
  destruct (fields_month_ends (getFullYear (displayDate st)) m0 Hm)
    as [(F1 & F2 & _) _]. cbv zeta in F1, F2.
  assert (Est : handleMonthChange props st m0
    = mkState (open st) ViewDate (newDate3 (getFullYear (displayDate st)) m0 1)
        (newDate5 (getFullYear (displayDate st)) m0 (getDate (draft st))
           (getHours (draft st)) (getMinutes (draft st)))
        (picked_date st) (picked_time st) (hourTouched st) (minuteTouched st) (value st)).
  { unfold handleMonthChange. rewrite Hen. cbv zeta.
    unfold startOfMonth. rewrite F1, F2.
    destruct st; proj_state; reflexivity. }
  rewrite Est. cbn [displayDate view open value picked_date picked_time hourTouched
                    minuteTouched draft].
  split; [split; reflexivity |].
  split; [repeat split; reflexivity |].
  pose proof (fields_carried (getFullYear (displayDate st)) m0 (draft st) Hm) as H.
  cbv zeta in H. destruct H as (H1 & H2 & H3 & H4).
  split; [split; assumption |]. split; assumption.
Qed.

(** X17.  A pick of a year shows the first of the displayed month in
    that year, keeps the view, and rebuilds the draft in that year and the
    displayed month with the draft's day, hour and minute, leaving the value
    and the flags alone; a day number beyond the length of that month
    overflows into the month after it. *)
Theorem year_change_carries_draft (st : State) (year : Z) :
  let st' := handleYearChange st year in
  let m0 := getMonth (displayDate st) in
  let dim := DaysInMonth year (m0 + 1) in
  (displayDate st' = newDate3 year m0 1 /\ view st' = view st)
  /\ (open st' = open st /\ value st' = value st
      /\ picked_date st' = picked_date st /\ picked_time st' = picked_time st
      /\ hourTouched st' = hourTouched st /\ minuteTouched st' = minuteTouched st)
  /\ (getHours (draft st') = getHours (draft st)
      /\ getMinutes (draft st') = getMinutes (draft st))
  /\ (getDate (draft st) <= dim ->
      getFullYear (draft st') = year /\ getMonth (draft st') = m0
      /\ getDate (draft st') = getDate (draft st))
  /\ (dim < getDate (draft st) ->
      getFullYear (draft st') = year + (m0 + 1) / 12
      /\ getMonth (draft st') = (m0 + 1) mod 12
      /\ getDate (draft st') = getDate (draft st) - dim).
Proof.
  cbv zeta.
  destruct (date_fields_valid (displayDate st)) as [Hm _].
  destruct (fields_month_ends year (getMonth (displayDate st)) Hm)
    as [(F1 & F2 & _) _]. cbv zeta in F1, F2.
  assert (Est : handleYearChange st year
    = mkState (open st) (view st) (newDate3 year (getMonth (displayDate st)) 1)
        (newDate5 year (getMonth (displayDate st)) (getDate (draft st))
           (getHours (draft st)) (getMinutes (draft st)))
        (picked_date st) (picked_time st) (hourTouched st) (minuteTouched st) (value st)).
  { unfold handleYearChange. cbv zeta.
    unfold startOfMonth. rewrite F1, F2.
    destruct st; proj_state; reflexivity. }
  rewrite Est. cbn [displayDate view open value picked_date picked_time hourTouched
                    minuteTouched draft].
  split; [split; reflexivity |].
  split; [repeat split; reflexivity |].
  pose proof (fields_carried year (getMonth (displayDate st)) (draft st) Hm) as H.
  cbv zeta in H. destruct H as (H1 & H2 & H3 & H4).
  split; [split; assumption |]. split; assumption.
Qed.

(* ================================================================== *)
(** * Picks and commits                                                *)
(* ================================================================== *)

(** ** Day, hour, minute *)

(** What a pick of a rendered day does to the local state. *)
Lemma handleDateSelect_state st d :
  1 <= d <= DaysInMonth (getFullYear (displayDate st)) (getMonth (displayDate st) + 1) ->
  handleDateSelect st d
  = mkState (open st) (view st)
      (newDate3 (getFullYear (displayDate st)) (getMonth (displayDate st)) 1)
      (newDate3 (getFullYear (displayDate st)) (getMonth (displayDate st)) d)
      true false false false (value st).
Proof.
  intros Hd. unfold handleDateSelect. cbv zeta.
  destruct (fields_vis (displayDate st) d Hd) as (Ev & V1 & V2 & _). cbv zeta in Ev, V1, V2.
  unfold startOfMonth. rewrite V1, V2, Ev.
  destruct st; proj_state; reflexivity.
Qed.

(** X18.  A click on an enabled day cell of the open date view commits
    nothing: it puts the draft at 00:00 of that day of the displayed month,
    marks the date as picked and the time as not picked, clears both touched
    flags, and leaves the value, the view and the open flag alone; the draft
    passes the day checks. *)
Theorem day_click_sets_draft (legacy : string -> option Z) (props : Props)
    (now : Date) (st : State) (d : Z) :
  open st = true -> view st = ViewDate -> dayRendered st d = true ->
  isDayDisabled props
    (newDate3 (getFullYear (displayDate st)) (getMonth (displayDate st)) d) = false ->
  let st' := fst (step legacy props now st (EvDayClick d)) in
  let y := getFullYear (displayDate st) in
  let m0 := getMonth (displayDate st) in
  snd (step legacy props now st (EvDayClick d)) = None
  /\ 1 <= d <= DaysInMonth y (m0 + 1)
  /\ draft st' = newDate3 y m0 d
  /\ (getFullYear (draft st') = y /\ getMonth (draft st') = m0
      /\ getDate (draft st') = d /\ getHours (draft st') = 0
      /\ getMinutes (draft st') = 0)
  /\ displayDate st' = newDate3 y m0 1
  /\ (picked_date st' = true /\ picked_time st' = false
      /\ hourTouched st' = false /\ minuteTouched st' = false)
  /\ (value st' = value st /\ open st' = true /\ view st' = ViewDate)
  /\ isDayDisabled props (draft st') = false
  /\ isDateInRange (draft st') (rangeObj props) true = true.
Proof.
  intros Ho Hv Hr Hen. cbv zeta.
  pose proof (dayRendered_within st d Hr) as Hd.
  assert (Hstep : step legacy props now st (EvDayClick d) = (handleDateSelect st d, None)).
  { rewrite step_quiet; unfold dispatch; rewrite Ho, Hv, Hr, Hen; cbn [andb negb viewEqb fst snd];
      try reflexivity.
    rewrite handleDateSelect_state by exact Hd. exact Ho. }
  rewrite Hstep, handleDateSelect_state by exact Hd.
  cbn [fst snd draft displayDate picked_date picked_time hourTouched minuteTouched
       value open view].
  destruct (fields_vis (displayDate st) d Hd) as (Ev & V1 & V2 & V3 & V4 & V5).
  cbv zeta in Ev, V1, V2, V3, V4, V5. rewrite Ev in V1, V2, V3, V4, V5.
  split; [reflexivity |]. split; [exact Hd |]. split; [reflexivity |].
  split; [repeat split; assumption |]. split; [reflexivity |].
  split; [repeat split; reflexivity |].
  split; [repeat split; assumption |].
  split; [exact Hen |].
  revert Hen. unfold isDayDisabled, DateUtils.isDayDisabled.
  destruct (match disabledDates props with Some p => p _ | None => false end);
    [discriminate |].
  destruct (isDateInRange _ (rangeObj props) true); [reflexivity | discriminate].
Qed.

(** A session runs its first event, then the rest. *)
Lemma run_cons legacy props st now ev rest :
  run legacy props st ((now, ev) :: rest)
  = (fst (run legacy props (fst (step legacy props now st ev)) rest),
     match snd (step legacy props now st ev) with
     | Some v => v :: snd (run legacy props (fst (step legacy props now st ev)) rest)
     | None => snd (run legacy props (fst (step legacy props now st ev)) rest)
     end).
Proof.
  cbn [run]. destruct (step legacy props now st ev) as [s1 em]. cbn [fst snd].
  destruct (run legacy props s1 rest) as [s2 out]. reflexivity.
Qed.

(** [memZ] is membership. *)
Lemma memZ_In x l : memZ x l = true <-> In x l.
Proof.
  unfold memZ. rewrite existsb_exists. split.
  - intros (y & Hy & E). apply Z.eqb_eq in E. now subst.
  - intros H. exists x. split; [exact H | apply Z.eqb_refl].
Qed.

(** A minute of the list is a multiple of the step from 0 to 59. *)
Lemma minuteOptions_bound props m :
  In m (minuteOptions props) -> 1 <= minuteStep props /\ 0 <= m <= 59
                                /\ m mod minuteStep props = 0.
Proof.
  unfold minuteOptions. rewrite in_map_iff. intros (i & <- & Hi).
  assert (Hs : 1 <= minuteStep props).
  { unfold minuteIndices in Hi. apply range_spec in Hi.
    destruct (Z.le_gt_cases 1 (minuteStep props)) as [H | H]; [exact H | exfalso].
    destruct (Z.eq_dec (minuteStep props) 0) as [E | E].
    - rewrite E in Hi. cbn in Hi. lia.
    - assert (60 / minuteStep props <= 0); [| lia].
      pose proof (Z.div_mod 60 (minuteStep props) E) as Hdm.
      pose proof (Z.mod_neg_bound 60 (minuteStep props) ltac:(lia)) as Hr.
      nia. }
  pose proof (minuteIndices_bound props i Hs Hi) as Hb.
  split; [exact Hs |]. split; [lia | apply Z.mod_mul; lia].
Qed.

(** What a pick of an hour that is not rejected does to the local state. *)
Lemma setHour_state props st h :
  0 <= h <= 23 -> isDateInRange (draft st) (rangeObj props) true = true ->
  setHour props st h
  = mkState (open st) (view st) (displayDate st)
      (newDate5 (getFullYear (draft st)) (getMonth (draft st)) (getDate (draft st)) h 0)
      true false true false (value st).
Proof.
  intros Hh Hin. unfold setHour. cbv zeta.
  replace (NumberUtils.clamp h 0 23) with h by (unfold NumberUtils.clamp; lia).
  rewrite probe_on_draft_day by lia. rewrite Hin. cbn [negb].
  destruct st; proj_state; reflexivity.
Qed.

(** What a pick of a minute that is not rejected commits. *)
Lemma setMinute_emits props st m :
  0 <= m <= 59 -> isDateInRange (draft st) (rangeObj props) true = true ->
  snd (setMinute props st m)
  = Some (encode (valueAs props)
            (newDate5 (getFullYear (draft st)) (getMonth (draft st)) (getDate (draft st))
                      (getHours (draft st)) m)).
Proof.
  intros Hm Hin. unfold setMinute. cbv zeta.
  replace (NumberUtils.clamp m 0 59) with m by (unfold NumberUtils.clamp; lia).
  pose proof (getHours_range (draft st)) as Hh.
  rewrite probe_on_draft_day by lia. rewrite Hin. cbn [negb snd].
  unfold commitIfComplete. rewrite orb_true_r. unfold commit.
  rewrite (isDateInRange_same_day _ (draft st)) by (apply Day_rebuild; lia).
  rewrite Hin. cbn [negb]. unfold encode. reflexivity.
Qed.

(** The fields of a date built from a month index 0..11 and a day of that month. *)
Lemma fields_newDate3 y m0 d :
  0 <= m0 <= 11 -> 1 <= d <= DaysInMonth y (m0 + 1) ->
  getFullYear (newDate3 y m0 d) = y /\ getMonth (newDate3 y m0 d) = m0
  /\ getDate (newDate3 y m0 d) = d.
Proof.
  intros Hm Hd. unfold newDate3.
  destruct (fields_newDate5 y m0 d 0 0 Hm Hd ltac:(lia) ltac:(lia)) as (A & B & C & _).
  auto.
Qed.

(** X19.  Picking an enabled day, then an hour that is not wholly
    disabled, then an enabled minute of the list commits exactly once: the
    instant of that day of the displayed month at that hour and minute,
    encoded as [valueAs] says; it becomes the value of the field and passes
    the day-level range check. *)
Theorem pick_sequence_commits (legacy : string -> option Z) (props : Props)
    (n1 n2 n3 : Date) (st : State) (d h m : Z) :
  let y := getFullYear (displayDate st) in
  let m0 := getMonth (displayDate st) in
  let st1 := handleDateSelect st d in
  let st2 := setHour props st1 h in
  open st = true -> view st = ViewDate -> dayRendered st d = true ->
  isDayDisabled props (newDate3 y m0 d) = false ->
  0 <= h <= 23 -> isHourCompletelyDisabled props st1 h = false ->
  In m (minuteOptions props) -> isMinuteDisabled props st2 m = false ->
  let session := [(n1, EvDayClick d); (n2, EvHourClick h); (n3, EvMinuteClick m)] in
  let target := newDate5 y m0 d h m in
  snd (run legacy props st session) = [encode (valueAs props) target]
  /\ value (fst (run legacy props st session)) = encode (valueAs props) target
  /\ (getFullYear target = y /\ getMonth target = m0 /\ getDate target = d
      /\ getHours target = h /\ getMinutes target = m)
  /\ isDateInRange target (rangeObj props) true = true.
Proof.
  cbv zeta. intros Ho Hv Hr Hen Hh Hhour Hm Hmin.
  pose proof (dayRendered_within st d Hr) as Hd.
  destruct (minuteOptions_bound props m Hm) as (Hs & Hm59 & _).
  destruct (date_fields_valid (displayDate st)) as [HM0 _].
  remember (getFullYear (displayDate st)) as y eqn:Ey.
  remember (getMonth (displayDate st)) as m0 eqn:Em0.
  (* the day *)
  assert (Hin : isDateInRange (newDate3 y m0 d) (rangeObj props) true = true).
  { revert Hen. unfold isDayDisabled, DateUtils.isDayDisabled.
    destruct (match disabledDates props with Some p => p _ | None => false end);
      [discriminate |].
    destruct (isDateInRange _ (rangeObj props) true); [reflexivity | discriminate]. }
  assert (E1 : handleDateSelect st d
               = mkState (open st) (view st) (newDate3 y m0 1) (newDate3 y m0 d)
                         true false false false (value st))
    by (subst y m0; apply handleDateSelect_state; exact Hd).
  assert (Hstep1 : step legacy props n1 st (EvDayClick d) = (handleDateSelect st d, None)).
  { rewrite step_quiet; unfold dispatch; rewrite <- Ey, <- Em0, Ho, Hv, Hr, Hen;
      cbn [andb negb viewEqb fst snd]; try reflexivity.
    rewrite E1. exact Ho. }
  rewrite E1 in Hhour, Hmin, Hstep1. clear E1.
  remember (mkState (open st) (view st) (newDate3 y m0 1) (newDate3 y m0 d)
                    true false false false (value st)) as st1 eqn:Est1.
  assert (Hd1 : draft st1 = newDate3 y m0 d) by (rewrite Est1; reflexivity).
  assert (Ho1 : open st1 = true) by (rewrite Est1; exact Ho).
  clear Est1.
  destruct (fields_newDate3 y m0 d HM0 Hd) as (A1 & A2 & A3).
  (* the hour *)
  assert (Hstep2 : step legacy props n2 st1 (EvHourClick h) = (setHour props st1 h, None)).
  { rewrite step_hour, Ho1, Hhour.
    rewrite (proj2 (memZ_In h (NumberUtils.range 24))) by (apply range_spec; lia).
    reflexivity. }
  assert (Hin1 : isDateInRange (draft st1) (rangeObj props) true = true)
    by (rewrite Hd1; exact Hin).
  assert (E2 : setHour props st1 h
               = mkState (open st1) (view st1) (displayDate st1) (newDate5 y m0 d h 0)
                         true false true false (value st1)).
  { rewrite (setHour_state props st1 h Hh Hin1). now rewrite Hd1, A1, A2, A3. }
  rewrite E2 in Hmin, Hstep2. clear E2.
  remember (mkState (open st1) (view st1) (displayDate st1) (newDate5 y m0 d h 0)
                    true false true false (value st1)) as st2 eqn:Est2.
  assert (Hd2 : draft st2 = newDate5 y m0 d h 0) by (rewrite Est2; reflexivity).
  assert (Ho2 : open st2 = true) by (rewrite Est2; exact Ho1).
  clear Est2.
  destruct (fields_newDate5 y m0 d h 0 HM0 Hd Hh ltac:(lia)) as (B1 & B2 & B3 & B4 & _).
  destruct (fields_newDate5 y m0 d h m HM0 Hd Hh Hm59) as (C1 & C2 & C3 & C4 & C5).
  assert (Hsame : forall a b, 0 <= a <= 23 -> 0 <= b <= 59 ->
            isDateInRange (newDate5 y m0 d a b) (rangeObj props) true = true).
  { intros a b Ha Hb.
    rewrite (isDateInRange_same_day _ (newDate3 y m0 d)); [exact Hin |].
    unfold newDate3. rewrite !Day_newDate5 by lia. reflexivity. }
  assert (Hin2 : isDateInRange (draft st2) (rangeObj props) true = true)
    by (rewrite Hd2; apply Hsame; lia).
  (* the minute *)
  assert (Hem : snd (step legacy props n3 st2 (EvMinuteClick m))
                = Some (encode (valueAs props) (newDate5 y m0 d h m))).
  { rewrite step_emitted. unfold dispatch.
    rewrite Ho2, Hmin, (proj2 (memZ_In m (minuteOptions props)) Hm).
    cbn [andb negb]. rewrite (setMinute_emits props st2 m Hm59 Hin2).
    now rewrite Hd2, B1, B2, B3, B4. }
  split; [| split; [| split]].
  - rewrite run_cons, Hstep1. cbn [fst snd].
    rewrite run_cons, Hstep2. cbn [fst snd].
    rewrite run_cons, Hem. reflexivity.
  - rewrite run_cons, Hstep1. cbn [fst snd].
    rewrite run_cons, Hstep2. cbn [fst snd].
    rewrite run_cons. cbn [fst snd run].
    rewrite step_value, Hem. reflexivity.
  - repeat split; assumption.
  - apply Hsame; lia.
Qed.

(** A date built from fields up to the minute has no seconds and no milliseconds. *)
Lemma seconds_newDate5 y m d h mi :
  0 <= h <= 23 -> 0 <= mi <= 59 ->
  getSeconds (newDate5 y m d h mi) = 0 /\ getMilliseconds (newDate5 y m d h mi) = 0.
Proof.
  intros Hh Hm. unfold newDate5, MakeDate, MakeTime, getSeconds, getMilliseconds.
  generalize (MakeDay y m d). intros k.
  unfold msPerDay, msPerHour, msPerMinute, msPerSecond. split; zdiv.
Qed.

(** X20.  Whatever event makes the picker commit, it is the clear button
    committing undefined, or a click on a minute of the list: the commit is
    then on the draft's day and hour, at that minute, a multiple of the
    step, with seconds and milliseconds zero, and passes the day-level range
    check. *)
Theorem commit_on_step_grid (legacy : string -> option Z) (props : Props)
    (now : Date) (st : State) (ev : Event) (v : FieldValue) :
  snd (step legacy props now st ev) = Some v ->
  (ev = EvClear /\ v = VUndefined)
  \/ exists m t,
       ev = EvMinuteClick m /\ v = encode (valueAs props) t
       /\ In m (minuteOptions props) /\ m mod minuteStep props = 0
       /\ isMinuteDisabled props st m = false
       /\ Day t = Day (draft st) /\ getHours t = getHours (draft st)
       /\ getMinutes t = m /\ getSeconds t = 0 /\ getMilliseconds t = 0
       /\ isDateInRange t (rangeObj props) true = true.
Proof.
  rewrite step_emitted. intros H.
  destruct ev; unfold dispatch in H;
    try (match type of H with context [if ?c then _ else _] => destruct c eqn:G end);
    cbn [snd] in H; try discriminate.
  - (* minute *)
    right. apply andb_prop in G as [G Hfree]. apply andb_prop in G as [_ Hopt].
    apply memZ_In in Hopt. apply negb_true_iff in Hfree.
    destruct (minuteOptions_bound props minute Hopt) as (Hs & Hm & Hmod).
    pose proof (getHours_range (draft st)) as Hh.
    unfold setMinute in H. cbv zeta in H.
    replace (NumberUtils.clamp minute 0 59) with minute in H
      by (unfold NumberUtils.clamp; lia).
    match type of H with context [if ?c then _ else _] => destruct c eqn:D end;
      cbn [snd] in H; [discriminate |].
    unfold commitIfComplete in H. rewrite orb_true_r in H.
    apply commit_guarded in H as [Hin ->].
    destruct (fields_rebuild (draft st) (getHours (draft st)) minute Hh Hm)
      as (_ & _ & _ & F4 & F5). cbv zeta in F4, F5.
    destruct (seconds_newDate5 (getFullYear (draft st)) (getMonth (draft st))
                (getDate (draft st)) (getHours (draft st)) minute Hh Hm) as [S1 S2].
    exists minute. eexists. split; [reflexivity |]. split; [reflexivity |].
    split; [exact Hopt |]. split; [exact Hmod |]. split; [exact Hfree |].
    split; [apply Day_rebuild; assumption |].
    repeat split; assumption.
  - (* clear *)
    left. unfold clear, commit in H. injection H as <-. split; reflexivity.
Qed.

(** ** The time requirement *)

(** X21.  The [requireTime] prop does not enter what is committed: with
    it on or off every event commits the same value, and a day click commits
    nothing even when no time is required. *)
Theorem requireTime_not_in_commit (legacy : string -> option Z) (props : Props)
    (b : bool) (now : Date) (st : State) (ev : Event) :
  snd (step legacy (withRequireTime props b) now st ev) = snd (step legacy props now st ev)
  /\ forall d, snd (step legacy (withRequireTime props false) now st (EvDayClick d)) = None.
Proof.
  assert (Hgen : forall b' e,
            snd (dispatch legacy (withRequireTime props b') now st e)
            = snd (dispatch legacy props now st e)).
  { intros b' e. destruct e; unfold dispatch;
      try (repeat match goal with |- context [if ?c then _ else _] => destruct c end;
           cbn [snd]; exact eq_refl).
    - (* minute *)
      assert (E1 : minuteOptions (withRequireTime props b') = minuteOptions props)
        by reflexivity.
      assert (E2 : isMinuteDisabled (withRequireTime props b') st minute
                   = isMinuteDisabled props st minute) by reflexivity.
      rewrite E1, E2.
      destruct (open st && memZ minute (minuteOptions props)
                && negb (isMinuteDisabled props st minute)); [| reflexivity].
      unfold setMinute. cbv zeta.
      assert (E3 : forall x, isDateTimeDisabled (withRequireTime props b') x
                             = isDateTimeDisabled props x) by reflexivity.
      rewrite E3.
      match goal with |- context [if ?c then _ else _] => destruct c end;
        cbn [snd]; [exact eq_refl |].
      unfold commitIfComplete. rewrite !orb_true_r. exact eq_refl.
    - (* clear *)
      assert (E : forall s, selected legacy s = selected legacy s) by reflexivity.
      unfold withRequireTime. cbn [withClearButton disabled].
      destruct (withClearButton props && isSome (selected legacy st)
                && negb (disabled props)); cbn [snd]; exact eq_refl. }
  split; [rewrite !step_emitted; apply Hgen |].
  intros d. rewrite step_emitted. unfold dispatch.
  match goal with |- context [if ?c then _ else _] => destruct c end;
    cbn [snd]; exact eq_refl.
Qed.

(** ** Hours against minutes *)

(** The scan of a whole hour, as a conjunction over the minute indices. *)
Lemma scanAll_forallb props st h idx :
  scanAll props st h idx
  = List.forallb (fun i => probeDisabled props (draft st) h (i * minuteStep props)) idx.
Proof.
  induction idx as [| i rest IH]; [reflexivity |].
  cbn [scanAll List.forallb]. rewrite IH. unfold probeDisabled.
  now destruct (isDateTimeDisabled props _).
Qed.

(** The scan of the hour of the lower bound: the minutes from the floor on. *)
Lemma scanFrom_forallb props st h fl idx :
  scanFrom props st h fl idx
  = List.forallb (fun i => (i * minuteStep props <? fl)
                           || probeDisabled props (draft st) h (i * minuteStep props)) idx.
Proof.
  induction idx as [| i rest IH]; [reflexivity |].
  cbn [scanFrom List.forallb]. rewrite IH. unfold probeDisabled.
  destruct (i * minuteStep props <? fl); [reflexivity |].
  now destruct (isDateTimeDisabled props _).
Qed.

(** [forallb] over a mapped list. *)
Lemma forallb_map_comp {A B} (f : B -> bool) (g : A -> B) l :
  List.forallb f (List.map g l) = List.forallb (fun x => f (g x)) l.
Proof. induction l as [| a l IH]; cbn; [reflexivity | now rewrite IH]. Qed.

(** [forallb] of two predicates that agree everywhere. *)
Lemma forallb_pointwise {A} (f g : A -> bool) l :
  (forall x, f x = g x) -> List.forallb f l = List.forallb g l.
Proof.
  intros H. induction l as [| a l IH]; cbn; [reflexivity | now rewrite H, IH].
Qed.

(** The minute check once the hour [h] is picked on the draft's day. *)
Lemma isMinuteDisabled_atHour props st h m :
  0 <= h <= 23 ->
  isMinuteDisabled props (atHour st h) m
  = match getLowerBoundForDraft props st with
    | Some lower => (h =? minHour lower) && (m <? minMinuteStepAligned lower)
    | None => false
    end || probeDisabled props (draft st) h m.
Proof.
  intros Hh.
  destruct (fields_rebuild (draft st) h 0 Hh ltac:(lia)) as (F1 & F2 & F3 & F4 & _).
  cbv zeta in F1, F2, F3, F4.
  assert (Ed : draft (atHour st h)
               = newDate5 (getFullYear (draft st)) (getMonth (draft st))
                          (getDate (draft st)) h 0)
    by (unfold atHour; destruct st; reflexivity).
  assert (El : getLowerBoundForDraft props (atHour st h) = getLowerBoundForDraft props st).
  { unfold getLowerBoundForDraft, isSameDay. now rewrite Ed, F1, F2, F3. }
  unfold isMinuteDisabled, probeDisabled. rewrite El, Ed, F1, F2, F3, F4.
  destruct (getLowerBoundForDraft props st) as [lower |]; cbn [orb]; [| reflexivity].
  now destruct ((h =? minHour lower) && (m <? minMinuteStepAligned lower)).
Qed.

(** X22.  For an hour from 0 to 23, [isHourCompletelyDisabled] agrees
    with the minute column: off the day of [minDate], and on it from the
    hour of [minDate] on, the hour is reported disabled exactly when every
    minute of the list would be disabled once that hour is picked; below
    the hour of [minDate] on its day the hour is disabled outright. *)
Theorem hour_disabled_iff_minutes (props : Props) (st : State) (h : Z) :
  0 <= h <= 23 ->
  let allMinutes :=
    List.forallb (isMinuteDisabled props (atHour st h)) (minuteOptions props) in
  match getLowerBoundForDraft props st with
  | Some lower =>
      minMinuteStepAligned lower <= 59
      /\ (h < minHour lower -> isHourCompletelyDisabled props st h = true)
      /\ (minHour lower <= h -> isHourCompletelyDisabled props st h = allMinutes)
  | None => isHourCompletelyDisabled props st h = allMinutes
  end.
Proof.
  intros Hh. cbv zeta.
  assert (Hall : List.forallb (isMinuteDisabled props (atHour st h)) (minuteOptions props)
                 = List.forallb
                     (fun i => match getLowerBoundForDraft props st with
                               | Some lower =>
                                   (h =? minHour lower)
                                   && (i * minuteStep props <? minMinuteStepAligned lower)
                               | None => false
                               end
                               || probeDisabled props (draft st) h (i * minuteStep props))
                     (minuteIndices props)).
  { unfold minuteOptions. rewrite forallb_map_comp. apply forallb_pointwise.
    intros i. apply isMinuteDisabled_atHour. exact Hh. }
  rewrite Hall. unfold isHourCompletelyDisabled.
  rewrite scanAll_forallb.
  destruct (getLowerBoundForDraft props st) as [lower |] eqn:El.
  - assert (Hal : minMinuteStepAligned lower <= 59).
    { unfold getLowerBoundForDraft in El.
      destruct (minDate props) as [mn |]; [| discriminate].
      destruct (negb (isSameDay (draft st) mn)); [discriminate |].
      injection El as <-. cbn [minMinuteStepAligned]. unfold roundUpToStep. lia. }
    split; [exact Hal |]. split.
    + intros Hlt. destruct (Z.ltb_spec h (minHour lower)); [reflexivity | lia].
    + intros Hge. destruct (Z.ltb_spec h (minHour lower)); [lia |].
      destruct (Z.eqb_spec h (minHour lower)) as [E | E].
      * destruct (Z.gtb_spec (minMinuteStepAligned lower) 59); [lia |].
        rewrite scanFrom_forallb. reflexivity.
      * reflexivity.
  - reflexivity.
Qed.

(** X23.  With a minute step above 60 the minute list is empty, every
    hour is reported wholly disabled, and no event but clear commits: no
    date and time can be chosen. *)
Theorem step_over_60_blocks (legacy : string -> option Z) (props : Props)
    (st : State) :
  60 < minuteStep props ->
  minuteOptions props = []
  /\ (forall h, isHourCompletelyDisabled props st h = true)
  /\ (forall now ev v, snd (step legacy props now st ev) = Some v ->
        ev = EvClear /\ v = VUndefined).
Proof.
  intros Hs.
  assert (Hidx : minuteIndices props = []).
  { unfold minuteIndices. rewrite Z.div_small by lia. reflexivity. }
  assert (Hopt : minuteOptions props = []) by (unfold minuteOptions; now rewrite Hidx).
  split; [exact Hopt |]. split.
  - intros h. unfold isHourCompletelyDisabled. rewrite Hidx. cbn [scanAll scanFrom].
    destruct (getLowerBoundForDraft props st) as [lower |]; [| reflexivity].
    destruct (h <? minHour lower); [reflexivity |].
    destruct (h =? minHour lower); [| reflexivity].
    now destruct (minMinuteStepAligned lower >? 59).
  - intros now ev v H. rewrite step_emitted in H.
    pose proof H as H'.
    apply dispatch_emits in H' as [(m & d & -> & _) | H']; [| exact H'].
    exfalso. revert H. unfold dispatch.
    rewrite Hopt. cbn [memZ List.existsb]. rewrite andb_false_r. cbn [andb snd].
    discriminate.
Qed.

(** ** The error shown *)

(** An instant below another whose day is not after its own lies on the same day. *)
Lemma same_day_of_bounds a b : stripTime a <= stripTime b -> b < a -> Day a = Day b.
Proof.
  rewrite !stripTime_Day. unfold Day, msPerDay. zdiv.
Qed.

(** X24.  A selected value that passes the day-level range check and
    still shows the too-early error lies on the day of [minDate] before its
    time of day, and one that shows the too-late error lies on the day of
    [maxDate] after its time of day; with [minDate] at midnight the
    too-early error cannot show. *)
Theorem range_error_on_boundary_day (legacy : string -> option Z) (props : Props)
    (st : State) (sel : Date) :
  selected legacy st = Some sel ->
  isDateInRange sel (rangeObj props) true = true ->
  (localError legacy props st = Some TooEarly ->
     exists mn, minDate props = Some mn /\ Day sel = Day mn /\ sel < mn)
  /\ (localError legacy props st = Some TooLate ->
        exists mx, maxDate props = Some mx /\ Day sel = Day mx /\ mx < sel)
  /\ ((forall mn, minDate props = Some mn -> stripTime mn = mn) ->
      localError legacy props st <> Some TooEarly).
Proof.
  intros Hsel Hin. unfold rangeObj in Hin.
  apply isDateInRange_inclusive in Hin as [Hmin Hmax].
  unfold aboveMin, belowMax in *. cbn [min max] in *.
  assert (Hearly : localError legacy props st = Some TooEarly ->
                   exists mn, minDate props = Some mn /\ Day sel = Day mn /\ sel < mn).
  { unfold localError. rewrite Hsel.
    destruct (minDate props) as [mn |].
    - destruct (Z.ltb_spec sel mn) as [Hlt | Hge].
      + intros _. exists mn. split; [reflexivity |]. split; [| exact Hlt].
        symmetry. apply same_day_of_bounds; [now apply Hmin | exact Hlt].
      + repeat match goal with |- context [if ?c then _ else _] => destruct c end;
          discriminate.
    - repeat match goal with |- context [if ?c then _ else _] => destruct c end;
        discriminate. }
  split; [exact Hearly |]. split.
  - unfold localError. rewrite Hsel.
    destruct (match minDate props with Some mn => sel <? mn | None => false end);
      [discriminate |].
    destruct (maxDate props) as [mx |].
    + rewrite Z.gtb_ltb. destruct (Z.ltb_spec mx sel) as [Hlt | Hge].
      * intros _. exists mx. split; [reflexivity |]. split; [| exact Hlt].
        apply same_day_of_bounds; [now apply Hmax | exact Hlt].
      * destruct (requireTime props && negb (picked_time st)); discriminate.
    + destruct (requireTime props && negb (picked_time st)); discriminate.
  - intros Hmid H. apply Hearly in H as (mn & Hmn & Hday & Hlt).
    specialize (Hmid mn Hmn). specialize (Hmin mn Hmn).
    pose proof (stripTime_le sel). lia.
Qed.

(** X25.  A field mounted with a value inside the range shows the
    choose-date-and-time error when [requireTime] is on, although the value
    is complete; the error goes once the picker has been opened, and stays
    away after it is closed. *)
Theorem error_until_first_open (legacy : string -> option Z) (props : Props)
    (now : Date) (v : FieldValue) (sel : Date) :
  parseToDate legacy v = Some sel ->
  requireTime props = true ->
  (forall mn, minDate props = Some mn -> mn <= sel) ->
  (forall mx, maxDate props = Some mx -> sel <= mx) ->
  localError legacy props (initialState now v) = Some ChooseDateAndTime
  /\ (disabled props = false ->
      let opened := fst (step legacy props now (initialState now v) (EvOpenChange true)) in
      let closed := fst (step legacy props now opened (EvOpenChange false)) in
      localError legacy props opened = None /\ localError legacy props closed = None).
Proof.
  intros Hsel Hrt Hmin Hmax.
  assert (Hrange : forall s, value s = v ->
            localError legacy props s
            = if requireTime props && negb (picked_time s)
              then Some ChooseDateAndTime else None).
  { intros s Hv. unfold localError, selected. rewrite Hv, Hsel.
    destruct (minDate props) as [mn |].
    - specialize (Hmin mn eq_refl). destruct (Z.ltb_spec sel mn); [lia |].
      destruct (maxDate props) as [mx |]; [| reflexivity].
      specialize (Hmax mx eq_refl). rewrite Z.gtb_ltb.
      destruct (Z.ltb_spec mx sel); [lia | reflexivity].
    - destruct (maxDate props) as [mx |]; [| reflexivity].
      specialize (Hmax mx eq_refl). rewrite Z.gtb_ltb.
      destruct (Z.ltb_spec mx sel); [lia | reflexivity]. }
  split.
  - rewrite Hrange by reflexivity. rewrite Hrt. reflexivity.
  - intros Hdis. cbv zeta.
    rewrite (step_open legacy props now (initialState now v) eq_refl Hdis).
    cbv zeta. cbn [fst]. unfold selected. cbn [value initialState].
    rewrite Hsel. cbn [isSome].
    split.
    + rewrite Hrange by reflexivity. rewrite Hrt. reflexivity.
    + rewrite step_close. cbn [fst]. unfold onOpenChange.
      cbn [negb picked_date picked_time andb]. rewrite andb_false_r.
      rewrite Hrange by reflexivity. rewrite Hrt. reflexivity.
Qed.

(* ================================================================== *)
(** * The date picker                                                  *)
(* ================================================================== *)

(** A committed value reads back as the instant it encodes. *)
Lemma parse_encode legacy mode t :
  Z.abs t <= maxTime -> parseToDate legacy (encode mode t) = Some t.
Proof.
  intros Ht. destruct mode; [| reflexivity].
  unfold encode, parseToDate, Date_parse.
  now rewrite toISOString_not_empty, parse_toISOString.
Qed.

(** The value after an event of the date picker is the committed one, if any. *)
Lemma DatePicker_step_value legacy props now st ev :
  DatePicker.value (fst (DatePicker.step legacy props now st ev))
  = match snd (DatePicker.step legacy props now st ev) with
    | Some v => v
    | None => DatePicker.value st
    end
  /\ snd (DatePicker.step legacy props now st ev)
     = snd (DatePicker.dispatch legacy props now st ev).
Proof.
  assert (Hv : DatePicker.value (fst (DatePicker.dispatch legacy props now st ev))
               = DatePicker.value st).
  { destruct ev; unfold DatePicker.dispatch;
      match goal with |- context [if ?c then _ else _] => destruct c end;
      cbn [fst]; try reflexivity; destruct st; reflexivity. }
  unfold DatePicker.step.
  destruct (DatePicker.dispatch legacy props now st ev) as [s1 em]. cbn [fst snd] in *.
  split; [| reflexivity].
  assert (Hs : forall s, DatePicker.value (DatePicker.syncEffect legacy props now s)
                         = DatePicker.value s).
  { intros s. unfold DatePicker.syncEffect.
    destruct (negb (DatePicker.open s)); [reflexivity |]. destruct s; reflexivity. }
  destruct em as [v |];
    match goal with |- context [if ?c then _ else _] => destruct c end;
    rewrite ?Hs; try exact Hv; destruct s1; reflexivity.
Qed.

(** X26.  In the date picker a click on an enabled day cell commits at
    once the midnight of that day of the displayed month, encoded as
    [valueAs] says, which becomes the value; it passes the day check, and
    the range error shows after it exactly when the day is the day of a
    [minDate] that is not at midnight. *)
Theorem datepicker_commits_picked_day (legacy : string -> option Z)
    (props : DatePicker.Props) (now : Date) (st : DatePicker.State) (d : Z) :
  let y := getFullYear (DatePicker.displayDate st) in
  let m0 := getMonth (DatePicker.displayDate st) in
  let day := newDate3 y m0 d in
  DatePicker.open st = true -> DatePicker.view st = ViewDate ->
  DatePicker.dayRendered st d = true ->
  DateUtils.isDayDisabled day (DatePicker.rangeObj props)
                          (DatePicker.disabledDates props) = false ->
  let st' := fst (DatePicker.step legacy props now st (DatePicker.EvDayClick d)) in
  snd (DatePicker.step legacy props now st (DatePicker.EvDayClick d))
  = Some (encode (DatePicker.valueAs props) day)
  /\ DatePicker.value st' = encode (DatePicker.valueAs props) day
  /\ (getFullYear day = y /\ getMonth day = m0 /\ getDate day = d
      /\ stripTime day = day)
  /\ isDateInRange day (DatePicker.rangeObj props) true = true
  /\ (Z.abs day <= maxTime ->
      DatePicker.selected legacy st' = Some day
      /\ (DatePicker.localError legacy props st' = true
          <-> exists mn, DatePicker.minDate props = Some mn
                         /\ Day day = Day mn /\ stripTime mn < mn)).
Proof.
  cbv zeta. intros Ho Hv Hr Hen.
  assert (Hd : 1 <= d <= DaysInMonth (getFullYear (DatePicker.displayDate st))
                          (getMonth (DatePicker.displayDate st) + 1))
    by (revert Hr; unfold DatePicker.dayRendered; apply dayRendered_bounds).
  destruct (date_fields_valid (DatePicker.displayDate st)) as [HM0 _].
  remember (getFullYear (DatePicker.displayDate st)) as y eqn:Ey.
  remember (getMonth (DatePicker.displayDate st)) as m0 eqn:Em0.
  destruct (fields_newDate3 y m0 d HM0 Hd) as (A1 & A2 & A3).
  pose proof (stripTime_newDate3 y m0 d) as Hmid.
  assert (Hin : isDateInRange (newDate3 y m0 d) (DatePicker.rangeObj props) true = true).
  { revert Hen. unfold DateUtils.isDayDisabled.
    destruct (match DatePicker.disabledDates props with Some p => p _ | None => false end);
      [discriminate |].
    destruct (isDateInRange _ (DatePicker.rangeObj props) true);
      [reflexivity | discriminate]. }
  assert (Hem : snd (DatePicker.step legacy props now st (DatePicker.EvDayClick d))
                = Some (encode (DatePicker.valueAs props) (newDate3 y m0 d))).
  { rewrite (proj2 (DatePicker_step_value legacy props now st _)).
    unfold DatePicker.dispatch. rewrite <- Ey, <- Em0, Ho, Hv, Hr, Hen.
    cbn [andb negb viewEqb snd].
    unfold DatePicker.handleDateSelect, DatePicker.commit.
    rewrite <- Ey, <- Em0, Hin, Hmid. cbn [negb]. unfold encode. reflexivity. }
  assert (Hval : DatePicker.value
                   (fst (DatePicker.step legacy props now st (DatePicker.EvDayClick d)))
                 = encode (DatePicker.valueAs props) (newDate3 y m0 d)).
  { rewrite (proj1 (DatePicker_step_value legacy props now st _)), Hem. reflexivity. }
  split; [exact Hem |]. split; [exact Hval |].
  split; [repeat split; assumption |]. split; [exact Hin |].
  intros Hmax.
  assert (Hsel : DatePicker.selected legacy
                   (fst (DatePicker.step legacy props now st (DatePicker.EvDayClick d)))
                 = Some (newDate3 y m0 d)).
  { unfold DatePicker.selected. rewrite Hval. apply parse_encode. exact Hmax. }
  split; [exact Hsel |].
  unfold DatePicker.localError. rewrite Hsel.
  unfold DatePicker.rangeObj in Hin.
  apply isDateInRange_inclusive in Hin as [Hmin Hmx].
  unfold aboveMin, belowMax in *. cbn [min max] in *. rewrite Hmid in Hmin, Hmx.
  assert (Hlate : match DatePicker.maxDate props with
                  | Some mx => newDate3 y m0 d >? mx
                  | None => false
                  end = false).
  { destruct (DatePicker.maxDate props) as [mx |]; [| reflexivity].
    specialize (Hmx mx eq_refl). pose proof (stripTime_le mx).
    rewrite Z.gtb_ltb. destruct (Z.ltb_spec mx (newDate3 y m0 d)); [lia | reflexivity]. }
  rewrite Hlate, orb_false_r.
  destruct (DatePicker.minDate props) as [mn |].
  - specialize (Hmin mn eq_refl). pose proof (stripTime_le mn) as Hle.
    pose proof (newDate3_MakeDay y m0 d) as Ek.
    pose proof (Day_newDate3 y m0 d) as Edk.
    pose proof (stripTime_Day mn) as Emn.
    remember (newDate3 y m0 d) as day eqn:Eday.
    remember (stripTime mn) as smn eqn:Esmn.
    remember (MakeDay y m0 d) as k eqn:Ekk.
    remember (Day mn) as kmn eqn:Ekmn.
    clear Eday Ekk Hmid Hlate Hsel Hval Hem A1 A2 A3.
    rewrite Z.ltb_lt. unfold msPerDay in *. split.
    + intros Hlt. exists mn. split; [reflexivity |]. split; lia.
    + intros (mn' & [= <-] & Hday & Hlt). lia.
  - split; [discriminate | intros (mn & [=] & _)].
Qed.

(** X27.  Clearing commits [DeletionValuesMap[emptyAs]] in the date
    picker and undefined in the date-time picker; each of these values
    parses to no date and is no ISO text, so after a clear nothing is
    selected and no range error shows. *)
Theorem clear_leaves_no_selection (legacy : string -> option Z) :
  (forall k, parseToDate legacy (DeletionValuesMap k) = None
             /\ isIsoDateString (DeletionValuesMap k) = false)
  /\ (forall (dprops : DatePicker.Props) now st v,
        snd (DatePicker.step legacy dprops now st DatePicker.EvClear) = Some v ->
        let st' := fst (DatePicker.step legacy dprops now st DatePicker.EvClear) in
        v = DeletionValuesMap (DatePicker.emptyAs dprops)
        /\ DatePicker.value st' = v
        /\ DatePicker.selected legacy st' = None
        /\ DatePicker.localError legacy dprops st' = false)
  /\ (forall (props : Props) now st v,
        snd (step legacy props now st EvClear) = Some v ->
        let st' := fst (step legacy props now st EvClear) in
        v = VUndefined /\ value st' = VUndefined
        /\ selected legacy st' = None /\ localError legacy props st' = None).
Proof.
  assert (Hdel : forall k, parseToDate legacy (DeletionValuesMap k) = None)
    by (intros []; reflexivity).
  split; [intros k; split; [apply Hdel | destruct k; reflexivity] |]. split.
  - intros dprops now st v Hv. cbv zeta.
    destruct (DatePicker_step_value legacy dprops now st DatePicker.EvClear) as [Hval Hem].
    rewrite Hv in Hval. rewrite Hem in Hv.
    assert (Ev : v = DeletionValuesMap (DatePicker.emptyAs dprops)).
    { revert Hv. unfold DatePicker.dispatch.
      match goal with |- context [if ?c then _ else _] => destruct c end;
        cbn [snd]; [| discriminate].
      unfold DatePicker.clear, DatePicker.commit. congruence. }
    split; [exact Ev |]. split; [exact Hval |].
    assert (Hsel : DatePicker.selected legacy
                     (fst (DatePicker.step legacy dprops now st DatePicker.EvClear)) = None)
      by (unfold DatePicker.selected; rewrite Hval, Ev; apply Hdel).
    split; [exact Hsel |]. unfold DatePicker.localError. now rewrite Hsel.
  - intros props now st v Hv. cbv zeta.
    pose proof (step_value legacy props now st EvClear) as Hval. rewrite Hv in Hval.
    rewrite step_emitted in Hv.
    assert (Ev : v = VUndefined).
    { revert Hv. unfold dispatch.
      match goal with |- context [if ?c then _ else _] => destruct c end;
        cbn [snd]; [| discriminate].
      unfold clear, commit. congruence. }
    rewrite Ev in Hval. split; [exact Ev |]. split; [exact Hval |].
    assert (Hsel : selected legacy (fst (step legacy props now st EvClear)) = None)
      by (unfold selected; now rewrite Hval).
    split; [exact Hsel |]. unfold localError. now rewrite Hsel.
Qed.

(** X28.  Opening the date picker commits nothing and shows the month
    of the selected value, else of [minDate], else of [maxDate], else of the
    clock, on its first day; the day of that date is a cell of the grid. *)
Theorem datepicker_open_shows_month (legacy : string -> option Z)
    (props : DatePicker.Props) (now : Date) (st : DatePicker.State) :
  DatePicker.open st = false -> DatePicker.disabled props = false ->
  let st' := fst (DatePicker.step legacy props now st (DatePicker.EvOpenChange true)) in
  let base :=
    match DatePicker.selected legacy st with
    | Some d => d
    | None =>
        match DatePicker.minDate props with
        | Some mn => mn
        | None => match DatePicker.maxDate props with Some mx => mx | None => now end
        end
    end in
  snd (DatePicker.step legacy props now st (DatePicker.EvOpenChange true)) = None
  /\ DatePicker.open st' = true /\ DatePicker.value st' = DatePicker.value st
  /\ DatePicker.view st' = DatePicker.view st
  /\ DatePicker.displayDate st' = startOfMonth base
  /\ (getFullYear (DatePicker.displayDate st') = getFullYear base
      /\ getMonth (DatePicker.displayDate st') = getMonth base
      /\ getDate (DatePicker.displayDate st') = 1)
  /\ DatePicker.dayRendered st' (getDate base) = true.
Proof.
  intros Ho Hdis. cbv zeta.
  assert (Est : DatePicker.step legacy props now st (DatePicker.EvOpenChange true)
    = (DatePicker.mkState true (DatePicker.view st)
         (startOfMonth
            match DatePicker.selected legacy st with
            | Some d => d
            | None =>
                match DatePicker.minDate props with
                | Some mn => mn
                | None => match DatePicker.maxDate props with
                          | Some mx => mx
                          | None => now
                          end
                end
            end)
         (DatePicker.value st), None)).
  { unfold DatePicker.step, DatePicker.dispatch. rewrite Hdis. cbn [andb].
    destruct st as [o v dd val]. cbn [DatePicker.open] in Ho. subst o.
    cbn [DatePicker.setOpen DatePicker.open DatePicker.view DatePicker.displayDate
         DatePicker.value Bool.eqb negb orb].
    unfold DatePicker.syncEffect, DatePicker.selected.
    cbn [DatePicker.open DatePicker.setDisplayDate DatePicker.view DatePicker.value negb].
    reflexivity. }
  rewrite Est. cbn [fst snd DatePicker.open DatePicker.value DatePicker.view
                    DatePicker.displayDate].
  set (base := match DatePicker.selected legacy st with
               | Some d => d
               | None => _
               end).
  pose proof (fields_startOfMonth base) as (F1 & F2 & F3).
  split; [reflexivity |]. split; [reflexivity |]. split; [reflexivity |].
  split; [reflexivity |]. split; [reflexivity |].
  split; [repeat split; assumption |].
  unfold DatePicker.dayRendered. cbn [DatePicker.displayDate].
  destruct (buildDaysGrid_layout (startOfMonth base)) as (pad & ->). cbv zeta.
  rewrite F1, F2.
  destruct (date_fields_valid base) as [_ HD].
  rewrite !existsb_app. apply orb_true_iff. right. apply orb_true_iff. left.
  apply existsb_exists. exists (Some (getDate base)). split; [| apply Z.eqb_refl].
  apply in_map. unfold countFrom. apply in_map_iff.
  exists (Z.to_nat (getDate base - 1)). split; [lia |]. apply in_seq. lia.
Qed.

(* ================================================================== *)
(** * Sessions                                                         *)
(* ================================================================== *)

(** X29.  Every value committed in a session of events, from any
    state, is undefined or the encoding of an instant that passes the
    day-level range check, on a multiple of the minute step, with seconds
    and milliseconds zero. *)
Theorem session_commits_within_day_range (legacy : string -> option Z) (props : Props)
    (evs : list (Date * Event)) (st : State) :
  Forall (fun v => v = VUndefined
                   \/ exists t, v = encode (valueAs props) t
                                /\ isDateInRange t (rangeObj props) true = true
                                /\ getSeconds t = 0 /\ getMilliseconds t = 0
                                /\ getMinutes t mod minuteStep props = 0)
         (snd (run legacy props st evs)).
Proof.
  revert st. induction evs as [| [now ev] rest IH]; intros st.
  - constructor.
  - rewrite run_cons. cbn [snd].
    destruct (snd (step legacy props now st ev)) as [v |] eqn:E; [| apply IH].
    constructor; [| apply IH].
    rewrite step_emitted in E. pose proof E as E'.
    apply dispatch_emits in E' as [(m & t & -> & _) | [_ ->]]; [| now left].
    right. unfold dispatch in E.
    match type of E with context [if ?c then _ else _] => destruct c eqn:G end;
      cbn [snd] in E; [| discriminate].
    apply andb_prop in G as [G _]. apply andb_prop in G as [_ Hopt].
    apply memZ_In in Hopt.
    destruct (minuteOptions_bound props m Hopt) as (Hs & Hm & Hmod).
    pose proof (getHours_range (draft st)) as Hh.
    unfold setMinute in E. cbv zeta in E.
    replace (NumberUtils.clamp m 0 59) with m in E by (unfold NumberUtils.clamp; lia).
    match type of E with context [if ?c then _ else _] => destruct c end;
      cbn [snd] in E; [discriminate |].
    unfold commitIfComplete in E. rewrite orb_true_r in E.
    apply commit_guarded in E as [Hin ->].
    destruct (seconds_newDate5 (getFullYear (draft st)) (getMonth (draft st))
                (getDate (draft st)) (getHours (draft st)) m Hh Hm) as [S1 S2].
    eexists. split; [reflexivity |]. split; [exact Hin |].
    split; [exact S1 |]. split; [exact S2 |].
    rewrite getMinutes_newDate5 by assumption. exact Hmod.
Qed.

(* ================================================================== *)
(** * The further theorems at concrete inputs                          *)
(* ================================================================== *)

(** X15 on the picker bounded by 2024-01-10 and 2024-03-20, January displayed: the arrow to February. *)
Lemma navigation_keeps_open_month_witness :
  keepsYear (EvNavigate 1)
  /\ displayedMonthOpen propsQuarter openedQuarter = true
  /\ displayedMonthOpen propsQuarter
       (fst (step noLegacy propsQuarter clockScenario openedQuarter (EvNavigate 1))) = true.
Proof.
  assert (H1 : keepsYear (EvNavigate 1)) by exact I.
  assert (H2 : displayedMonthOpen propsQuarter openedQuarter = true)
    by (vm_compute; reflexivity).
  split; [exact H1 |]. split; [exact H2 |].
  exact (navigation_keeps_open_month noLegacy propsQuarter clockScenario openedQuarter
           (EvNavigate 1) H1 H2).
Defined.

(** X16 with the draft on 31 January 2024 at 10:30 and February picked: the draft moves to 2 March. *)
Lemma month_change_witness :
  0 <= 1 <= 11
  /\ isMonthDisabled propsUnbounded (getFullYear (displayDate draftJan31)) 1 = false
  /\ DaysInMonth (getFullYear (displayDate draftJan31)) (1 + 1) < getDate (draft draftJan31)
  /\ getMonth (draft (handleMonthChange propsUnbounded draftJan31 1)) = (1 + 1) mod 12
  /\ getDate (draft (handleMonthChange propsUnbounded draftJan31 1))
     = getDate (draft draftJan31)
       - DaysInMonth (getFullYear (displayDate draftJan31)) (1 + 1).
Proof.
  assert (H1 : 0 <= 1 <= 11) by lia.
  assert (H2 : isMonthDisabled propsUnbounded (getFullYear (displayDate draftJan31)) 1
               = false) by (vm_compute; reflexivity).
  assert (H3 : DaysInMonth (getFullYear (displayDate draftJan31)) (1 + 1)
               < getDate (draft draftJan31)) by (vm_compute; reflexivity).
  destruct (month_change_carries_draft propsUnbounded draftJan31 1 H1 H2)
    as (_ & _ & _ & _ & Hover).
  destruct (Hover H3) as (_ & Hm & Hd).
  exact (conj H1 (conj H2 (conj H3 (conj Hm Hd)))).
Defined.

(** X18 on the scenario's picker: a click on day 15. *)
Lemma day_click_witness :
  open openedScenario = true /\ view openedScenario = ViewDate
  /\ dayRendered openedScenario 15 = true
  /\ isDayDisabled propsScenario
       (newDate3 (getFullYear (displayDate openedScenario))
                 (getMonth (displayDate openedScenario)) 15) = false
  /\ draft (fst (step noLegacy propsScenario clockScenario openedScenario (EvDayClick 15)))
     = newDate3 (getFullYear (displayDate openedScenario))
                (getMonth (displayDate openedScenario)) 15
  /\ snd (step noLegacy propsScenario clockScenario openedScenario (EvDayClick 15)) = None.
Proof.
  assert (H1 : open openedScenario = true) by (vm_compute; reflexivity).
  assert (H2 : view openedScenario = ViewDate) by (vm_compute; reflexivity).
  assert (H3 : dayRendered openedScenario 15 = true) by (vm_compute; reflexivity).
  assert (H4 : isDayDisabled propsScenario
                 (newDate3 (getFullYear (displayDate openedScenario))
                           (getMonth (displayDate openedScenario)) 15) = false)
    by (vm_compute; reflexivity).
  destruct (day_click_sets_draft noLegacy propsScenario clockScenario openedScenario 15
              H1 H2 H3 H4) as (Hn & _ & Hd & _).
  exact (conj H1 (conj H2 (conj H3 (conj H4 (conj Hd Hn))))).
Defined.

(** X19 on the scenario's picker: day 15, hour 10, minute 30. *)
Lemma pick_sequence_witness :
  open openedScenario = true /\ view openedScenario = ViewDate
  /\ dayRendered openedScenario 15 = true
  /\ isDayDisabled propsScenario
       (newDate3 (getFullYear (displayDate openedScenario))
                 (getMonth (displayDate openedScenario)) 15) = false
  /\ 0 <= 10 <= 23
  /\ isHourCompletelyDisabled propsScenario (handleDateSelect openedScenario 15) 10 = false
  /\ In 30 (minuteOptions propsScenario)
  /\ isMinuteDisabled propsScenario
       (setHour propsScenario (handleDateSelect openedScenario 15) 10) 30 = false
  /\ snd (run noLegacy propsScenario openedScenario
            [(clockScenario, EvDayClick 15); (clockScenario, EvHourClick 10);
             (clockScenario, EvMinuteClick 30)])
     = [encode (valueAs propsScenario)
          (newDate5 (getFullYear (displayDate openedScenario))
                    (getMonth (displayDate openedScenario)) 15 10 30)].
Proof.
  assert (H1 : open openedScenario = true) by (vm_compute; reflexivity).
  assert (H2 : view openedScenario = ViewDate) by (vm_compute; reflexivity).
  assert (H3 : dayRendered openedScenario 15 = true) by (vm_compute; reflexivity).
  assert (H4 : isDayDisabled propsScenario
                 (newDate3 (getFullYear (displayDate openedScenario))
                           (getMonth (displayDate openedScenario)) 15) = false)
    by (vm_compute; reflexivity).
  assert (H5 : 0 <= 10 <= 23) by lia.
  assert (H6 : isHourCompletelyDisabled propsScenario
                 (handleDateSelect openedScenario 15) 10 = false)
    by (vm_compute; reflexivity).
  assert (H7 : In 30 (minuteOptions propsScenario))
    by (vm_compute; right; right; left; reflexivity).
  assert (H8 : isMinuteDisabled propsScenario
                 (setHour propsScenario (handleDateSelect openedScenario 15) 10) 30
               = false) by (vm_compute; reflexivity).
  destruct (pick_sequence_commits noLegacy propsScenario clockScenario clockScenario
              clockScenario openedScenario 15 10 30 H1 H2 H3 H4 H5 H6 H7 H8)
    as (Hout & _).
  exact (conj H1 (conj H2 (conj H3 (conj H4 (conj H5 (conj H6 (conj H7 (conj H8 Hout)))))))).
Defined.

(** X20 on the scenario's picker, day 15 and hour 10 picked: the click on minute 30. *)
Lemma commit_on_step_grid_witness :
  snd (step noLegacy propsScenario clockScenario pickedHour10 (EvMinuteClick 30))
  = Some (VDate (Some (newDate5 2024 0 15 10 30)))
  /\ exists m t,
       EvMinuteClick 30 = EvMinuteClick m
       /\ VDate (Some (newDate5 2024 0 15 10 30)) = encode (valueAs propsScenario) t
       /\ Day t = Day (draft pickedHour10) /\ getMinutes t = m.
Proof.
  assert (H : snd (step noLegacy propsScenario clockScenario pickedHour10
                     (EvMinuteClick 30))
              = Some (VDate (Some (newDate5 2024 0 15 10 30))))
    by (vm_compute; reflexivity).
  split; [exact H |].
  destruct (commit_on_step_grid noLegacy propsScenario clockScenario pickedHour10
              (EvMinuteClick 30) _ H) as [[Hc _] | (m & t & E1 & E2 & _ & _ & _ & D & _ & M & _)].
  - discriminate Hc.
  - exists m, t. exact (conj E1 (conj E2 (conj D M))).
Defined.

(** X22 on the scenario's picker, at hour 9. *)
Lemma hour_disabled_witness :
  0 <= 9 <= 23
  /\ match getLowerBoundForDraft propsScenario openedScenario with
     | Some lower =>
         minMinuteStepAligned lower <= 59
         /\ (9 < minHour lower -> isHourCompletelyDisabled propsScenario openedScenario 9 = true)
         /\ (minHour lower <= 9 ->
             isHourCompletelyDisabled propsScenario openedScenario 9
             = List.forallb (isMinuteDisabled propsScenario (atHour openedScenario 9))
                            (minuteOptions propsScenario))
     | None =>
         isHourCompletelyDisabled propsScenario openedScenario 9
         = List.forallb (isMinuteDisabled propsScenario (atHour openedScenario 9))
                        (minuteOptions propsScenario)
     end.
Proof.
  assert (H : 0 <= 9 <= 23) by lia.
  split; [exact H |].
  exact (hour_disabled_iff_minutes propsScenario openedScenario 9 H).
Defined.

(** X23 with a step of 90 minutes. *)
Lemma step_over_60_witness :
  60 < minuteStep propsStep90
  /\ minuteOptions propsStep90 = []
  /\ forall h, isHourCompletelyDisabled propsStep90 openedAt1035 h = true.
Proof.
  assert (H : 60 < minuteStep propsStep90) by (cbn; lia).
  destruct (step_over_60_blocks noLegacy propsStep90 openedAt1035 H) as (H1 & H2 & _).
  exact (conj H (conj H1 H2)).
Defined.

(** X24 on the scenario's picker after day 10 and minute 15: 00:15 on the day of [minDate], that is 09:07. *)
Lemma range_error_witness :
  selected noLegacy committedEarly = Some (newDate5 2024 0 10 0 15)
  /\ isDateInRange (newDate5 2024 0 10 0 15) (rangeObj propsScenario) true = true
  /\ localError noLegacy propsScenario committedEarly = Some TooEarly
  /\ exists mn, minDate propsScenario = Some mn
                /\ Day (newDate5 2024 0 10 0 15) = Day mn
                /\ newDate5 2024 0 10 0 15 < mn.
Proof.
  assert (H1 : selected noLegacy committedEarly = Some (newDate5 2024 0 10 0 15))
    by (vm_compute; reflexivity).
  assert (H2 : isDateInRange (newDate5 2024 0 10 0 15) (rangeObj propsScenario) true
               = true) by (vm_compute; reflexivity).
  assert (H3 : localError noLegacy propsScenario committedEarly = Some TooEarly)
    by (vm_compute; reflexivity).
  destruct (range_error_on_boundary_day noLegacy propsScenario committedEarly
              (newDate5 2024 0 10 0 15) H1 H2) as (Hearly & _).
  exact (conj H1 (conj H2 (conj H3 (Hearly H3)))).
Defined.

(** X25 on the scenario's picker, mounted with 2024-01-12 10:30. *)
Lemma error_until_first_open_witness :
  parseToDate noLegacy (VDate (Some (newDate5 2024 0 12 10 30)))
  = Some (newDate5 2024 0 12 10 30)
  /\ requireTime propsScenario = true
  /\ localError noLegacy propsScenario
       (initialState clockScenario (VDate (Some (newDate5 2024 0 12 10 30))))
     = Some ChooseDateAndTime.
Proof.
  assert (H1 : parseToDate noLegacy (VDate (Some (newDate5 2024 0 12 10 30)))
               = Some (newDate5 2024 0 12 10 30)) by reflexivity.
  assert (H2 : requireTime propsScenario = true) by reflexivity.
  assert (H3 : forall mn, minDate propsScenario = Some mn ->
                          mn <= newDate5 2024 0 12 10 30)
    by (intros mn [= <-]; vm_compute; discriminate).
  assert (H4 : forall mx, maxDate propsScenario = Some mx ->
                          newDate5 2024 0 12 10 30 <= mx)
    by (intros mx [= <-]; vm_compute; discriminate).
  destruct (error_until_first_open noLegacy propsScenario clockScenario
              (VDate (Some (newDate5 2024 0 12 10 30))) (newDate5 2024 0 12 10 30)
              H1 H2 H3 H4) as (Herr & _).
  exact (conj H1 (conj H2 Herr)).
Defined.

(** X26 on the date picker of the scenario: a click on day 10, the day of [minDate]. *)
Lemma datepicker_commit_witness :
  DatePicker.open dateOpened = true /\ DatePicker.view dateOpened = ViewDate
  /\ DatePicker.dayRendered dateOpened 10 = true
  /\ DateUtils.isDayDisabled
       (newDate3 (getFullYear (DatePicker.displayDate dateOpened))
                 (getMonth (DatePicker.displayDate dateOpened)) 10)
       (DatePicker.rangeObj datePropsScenario)
       (DatePicker.disabledDates datePropsScenario) = false
  /\ snd (DatePicker.step noLegacy datePropsScenario clockScenario dateOpened
            (DatePicker.EvDayClick 10))
     = Some (encode (DatePicker.valueAs datePropsScenario)
               (newDate3 (getFullYear (DatePicker.displayDate dateOpened))
                         (getMonth (DatePicker.displayDate dateOpened)) 10)).
Proof.
  assert (H1 : DatePicker.open dateOpened = true) by reflexivity.
  assert (H2 : DatePicker.view dateOpened = ViewDate) by reflexivity.
  assert (H3 : DatePicker.dayRendered dateOpened 10 = true) by (vm_compute; reflexivity).
  assert (H4 : DateUtils.isDayDisabled
                 (newDate3 (getFullYear (DatePicker.displayDate dateOpened))
                           (getMonth (DatePicker.displayDate dateOpened)) 10)
                 (DatePicker.rangeObj datePropsScenario)
                 (DatePicker.disabledDates datePropsScenario) = false)
    by (vm_compute; reflexivity).
  destruct (datepicker_commits_picked_day noLegacy datePropsScenario clockScenario
              dateOpened 10 H1 H2 H3 H4) as (Hem & _).
  exact (conj H1 (conj H2 (conj H3 (conj H4 Hem)))).
Defined.

(** X28 on the date picker of the scenario, nothing selected: it opens on the month of [minDate]. *)
Lemma datepicker_open_witness :
  DatePicker.open (DatePicker.initialState clockScenario VUndefined) = false
  /\ DatePicker.disabled datePropsScenario = false
  /\ DatePicker.displayDate
       (fst (DatePicker.step noLegacy datePropsScenario clockScenario
               (DatePicker.initialState clockScenario VUndefined)
               (DatePicker.EvOpenChange true)))
     = startOfMonth (newDate5 2024 0 10 9 7).
Proof.
  assert (H1 : DatePicker.open (DatePicker.initialState clockScenario VUndefined) = false)
    by reflexivity.
  assert (H2 : DatePicker.disabled datePropsScenario = false) by reflexivity.
  destruct (datepicker_open_shows_month noLegacy datePropsScenario clockScenario
              (DatePicker.initialState clockScenario VUndefined) H1 H2)
    as (_ & _ & _ & _ & Hd & _).
  exact (conj H1 (conj H2 Hd)).
Defined.

(** X11 on the year number 99, against a range within June 1999. *)
Lemma isYearInRange_any_year_witness :
  yearInTimeRange 99 /\ fullYearRange rangeJune1999
  /\ AnyYear.MakeFullYear 99 = 1900 + 99
  /\ (AnyYear.isYearInRange 99 (Some rangeJune1999) = true
      <-> exists t, getFullYear t = AnyYear.MakeFullYear 99
                    /\ isDateInRange t (Some rangeJune1999) true = true).
Proof.
  assert (H0 : yearInTimeRange 99) by (unfold yearInTimeRange; lia).
  assert (H : fullYearRange rangeJune1999).
  { split; intros b [= <-]; right; vm_compute; reflexivity. }
  destruct (isYearInRange_any_year 99 rangeJune1999 H0 H) as (_ & (_ & Hy & _) & Ht & _).
  exact (conj H0 (conj H (conj (proj1 (Hy ltac:(lia))) (Ht ltac:(lia))))).
Defined.
